(** * goes: the connection layer of the Event Store TCP client

    A shallow embedding of [eventstore/connection.go].  The Go code mutates one
    shared [EventStoreConnection] object, talks to a socket, to channels and to
    the logger, and starts goroutines.  Here the connection object and the
    process-wide history of effects are threaded explicitly through a small
    state monad whose computations either return or abort (log.Fatal, a
    run-time panic, a mutex that is never released). *)

From Stdlib Require Import ZArith List String Bool Lia.
From Stdlib Require Strings.Byte.
From stdpp Require Import base option list countable gmap fin_maps.

Import ListNotations.
Local Open Scope Z_scope.

(** ** Bytes and UUIDs *)

Abbreviation byte := Byte.byte.

#[global] Instance byte_eq_decision : EqDecision byte := Byte.byte_eq_dec.

#[global] Instance byte_countable : Countable byte :=
  inj_countable Byte.to_N Byte.of_N Byte.of_to_N.

(** [uuid.UUID] is the array type [[16]byte].  A value of the model is the
    list of its bytes; the values the library hands out have length 16. *)
Definition UUID : Type := list byte.

Module uuid.

Definition Size : nat := 16.

(** [uuid.Nil], the zero value of the array. *)
Definition Nil : UUID := repeat Byte.x00 Size.

(** [u.Bytes()] is the slice [u[:]]. *)
Definition Bytes (u : UUID) : list byte := u.

(** [uuid.FromBytes(input)]: unmarshalling fails unless exactly 16 bytes are
    given, and then the zero UUID is returned next to the error.  All the
    callers in connection.go discard the error. *)
Definition FromBytes (input : list byte) : UUID * bool :=
  if (length input =? Size)%nat then (input, true) else (Nil, false).

End uuid.

(** ** Data model *)

(** An [error] value.  The first five are built by connection.go itself with
    [fmt.Errorf]; [External] stands for an error handed over by a
    collaborator (socket, codec, discoverer) with the text of its
    [Error()]. *)
Inductive error : Type :=
| ErrEmptyAddress (address : string)
| ErrBadPort (port : Z)
| ErrResolve (address : string) (port : Z)
| ErrDial (address : string) (port : Z) (details : error)
| ErrRetryLimit (maxReconnects : Z)
| External (text : string).

(** [err.Error() == "EOF"]: the messages formatted by connection.go all start
    with a fixed prefix other than EOF, so only an external error can
    match. *)
Definition is_EOF (err : error) : bool :=
  match err with
  | External text => if string_dec text "EOF"%string then true else false
  | _ => false
  end.

(** [err != nil] *)
Definition is_err (err : option error) : bool :=
  match err with
  | Some _ => true
  | None => false
  end.

(** The command code of a frame, a byte. *)
Definition Command : Type := Z.

(** The command constants connection.go refers to; their declarations live in
    the codec's file.  [badRequestLiteral] is the literal [0x0F] of the last
    case of the dispatch switch. *)
Record CommandCodes : Type := {
  heartbeatRequest : Command;
  heartbeatResponse : Command;
  ping : Command;
  pong : Command;
  writeEventsCompleted : Command;
  readEventCompleted : Command;
  deleteStreamCompleted : Command;
  readStreamEventsForwardCompleted : Command;
  readStreamEventsBackwardCompleted : Command;
  subscriptionConfirmation : Command;
  streamEventAppeared : Command;
  createPersistentSubscriptionCompleted : Command;
  persistentSubscriptionConfirmation : Command;
  subscriptionDropped : Command;
  notAuthenticated : Command
}.

Definition badRequestLiteral : Command := 0x0F.

(** Modelled from the spec: the struct [TCPPackage] is declared with the codec.
    A frame is a command code, a correlation id, a payload and optional
    credentials. *)
Record TCPPackage : Type := {
  pkg_Command : Command;
  pkg_CorrelationID : list byte;
  pkg_Data : list byte;
  pkg_Login : string;
  pkg_Password : string
}.

(** A channel of frames, named by a number. *)
Definition Chan : Type := nat.

(** Modelled from the spec: the struct [Subscription] is declared elsewhere;
    connection.go reads its fields [CorrelationID] and [Channel]. *)
Record Subscription : Type := {
  sub_CorrelationID : UUID;
  sub_Channel : Chan
}.

(** What [Discover()] hands back (the fields connection.go reads). *)
Record MemberInfo : Type := {
  ExternalTCPIP : string;
  ExternalTCPPort : Z
}.

(** The interface [EndpointDiscoverer]: a discoverer is its behaviour, the
    answer to its k-th call. *)
Definition EndpointDiscovererT : Type := nat -> MemberInfo * option error.

Record Configuration : Type := {
  Address : string;
  Port : Z;
  Login : string;
  Password : string;
  ReconnectionDelay : Z;
  MaxReconnects : Z;
  MaxOperationRetries : Z;
  EndpointDiscoverer : option EndpointDiscovererT
}.

(** A connected [*net.TCPConn]. *)
Definition TCPConn : Type := nat.

(** The connection object.  [requests] and [subscriptions] are Go maps, which
    are nil until [Connect] makes them: [None] is the nil map.  [Mutex] is
    [true] while the mutex is held. *)
Record EventStoreConnection : Type := {
  Config : Configuration;
  Socket : option TCPConn;
  connected : bool;
  requests : option (gmap UUID Chan);
  subscriptions : option (gmap UUID Subscription);
  ConnectionID : UUID;
  Mutex : bool
}.

(** [NewConfiguration] (lines 40-46) *)
Definition NewConfiguration : Configuration :=
  {| Address := ""%string; Port := 0; Login := ""%string; Password := ""%string;
     ReconnectionDelay := 10000; MaxReconnects := 10;
     MaxOperationRetries := 10; EndpointDiscoverer := None |}.

(** Reading a Go map: a nil map reads as empty. *)
Definition map_get {V : Type} (m : option (gmap UUID V)) (k : UUID) : option V :=
  match m with
  | Some t => t !! k
  | None => None
  end.

(** The entries of a Go map; a nil map has none.  Go leaves the order of a
    [range] over a map unspecified; the model visits [map_to_list]. *)
Definition map_entries {V : Type} (m : option (gmap UUID V)) : list (UUID * V) :=
  match m with
  | Some t => map_to_list t
  | None => []
  end.

(** ** Effects *)

Inductive LogLevel : Type := info | errorLevel | fatal.

(** The goroutines connection.go starts. *)
Inductive Task : Type :=
| GoReadFromSocket
| GoSendPackage (pkg : TCPPackage) (channel : Chan).

(** One entry of the history of a run, in program order. *)
Inductive Event : Type :=
| EvLog (level : LogLevel)
| EvDiscover
| EvResolve (address : string) (port : Z)
| EvDial (address : string) (port : Z)
| EvSleep (nanoseconds : Z)
| EvSocketClose (socket : TCPConn)
| EvSocketRead (socket : TCPConn)
| EvSocketWrite (socket : option TCPConn) (pkg : TCPPackage)
| EvRegister (correlationID : UUID) (channel : Chan)
| EvResetTables
| EvChanSend (channel : Chan) (pkg : TCPPackage)
| EvGo (task : Task).

(** How often each collaborator has been called so far. *)
Record Calls : Type := {
  n_discover : nat;
  n_resolve : nat;
  n_dial : nat;
  n_read : nat;
  n_write : nat;
  n_close : nat;
  n_uuid : nat;
  n_chan : nat
}.

(** The world outside the connection: the answers of the collaborators,
    indexed by call number.  [proto_Marshal_SubscriptionDropped] is the result
    of [proto.Marshal] on the constant message closeConnection builds. *)
Record Environment : Type := {
  net_ResolveTCPAddr : nat -> option error;
  net_DialTCP : nat -> TCPConn * option error;
  socket_Read : nat -> list byte * option error;
  socket_Write : nat -> option error;
  socket_Close : nat -> option error;
  uuid_NewV4 : nat -> UUID;
  proto_Marshal_SubscriptionDropped : list byte * option error
}.

(** The part of the state that belongs to the process, not to a connection. *)
Record Process : Type := {
  history : list Event;
  calls : Calls
}.

Record World : Type := {
  conn : EventStoreConnection;
  proc : Process
}.

Inductive Abort : Type :=
| Fatal       (* log.Fatal: the process exits *)
| Panic       (* nil pointer dereference, assignment to entry in nil map *)
| Deadlock    (* Lock on a mutex nobody will release *)
| OutOfFuel.  (* the bound of the model on loop iterations *)

Inductive Outcome (A : Type) : Type :=
| Returns (a : A) (w : World)
| Aborts (why : Abort) (w : World).
Arguments Returns {A} a w.
Arguments Aborts {A} why w.

Definition M (A : Type) : Type := World -> Outcome A.

Definition ret {A : Type} (a : A) : M A := fun w => Returns a w.

Definition bind {A B : Type} (c : M A) (k : A -> M B) : M B :=
  fun w =>
    match c w with
    | Returns a w' => k a w'
    | Aborts why w' => Aborts why w'
    end.

Declare Scope go_scope.
Delimit Scope go_scope with go.
Notation "x <- c ;; k" := (bind c (fun x => k))
  (at level 100, c at next level, right associativity) : go_scope.
Notation "c ;;; k" := (bind c (fun _ => k))
  (at level 100, right associativity) : go_scope.
Local Open Scope go_scope.

Definition abort {A : Type} (why : Abort) : M A := fun w => Aborts why w.

Definition final {A : Type} (o : Outcome A) : World :=
  match o with
  | Returns _ w => w
  | Aborts _ w => w
  end.

(** *** Field updates *)

Definition set_Address (x : string) (c : Configuration) : Configuration :=
  {| Address := x; Port := Port c; Login := Login c; Password := Password c;
     ReconnectionDelay := ReconnectionDelay c; MaxReconnects := MaxReconnects c;
     MaxOperationRetries := MaxOperationRetries c;
     EndpointDiscoverer := EndpointDiscoverer c |}.

Definition set_Port (x : Z) (c : Configuration) : Configuration :=
  {| Address := Address c; Port := x; Login := Login c; Password := Password c;
     ReconnectionDelay := ReconnectionDelay c; MaxReconnects := MaxReconnects c;
     MaxOperationRetries := MaxOperationRetries c;
     EndpointDiscoverer := EndpointDiscoverer c |}.

Definition set_Config (x : Configuration) (c : EventStoreConnection) :=
  {| Config := x; Socket := Socket c; connected := connected c;
     requests := requests c; subscriptions := subscriptions c;
     ConnectionID := ConnectionID c; Mutex := Mutex c |}.

Definition set_Socket (x : option TCPConn) (c : EventStoreConnection) :=
  {| Config := Config c; Socket := x; connected := connected c;
     requests := requests c; subscriptions := subscriptions c;
     ConnectionID := ConnectionID c; Mutex := Mutex c |}.

Definition set_connected (x : bool) (c : EventStoreConnection) :=
  {| Config := Config c; Socket := Socket c; connected := x;
     requests := requests c; subscriptions := subscriptions c;
     ConnectionID := ConnectionID c; Mutex := Mutex c |}.

Definition set_requests (x : option (gmap UUID Chan)) (c : EventStoreConnection) :=
  {| Config := Config c; Socket := Socket c; connected := connected c;
     requests := x; subscriptions := subscriptions c;
     ConnectionID := ConnectionID c; Mutex := Mutex c |}.

Definition set_subscriptions (x : option (gmap UUID Subscription))
    (c : EventStoreConnection) :=
  {| Config := Config c; Socket := Socket c; connected := connected c;
     requests := requests c; subscriptions := x;
     ConnectionID := ConnectionID c; Mutex := Mutex c |}.

Definition set_Mutex (x : bool) (c : EventStoreConnection) :=
  {| Config := Config c; Socket := Socket c; connected := connected c;
     requests := requests c; subscriptions := subscriptions c;
     ConnectionID := ConnectionID c; Mutex := x |}.

Inductive Collaborator : Type :=
| CDiscover | CResolve | CDial | CRead | CWrite | CClose | CUuid | CChan.

Definition calls_so_far (o : Collaborator) (c : Calls) : nat :=
  match o with
  | CDiscover => n_discover c | CResolve => n_resolve c | CDial => n_dial c
  | CRead => n_read c | CWrite => n_write c | CClose => n_close c
  | CUuid => n_uuid c | CChan => n_chan c
  end.

Definition bump (o : Collaborator) (c : Calls) : Calls :=
  let inc (o' : Collaborator) (n : nat) : nat :=
    match o, o' with
    | CDiscover, CDiscover | CResolve, CResolve | CDial, CDial | CRead, CRead
    | CWrite, CWrite | CClose, CClose | CUuid, CUuid | CChan, CChan => S n
    | _, _ => n
    end in
  {| n_discover := inc CDiscover (n_discover c);
     n_resolve := inc CResolve (n_resolve c);
     n_dial := inc CDial (n_dial c);
     n_read := inc CRead (n_read c);
     n_write := inc CWrite (n_write c);
     n_close := inc CClose (n_close c);
     n_uuid := inc CUuid (n_uuid c);
     n_chan := inc CChan (n_chan c) |}.

(** Append one event to the history. *)
Definition record_event (e : Event) (p : Process) : Process :=
  {| history := history p ++ [e]; calls := calls p |}.

(** Number the next call of a collaborator. *)
Definition next_call (o : Collaborator) (p : Process) : nat * Process :=
  (calls_so_far o (calls p), {| history := history p; calls := bump o (calls p) |}).

(** *** Primitive computations *)

Definition get_conn : M EventStoreConnection := fun w => Returns (conn w) w.

Definition update_conn (f : EventStoreConnection -> EventStoreConnection) : M unit :=
  fun w => Returns tt {| conn := f (conn w); proc := proc w |}.

Definition emit (e : Event) : M unit :=
  fun w => Returns tt {| conn := conn w; proc := record_event e (proc w) |}.

Definition call (o : Collaborator) : M nat :=
  fun w => let (k, p) := next_call o (proc w) in
           Returns k {| conn := conn w; proc := p |}.

(** [log.Printf] *)
Definition log_Printf (level : LogLevel) : M unit := emit (EvLog level).

(** [log.Fatal], [log.Fatalf]: print, then [os.Exit(1)]. *)
Definition log_Fatal {A : Type} : M A := emit (EvLog fatal) ;;; abort Fatal.

(** [connection.Mutex.Lock()].  The model runs one function at a time, so a
    mutex found held stays held. *)
Definition Mutex_Lock : M unit :=
  c <- get_conn ;;
  if Mutex c then abort Deadlock else update_conn (set_Mutex true).

(** [connection.Mutex.Unlock()]; unlocking a free mutex is a run-time error. *)
Definition Mutex_Unlock : M unit :=
  c <- get_conn ;;
  if Mutex c then update_conn (set_Mutex false) else abort Panic.

(** [time.Millisecond], in nanoseconds. *)
Definition time_Millisecond : Z := 1000000.

(** Arithmetic of [int64], the type of [time.Duration]. *)
Definition wrap_int64 (z : Z) : Z := (z + 2 ^ 63) mod 2 ^ 64 - 2 ^ 63.

(** [time.Duration(delay) * time.Millisecond] *)
Definition delay_Duration (delay : Z) : Z := wrap_int64 (delay * time_Millisecond).

Definition time_Sleep (d : Z) : M unit := emit (EvSleep d).

(** [sub.Channel <- pkg], [request <- msg] *)
Definition chan_send (channel : Chan) (pkg : TCPPackage) : M unit :=
  emit (EvChanSend channel pkg).

(** [make(chan<- TCPPackage)] *)
Definition make_chan : M Chan := call CChan.

(** The [go] statement: the task is handed to the scheduler. *)
Definition go (task : Task) : M unit := emit (EvGo task).

(** ** The program *)

(** What a read does to the receive buffer: the bytes received overwrite its
    front (no more of them than fit), the rest keeps what it held. *)
Definition refill (buffer data : list byte) : list byte :=
  let received := take (length buffer) data in
  (received ++ drop (length received) buffer)%list.

(** What the reader loop does after one pass through its body. *)
Inductive LoopStep : Type :=
| Break
| Continue (buffer : list byte).

Section Connection.

(** The command constants and the codec are declared in files other than
    connection.go.  [newPackage] and [parsePackage] return a frame next to
    an error, as Go functions do. *)
Variable codes : CommandCodes.
Variable newPackage :
  Command -> list byte -> list byte -> string -> string -> TCPPackage * option error.
Variable parsePackage : list byte -> TCPPackage * option error.
Variable env : Environment.

(** [connection.Config.EndpointDiscoverer.Discover()] *)
Definition Discover (d : EndpointDiscovererT) : M (MemberInfo * option error) :=
  k <- call CDiscover ;;
  emit EvDiscover ;;;
  ret (d k).

Definition set_endpoint (memberInfo : MemberInfo) : M unit :=
  update_conn (fun c =>
    set_Config (set_Port (ExternalTCPPort memberInfo)
                  (set_Address (ExternalTCPIP memberInfo) (Config c))) c).

(** [uuid.NewV4()] *)
Definition NewV4 : M UUID :=
  k <- call CUuid ;;
  ret (uuid_NewV4 env k).

(** [connection.Socket.Close()]; the method is promoted from the struct
    embedded in [net.TCPConn], so a nil [Socket] is dereferenced. *)
Definition Socket_Close : M (option error) :=
  c <- get_conn ;;
  match Socket c with
  | None => abort Panic
  | Some s =>
      k <- call CClose ;;
      emit (EvSocketClose s) ;;;
      ret (socket_Close env k)
  end.

(** [connection.Socket.Read(buffer)]; a nil [Socket] is dereferenced. *)
Definition Socket_Read (buffer : list byte) : M (list byte * option error) :=
  c <- get_conn ;;
  match Socket c with
  | None => abort Panic
  | Some s =>
      k <- call CRead ;;
      emit (EvSocketRead s) ;;;
      let (data, err) := socket_Read env k in
      ret (refill buffer data, err)
  end.

(** Modelled from the spec: [pkg.write(connection)] is a method of the codec's
    file; it writes the frame to the socket and touches neither table. *)
Definition write (pkg : TCPPackage) : M (option error) :=
  c <- get_conn ;;
  k <- call CWrite ;;
  emit (EvSocketWrite (Socket c) pkg) ;;;
  ret (socket_Write env k).

(** [connection.requests[correlationID] = channel] *)
Definition requests_store (correlationID : UUID) (channel : Chan) : M unit :=
  c <- get_conn ;;
  match requests c with
  | None => abort Panic
  | Some table =>
      update_conn (set_requests (Some (<[correlationID := channel]> table))) ;;;
      emit (EvRegister correlationID channel)
  end.

(** The two [make] assignments that empty both tables. *)
Definition reset_tables : M unit :=
  update_conn (set_requests (Some ∅)) ;;;
  update_conn (set_subscriptions (Some ∅)) ;;;
  emit EvResetTables.

(** [sendPackage] (lines 225-233) *)
Definition sendPackage (pkg : TCPPackage) (channel : Chan) : M (option error) :=
  let (correlationID, _) := uuid.FromBytes (pkg_CorrelationID pkg) in
  requests_store correlationID channel ;;;
  err <- write pkg ;;
  match err with
  | Some e => ret (Some e)
  | None => ret None
  end.

(** The [range] loop of [closeConnection] (lines 150-156), over the entries
    still to visit. *)
Fixpoint drop_subscriptions (data : list byte)
    (entries : list (UUID * Subscription)) : M unit :=
  match entries with
  | [] => ret tt
  | (_, sub) :: rest =>
      c <- get_conn ;;
      let (pkg, err) :=
        newPackage (subscriptionDropped codes) data
          (uuid.Bytes (sub_CorrelationID sub))
          (Login (Config c)) (Password (Config c)) in
      (if is_err err then log_Printf errorLevel else ret tt) ;;;
      chan_send (sub_Channel sub) pkg ;;;
      drop_subscriptions data rest
  end.

(** [closeConnection] (lines 138-159) *)
Definition closeConnection : M unit :=
  log_Printf errorLevel ;;;
  let (data, err) := proto_Marshal_SubscriptionDropped env in
  (if is_err err then log_Fatal else ret tt) ;;;
  c <- get_conn ;;
  drop_subscriptions data (map_entries (subscriptions c)) ;;;
  reset_tables.

(** [connect] (lines 118-136); the address string handed to the resolver and
    the dialer is [Address:Port], kept here as the pair. *)
Definition connect : M (option error) :=
  log_Printf info ;;;
  c <- get_conn ;;
  let address := Address (Config c) in
  let port := Port (Config c) in
  k <- call CResolve ;;
  emit (EvResolve address port) ;;;
  match net_ResolveTCPAddr env k with
  | Some _ => ret (Some (ErrResolve address port))
  | None =>
      k <- call CDial ;;
      emit (EvDial address port) ;;;
      match net_DialTCP env k with
      | (_, Some e) => ret (Some (ErrDial address port e))
      | (s, None) =>
          log_Printf info ;;;
          update_conn (set_Socket (Some s)) ;;;
          update_conn (set_connected true) ;;;
          go GoReadFromSocket ;;;
          ret None
      end
  end.

(** The first statement of [connectWithRetries] (lines 90-97): with a
    discoverer, ask it for the node to use; its error ends the call. *)
Definition discover_endpoint : M (option error) :=
  c <- get_conn ;;
  match EndpointDiscoverer (Config c) with
  | Some d =>
      found <- Discover d ;;
      match found with
      | (_, Some e) => ret (Some e)
      | (memberInfo, None) => set_endpoint memberInfo ;;; ret None
      end
  | None => ret None
  end.

(** The discovery after a failed attempt (lines 104-109); its error is
    discarded. *)
Definition check_nodes : M unit :=
  c <- get_conn ;;
  match EndpointDiscoverer (Config c) with
  | Some d =>
      log_Printf info ;;;
      found <- Discover d ;;
      set_endpoint (fst found)
  | None => ret tt
  end.

(** [connectWithRetries] (lines 89-116), by recursion on the attempts left:
    [S n] is a positive [retryAttempts], [O] is [retryAttempts <= 0].  The
    counter only goes down from a positive value, so it never wraps. *)
Fixpoint connectWithRetries_attempts (left : nat) : M (option error) :=
  r <- discover_endpoint ;;
  match r with
  | Some e => ret (Some e)
  | None =>
      match left with
      | S left' =>
          err <- connect ;;
          match err with
          | Some _ =>
              log_Printf info ;;;
              c <- get_conn ;;
              time_Sleep (delay_Duration (ReconnectionDelay (Config c))) ;;;
              check_nodes ;;;
              connectWithRetries_attempts left'
          | None => ret None
          end
      | O =>
          closeConnection ;;;
          c <- get_conn ;;
          ret (Some (ErrRetryLimit (MaxReconnects (Config c))))
      end
  end.

Definition connectWithRetries (retryAttempts : Z) : M (option error) :=
  connectWithRetries_attempts (Z.to_nat retryAttempts).

(** [Connect] (lines 49-53) *)
Definition Connect : M (option error) :=
  reset_tables ;;;
  c <- get_conn ;;
  connectWithRetries (MaxReconnects (Config c)).

(** [Close] (lines 56-68) *)
Definition Close : M (option error) :=
  Mutex_Lock ;;;
  update_conn (set_connected false) ;;;
  Mutex_Unlock ;;;
  log_Printf info ;;;
  err <- Socket_Close ;;
  update_conn (set_Socket None) ;;;
  (if is_err err then log_Printf errorLevel else ret tt) ;;;
  closeConnection ;;;
  ret err.

(** [NewEventStoreConnection] (lines 71-87): it allocates the connection, so
    it runs on the process state alone and returns the pair Go returns. *)
Definition NewEventStoreConnection (config : Configuration) (p : Process)
    : (option EventStoreConnection * option error) * Process :=
  let build : (option EventStoreConnection * option error) * Process :=
    let (k, p1) := next_call CUuid p in
    let connection :=
      {| Config := config; Socket := None; connected := false;
         requests := None; subscriptions := None;
         ConnectionID := uuid_NewV4 env k; Mutex := false |} in
    ((Some connection, None), record_event (EvLog info) p1) in
  match EndpointDiscoverer config with
  | None =>
      if (String.length (Address config) =? 0)%nat
      then ((None, Some (ErrEmptyAddress (Address config))), p)
      else if Port config <=? 0
      then ((None, Some (ErrBadPort (Port config))), p)
      else build
  | Some _ => build
  end.

(** The commands of the third case of the dispatch switch. *)
Definition completed_commands : list Command :=
  [ writeEventsCompleted codes; readEventCompleted codes;
    deleteStreamCompleted codes; readStreamEventsForwardCompleted codes;
    readStreamEventsBackwardCompleted codes; subscriptionConfirmation codes;
    streamEventAppeared codes; createPersistentSubscriptionCompleted codes;
    persistentSubscriptionConfirmation codes ].

(** The body shared by the third and the fourth case: look the correlation
    id up in [requests] and, when it is there, send the frame on the
    channel found. *)
Definition deliver (msg : TCPPackage) : M unit :=
  let (correlationID, _) := uuid.FromBytes (pkg_CorrelationID msg) in
  c <- get_conn ;;
  match map_get (requests c) correlationID with
  | Some request => chan_send request msg
  | None => ret tt
  end.

(** The [switch msg.Command] of [readFromSocket] (lines 190-221): the cases
    are tried in order, a [break] inside leaves the switch only. *)
Definition dispatch (msg : TCPPackage) : M unit :=
  let command := pkg_Command msg in
  if command =? heartbeatRequest codes then
    let (pkg, err) :=
      newPackage (heartbeatResponse codes) [] (pkg_CorrelationID msg)
        ""%string ""%string in
    (if is_err err then log_Printf errorLevel else ret tt) ;;;
    channel <- make_chan ;;
    go (GoSendPackage pkg channel)
  else if command =? pong codes then
    fresh <- NewV4 ;;
    let (pkg, err) :=
      newPackage (ping codes) [] (uuid.Bytes fresh) ""%string ""%string in
    (if is_err err then log_Printf errorLevel else ret tt) ;;;
    channel <- make_chan ;;
    go (GoSendPackage pkg channel)
  else if existsb (Z.eqb command) completed_commands then
    deliver msg
  else if command =? notAuthenticated codes then
    deliver msg
  else if command =? badRequestLiteral then
    log_Fatal
  else ret tt.

(** One pass through the body of the [for] loop of [readFromSocket]
    (lines 164-221).  The first [break] leaves the loop with the mutex
    held. *)
Definition readFromSocket_body (buffer : list byte) : M LoopStep :=
  Mutex_Lock ;;;
  c <- get_conn ;;
  if negb (connected c) then ret Break
  else
    Mutex_Unlock ;;;
    r <- Socket_Read buffer ;;
    let (buffer', err) := r in
    match err with
    | Some e =>
        c <- get_conn ;;
        (if connected c && negb (is_EOF e) then log_Fatal else ret tt) ;;;
        (if is_EOF e then
           Close ;;;
           c <- get_conn ;;
           err <- connectWithRetries (MaxReconnects (Config c)) ;;
           (if is_err err then log_Printf errorLevel else log_Printf info)
         else ret tt) ;;;
        ret Break
    | None =>
        let (msg, err) := parsePackage buffer' in
        (if is_err err then log_Fatal else ret tt) ;;;
        dispatch msg ;;;
        ret (Continue buffer')
    end.

(** The [for] loop, for at most [fuel] passes. *)
Fixpoint readFromSocket_loop (fuel : nat) (buffer : list byte) : M unit :=
  match fuel with
  | O => abort OutOfFuel
  | S fuel' =>
      step <- readFromSocket_body buffer ;;
      match step with
      | Break => ret tt
      | Continue buffer' => readFromSocket_loop fuel' buffer'
      end
  end.

(** [readFromSocket] (lines 161-223) *)
Definition readFromSocket (fuel : nat) : M unit :=
  readFromSocket_loop fuel (repeat Byte.x00 40000).

(** What the scheduler runs for a task started with [go]. *)
Definition run_task (fuel : nat) (task : Task) : M unit :=
  match task with
  | GoReadFromSocket => readFromSocket fuel
  | GoSendPackage pkg channel => sendPackage pkg channel ;;; ret tt
  end.

End Connection.

Arguments closeConnection : simpl never.
Arguments connect : simpl never.
Arguments discover_endpoint : simpl never.
Arguments check_nodes : simpl never.
Arguments connectWithRetries : simpl never.
Arguments Close : simpl never.
Arguments sendPackage : simpl never.
Arguments deliver : simpl never.
Arguments dispatch : simpl never.

(** ** Reading a history *)

(** The frames sent on channels, in order. *)
Definition chan_sends (h : list Event) : list (Chan * TCPPackage) :=
  flat_map (fun e => match e with EvChanSend ch pkg => [(ch, pkg)] | _ => [] end) h.

(** The frames written to the socket, in order. *)
Definition socket_writes (h : list Event) : list TCPPackage :=
  flat_map (fun e => match e with EvSocketWrite _ pkg => [pkg] | _ => [] end) h.

(** The goroutines started, in order. *)
Definition started (h : list Event) : list Task :=
  flat_map (fun e => match e with EvGo t => [t] | _ => [] end) h.

(** The history [w'] has beyond the history of [w]. *)
Definition since (w w' : World) : list Event :=
  drop (length (history (proc w))) (history (proc w')).

(** The rhythm of a history: where a connect attempt starts (its address
    resolution), where the caller sleeps and where the tables are emptied. *)
Inductive Beat : Type :=
| Attempt
| Wait (nanoseconds : Z)
| Emptied.

Definition beats (h : list Event) : list Beat :=
  flat_map (fun e => match e with
                     | EvResolve _ _ => [Attempt]
                     | EvSleep d => [Wait d]
                     | EvResetTables => [Emptied]
                     | _ => []
                     end) h.

(** The calls of [net.DialTCP] in a history. *)
Definition dials (h : list Event) : list (string * Z) :=
  flat_map (fun e => match e with EvDial a p => [(a, p)] | _ => [] end) h.

(** [n] failed attempts, each followed by a sleep of [d]. *)
Fixpoint rounds (n : nat) (d : Z) : list Beat :=
  match n with
  | O => []
  | S n' => Attempt :: Wait d :: rounds n' d
  end.

Definition is_attempt (b : Beat) : bool :=
  match b with
  | Attempt => true
  | _ => false
  end.

(** The number of connect attempts in a history. *)
Definition attempts (h : list Event) : nat :=
  length (List.filter is_attempt (beats h)).

(** The part of the configuration no function of connection.go assigns. *)
Definition settings (w : World) :=
  let config := Config (conn w) in
  (Login config, Password config, ReconnectionDelay config,
   MaxReconnects config, EndpointDiscoverer config).

Definition tables (w : World) := (requests (conn w), subscriptions (conn w)).

(** A codec that puts what it is given into the frame it returns. *)
Definition codec_carries
    (newPackage : Command -> list byte -> list byte -> string -> string ->
                  TCPPackage * option error) : Prop :=
  forall command data correlationID login password,
    let pkg := fst (newPackage command data correlationID login password) in
    pkg_Command pkg = command /\ pkg_CorrelationID pkg = correlationID /\
    pkg_Data pkg = data /\ pkg_Login pkg = login /\ pkg_Password pkg = password.

Section Vocabulary.

Variable codes : CommandCodes.
Variable newPackage :
  Command -> list byte -> list byte -> string -> string -> TCPPackage * option error.
Variable env : Environment.

(** The frame [closeConnection] builds for a subscription: the codec's
    frame for the subscription-dropped command, the marshalled reason, the
    subscription's own correlation id and the credentials of the
    connection. *)
Definition drop_notification (config : Configuration) (sub : Subscription)
    : TCPPackage * option error :=
  newPackage (subscriptionDropped codes)
    (fst (proto_Marshal_SubscriptionDropped env))
    (uuid.Bytes (sub_CorrelationID sub))
    (Login config) (Password config).

(** One delivery per entry of a subscriptions table. *)
Definition drop_deliveries (c : Configuration)
    (entries : list (UUID * Subscription)) : list (Chan * TCPPackage) :=
  map (fun entry => (sub_Channel (snd entry),
                     fst (drop_notification c (snd entry)))) entries.

Definition drop_events (c : Configuration)
    (entries : list (UUID * Subscription)) : list Event :=
  flat_map (fun entry =>
              (if is_err (snd (drop_notification c (snd entry)))
               then [EvLog errorLevel] else [])
              ++ [EvChanSend (sub_Channel (snd entry))
                    (fst (drop_notification c (snd entry)))]) entries.

(** What [Close] leaves of a connection. *)
Definition closed (c : EventStoreConnection) : EventStoreConnection :=
  {| Config := Config c; Socket := None; connected := false;
     requests := Some ∅; subscriptions := Some ∅;
     ConnectionID := ConnectionID c; Mutex := false |}.

(** The constants of the cases of the dispatch switch, in the order of the
    source.  The Go compiler rejects a switch with two equal constant
    cases. *)
Definition switch_cases : list Command :=
  [heartbeatRequest codes; pong codes] ++ completed_commands codes
  ++ [notAuthenticated codes; badRequestLiteral].

Definition cases_distinct : Prop := NoDup switch_cases.

(** The commands of the frames that answer a request or belong to a
    subscription: the third and the fourth case. *)
Definition routed_commands : list Command :=
  completed_commands codes ++ [notAuthenticated codes].

(** The state of the reader after a read that returned [data] without an
    error. *)
Definition after_read (s : TCPConn) (w : World) : World :=
  {| conn := conn w;
     proc := {| history := history (proc w) ++ [EvSocketRead s];
                calls := bump CRead (calls (proc w)) |} |}.

(** The state in which the caller sleeps after a failed attempt. *)
Definition paused (w : World) : World :=
  {| conn := conn w;
     proc := {| history :=
                  history (proc w)
                  ++ [EvLog info;
                      EvSleep (delay_Duration (ReconnectionDelay (Config (conn w))))];
                calls := calls (proc w) |} |}.

(** Every attempt fails: the address does not resolve or the dial is
    refused, whichever call of the resolver and of the dialer it is. *)
Definition every_attempt_fails : Prop :=
  forall kr kd,
    is_err (net_ResolveTCPAddr env kr) = true \/
    is_err (snd (net_DialTCP env kd)) = true.

(** Every discovery succeeds (nothing to ask for without a discoverer). *)
Definition every_discovery_succeeds (w : World) : Prop :=
  forall d, EndpointDiscoverer (Config (conn w)) = Some d ->
            forall k, snd (d k) = None.

(** What the reader does after a read that ended in EOF. *)
Definition reconnect_cycle : M LoopStep :=
  Close codes newPackage env ;;;
  c <- get_conn ;;
  err <- connectWithRetries codes newPackage env (MaxReconnects (Config c)) ;;
  (if is_err err then log_Printf errorLevel else log_Printf info) ;;;
  ret Break.

End Vocabulary.

(** ** A concrete environment to run the model in *)

Module Fixture.

(** The command codes of the Event Store wire protocol. *)
Definition codes : CommandCodes :=
  {| heartbeatRequest := 0x01; heartbeatResponse := 0x02;
     ping := 0x03; pong := 0x04;
     writeEventsCompleted := 0x83; readEventCompleted := 0xB1;
     deleteStreamCompleted := 0x8B;
     readStreamEventsForwardCompleted := 0xB3;
     readStreamEventsBackwardCompleted := 0xB5;
     subscriptionConfirmation := 0xC1; streamEventAppeared := 0xC2;
     createPersistentSubscriptionCompleted := 0xC9;
     persistentSubscriptionConfirmation := 0xC6;
     subscriptionDropped := 0xC4; notAuthenticated := 0xF4 |}.

(** A codec that stores what it is given and never fails. *)
Definition newPackage (command : Command) (data correlationID : list byte)
    (login password : string) : TCPPackage * option error :=
  ({| pkg_Command := command; pkg_CorrelationID := correlationID;
      pkg_Data := data; pkg_Login := login; pkg_Password := password |}, None).

(** A decoder for a toy layout: one command byte, sixteen bytes of
    correlation id, no payload. *)
Definition parsePackage (buffer : list byte) : TCPPackage * option error :=
  match buffer with
  | [] => ({| pkg_Command := 0; pkg_CorrelationID := []; pkg_Data := [];
              pkg_Login := ""%string; pkg_Password := ""%string |},
           Some (External "short frame"))
  | b :: rest =>
      ({| pkg_Command := Z.of_N (Byte.to_N b);
          pkg_CorrelationID := take 16 rest; pkg_Data := [];
          pkg_Login := ""%string; pkg_Password := ""%string |}, None)
  end.

Definition id_of (b : byte) : UUID := repeat b 16.

(** Every dial is refused, reads hit end-of-stream, writes fail. *)
Definition env : Environment :=
  {| net_ResolveTCPAddr := fun _ => None;
     net_DialTCP := fun _ => (0%nat, Some (External "connection refused"));
     socket_Read := fun _ => ([], Some (External "EOF"));
     socket_Write := fun _ => Some (External "broken pipe");
     socket_Close := fun _ => None;
     uuid_NewV4 := fun k => id_of (default Byte.xff (Byte.of_nat (200 + k)));
     proto_Marshal_SubscriptionDropped := ([Byte.x08; Byte.x00], None) |}.

(** The same, with a socket that delivers the frame [frame] on every read
    and accepts every write. *)
Definition env_serving (frame : list byte) : Environment :=
  {| net_ResolveTCPAddr := fun _ => None;
     net_DialTCP := fun k => (S k, None);
     socket_Read := fun _ => (frame, None);
     socket_Write := fun _ => None;
     socket_Close := fun _ => None;
     uuid_NewV4 := fun k => id_of (default Byte.xff (Byte.of_nat (200 + k)));
     proto_Marshal_SubscriptionDropped := ([Byte.x08; Byte.x00], None) |}.

Definition config : Configuration :=
  {| Address := "localhost"%string; Port := 1113;
     Login := "admin"%string; Password := "changeit"%string;
     ReconnectionDelay := 10000; MaxReconnects := 3;
     MaxOperationRetries := 10; EndpointDiscoverer := None |}.

Definition no_calls : Calls :=
  {| n_discover := 0; n_resolve := 0; n_dial := 0; n_read := 0;
     n_write := 0; n_close := 0; n_uuid := 0; n_chan := 0 |}.

Definition boot : Process := {| history := []; calls := no_calls |}.

(** An open connection with one pending request (id 0x11.., channel 7) and
    one subscription (id 0x22.., channel 9). *)
Definition live : World :=
  {| conn :=
       {| Config := config; Socket := Some 1%nat; connected := true;
          requests := Some {[ id_of Byte.x11 := 7%nat ]};
          subscriptions :=
            Some {[ id_of Byte.x22 :=
                      {| sub_CorrelationID := id_of Byte.x22;
                         sub_Channel := 9%nat |} ]};
          ConnectionID := id_of Byte.x01; Mutex := false |};
     proc := boot |}.

(** The first two dials are refused, the third one connects; every read hits
    end-of-stream. *)
Definition env_flaky : Environment :=
  {| net_ResolveTCPAddr := fun _ => None;
     net_DialTCP := fun k => if (k <? 2)%nat
                             then (0%nat, Some (External "connection refused"))
                             else (S k, None);
     socket_Read := fun _ => ([], Some (External "EOF"));
     socket_Write := fun _ => None;
     socket_Close := fun _ => None;
     uuid_NewV4 := fun k => id_of (default Byte.xff (Byte.of_nat (200 + k)));
     proto_Marshal_SubscriptionDropped := ([Byte.x08; Byte.x00], None) |}.

(** A connection as [NewEventStoreConnection] returns it. *)
Definition fresh : World :=
  {| conn :=
       {| Config := config; Socket := None; connected := false;
          requests := None; subscriptions := None;
          ConnectionID := id_of Byte.x01; Mutex := false |};
     proc := boot |}.

(** A discoverer that finds no node. *)
Definition no_node : EndpointDiscovererT :=
  fun _ => ({| ExternalTCPIP := ""%string; ExternalTCPPort := 0 |},
            Some (External "no node available")).

(** The same connection, configured with that discoverer. *)
Definition lost : World :=
  {| conn :=
       {| Config :=
            {| Address := "localhost"%string; Port := 1113;
               Login := "admin"%string; Password := "changeit"%string;
               ReconnectionDelay := 10000; MaxReconnects := 3;
               MaxOperationRetries := 10; EndpointDiscoverer := Some no_node |};
          Socket := Some 1%nat; connected := true;
          requests := Some {[ id_of Byte.x11 := 7%nat ]};
          subscriptions :=
            Some {[ id_of Byte.x22 :=
                      {| sub_CorrelationID := id_of Byte.x22;
                         sub_Channel := 9%nat |} ]};
          ConnectionID := id_of Byte.x01; Mutex := false |};
     proc := boot |}.

End Fixture.

(** ** Operations and what they may write *)

(** The functions of connection.go, as a caller or the scheduler runs them. *)
Inductive Operation : Type :=
| OpConnect
| OpClose
| OpConnectWithRetries (retryAttempts : Z)
| OpConnectOnce
| OpCloseConnection
| OpSendPackage (pkg : TCPPackage) (channel : Chan)
| OpReadFromSocket (fuel : nat).

Section Operations.

Variable codes : CommandCodes.
Variable newPackage :
  Command -> list byte -> list byte -> string -> string -> TCPPackage * option error.
Variable parsePackage : list byte -> TCPPackage * option error.
Variable env : Environment.

(** The state an operation ends in, whether it returns or aborts. *)
Definition after (op : Operation) (w : World) : World :=
  match op with
  | OpConnect => final (Connect codes newPackage env w)
  | OpClose => final (Close codes newPackage env w)
  | OpConnectWithRetries n => final (connectWithRetries codes newPackage env n w)
  | OpConnectOnce => final (connect env w)
  | OpCloseConnection => final (closeConnection codes newPackage env w)
  | OpSendPackage pkg channel => final (sendPackage env pkg channel w)
  | OpReadFromSocket fuel =>
      final (readFromSocket codes newPackage parsePackage env fuel w)
  end.

End Operations.

(** A computation respects a relation on connections when the connection it
    ends with is related to the one it started with, however it ends. *)
Definition respects {A : Type}
    (r : EventStoreConnection -> EventStoreConnection -> Prop) (c : M A) : Prop :=
  forall w, r (conn w) (conn (final (c w))).

(** A relation that every assignment connection.go makes to a field of the
    connection respects: the mutex, the flag, the socket, a store into a
    requests table that is not nil, the two fresh tables, and the endpoint
    taken from a discoverer. *)
Record write_closed
    (r : EventStoreConnection -> EventStoreConnection -> Prop) : Prop := {
  wc_refl : forall c, r c c;
  wc_trans : forall a b c, r a b -> r b c -> r a c;
  wc_Mutex : forall b c, r c (set_Mutex b c);
  wc_connected : forall b c, r c (set_connected b c);
  wc_Socket : forall s c, r c (set_Socket s c);
  wc_store : forall table key channel c,
    requests c = Some table ->
    r c (set_requests (Some (<[key := channel]> table)) c);
  wc_fresh_requests : forall c, r c (set_requests (Some ∅) c);
  wc_fresh_subscriptions : forall c, r c (set_subscriptions (Some ∅) c);
  wc_endpoint : forall address port c,
    EndpointDiscoverer (Config c) <> None ->
    r c (set_Config (set_Port port (set_Address address (Config c))) c)
}.

(** What no function of connection.go assigns: the identity of the
    connection and the configuration, but for the address and the port, which
    are fixed too when there is no discoverer. *)
Definition fixed (c : EventStoreConnection) :=
  let config := Config c in
  (ConnectionID c, Login config, Password config, ReconnectionDelay config,
   MaxReconnects config, MaxOperationRetries config, EndpointDiscoverer config,
   match EndpointDiscoverer config with
   | None => Some (Address config, Port config)
   | Some _ => None
   end).


(** An event that leaves the socket alone. *)
Definition off_socket (e : Event) : Prop :=
  match e with
  | EvSocketClose _ | EvSocketRead _ | EvSocketWrite _ _ => False
  | _ => True
  end.

(** A computation emits only events of one kind, however it ends. *)
Definition emits_only {A : Type} (P : Event -> Prop) (c : M A) : Prop :=
  forall w, exists evs,
    history (proc (final (c w))) = history (proc w) ++ evs /\ Forall P evs.

(** What connects the object to the network and to its users: everything but
    the configuration. *)
Definition link (c : EventStoreConnection) :=
  (Socket c, connected c, Mutex c, requests c, subscriptions c, ConnectionID c).

(** How often the resolver and the dialer have been called. *)
Definition net_calls (w : World) : nat * nat :=
  (n_resolve (calls (proc w)), n_dial (calls (proc w))).

(** What asking the discoverer adds to a history, with the line logged before
    the second kind of discovery or without it. *)
Definition discovery_events (c : EventStoreConnection) (announced : bool)
    : list Event :=
  match EndpointDiscoverer (Config c) with
  | Some _ => (if announced then [EvLog info] else []) ++ [EvDiscover]
  | None => []
  end.

(** The calls of the discoverer in a history. *)
Definition discoveries (h : list Event) : nat :=
  length (flat_map (fun e => match e with EvDiscover => [tt] | _ => [] end) h).

(** The addresses handed to the resolver, in order. *)
Definition resolutions (h : list Event) : list (string * Z) :=
  flat_map (fun e => match e with EvResolve a p => [(a, p)] | _ => [] end) h.

(** The reads from the socket in a history. *)
Definition socket_reads (h : list Event) : list TCPConn :=
  flat_map (fun e => match e with EvSocketRead s => [s] | _ => [] end) h.

(** The sockets closed in a history. *)
Definition socket_closes (h : list Event) : list TCPConn :=
  flat_map (fun e => match e with EvSocketClose s => [s] | _ => [] end) h.

(** The lines logged in a history. *)
Definition logged (h : list Event) : list LogLevel :=
  flat_map (fun e => match e with EvLog level => [level] | _ => [] end) h.

(** ** More worlds to run the model in *)

Module Scene.

(** A discoverer that always finds the same node. *)
Definition single_node : EndpointDiscovererT :=
  fun _ => ({| ExternalTCPIP := "10.0.0.7"%string; ExternalTCPPort := 2113 |},
            None).

(** A new connection configured with that discoverer. *)
Definition clustered : World :=
  {| conn :=
       {| Config :=
            {| Address := "localhost"%string; Port := 1113;
               Login := "admin"%string; Password := "changeit"%string;
               ReconnectionDelay := 10000; MaxReconnects := 3;
               MaxOperationRetries := 10;
               EndpointDiscoverer := Some single_node |};
          Socket := None; connected := false;
          requests := None; subscriptions := None;
          ConnectionID := Fixture.id_of Byte.x01; Mutex := false |};
     proc := Fixture.boot |}.

(** The connection of [Fixture.live] after its flag has been cleared. *)
Definition stopped : World :=
  {| conn := set_connected false (conn Fixture.live); proc := Fixture.boot |}.

(** The environment of [Fixture.env], where the drop reason does not
    marshal. *)
Definition env_marshal_fails : Environment :=
  {| net_ResolveTCPAddr := net_ResolveTCPAddr Fixture.env;
     net_DialTCP := net_DialTCP Fixture.env;
     socket_Read := socket_Read Fixture.env;
     socket_Write := socket_Write Fixture.env;
     socket_Close := socket_Close Fixture.env;
     uuid_NewV4 := uuid_NewV4 Fixture.env;
     proto_Marshal_SubscriptionDropped := ([], Some (External "marshal")) |}.


(** The default configuration with an endpoint filled in. *)
Definition local_defaults : Configuration :=
  set_Port 1113 (set_Address "localhost"%string NewConfiguration).

End Scene.

(** ** Verification *)

(** Unfold the monad far enough for [cbn] to run a computation. *)
Ltac run :=
  unfold log_Printf, log_Fatal, chan_send, go, make_chan, time_Sleep in *;
  unfold bind, ret, abort, get_conn, update_conn, emit, call in *;
  cbn in *.

Ltac open_world w :=
  let c := fresh "c" in
  let p := fresh "p" in
  destruct w as [c p];
  destruct c as [cfg sock con reqs subs cid mu];
  destruct p as [h k];
  cbn in *.

Lemma since_app (w w' : World) (evs : list Event) :
  history (proc w') = history (proc w) ++ evs -> since w w' = evs.
Proof.
  intros H. unfold since. rewrite H. apply drop_app_length.
Qed.

Lemma filter_unique {A B : Type} `{EqDecision B} (f : A -> B) (l : list A) (x : A) :
  NoDup (map f l) -> x ∈ l -> filter (fun y => f y = f x) l = [x].
Proof.
  induction l as [|a l IH]; intros Hnd Hin; [now apply elem_of_nil in Hin|].
  cbn in Hnd. apply NoDup_cons in Hnd as [Ha Hnd].
  assert (Hrest : forall y, y ∈ l -> f y = f a -> False).
  { intros y Hy Heq. apply Ha. rewrite <- Heq.
    apply list_elem_of_fmap. now exists y. }
  apply elem_of_cons in Hin as [-> | Hin].
  - rewrite filter_cons_True by reflexivity. f_equal.
    clear IH Ha Hnd. induction l as [|b l IHl]; [reflexivity|].
    rewrite filter_cons_False.
    + apply IHl. intros y Hy. apply Hrest. now right.
    + intros Heq. apply (Hrest b); [now left | exact Heq].
  - rewrite filter_cons_False.
    + now apply IH.
    + intros Heq. now apply (Hrest x).
Qed.

Lemma chan_sends_app (h1 h2 : list Event) :
  chan_sends (h1 ++ h2) = chan_sends h1 ++ chan_sends h2.
Proof. unfold chan_sends. apply flat_map_app. Qed.

Lemma chan_sends_cons (e : Event) (h : list Event) :
  chan_sends (e :: h)
  = match e with EvChanSend ch pkg => [(ch, pkg)] | _ => [] end ++ chan_sends h.
Proof. reflexivity. Qed.

(** Settle a closed conjunction of equations by running the model. *)
Ltac by_running :=
  cbv zeta;
  repeat match goal with |- _ /\ _ => split end;
  vm_compute; reflexivity.

Ltac norm_app := repeat (first [rewrite <- app_assoc | progress cbn [app]]).

Ltac split_sends := repeat (rewrite chan_sends_cons || rewrite chan_sends_app).

Lemma socket_writes_app (h1 h2 : list Event) :
  socket_writes (h1 ++ h2) = socket_writes h1 ++ socket_writes h2.
Proof. unfold socket_writes. apply flat_map_app. Qed.

(** *** Construction *)

(** C6. Without an endpoint discoverer [NewEventStoreConnection] returns an
    error exactly when the address is the empty string or the port is at most
    0, and then no connection and no effect; for a non-empty address and a
    positive port it returns a connection holding the configuration and no
    error.  With a discoverer it returns a connection and no error whatever
    the address and the port are. *)
Theorem NewEventStoreConnection_validates
    (env : Environment) (config : Configuration) (p : Process) :
  let result := NewEventStoreConnection env config p in
  (EndpointDiscoverer config = None ->
     (is_err (snd (fst result)) = true <->
      Address config = ""%string \/ Port config <= 0) /\
     (is_err (snd (fst result)) = true ->
      fst (fst result) = None /\ snd result = p)) /\
  (EndpointDiscoverer config = None ->
   Address config <> ""%string -> 0 < Port config ->
     exists connection,
       fst result = (Some connection, None) /\ Config connection = config) /\
  (forall d, EndpointDiscoverer config = Some d ->
     exists connection,
       fst result = (Some connection, None) /\ Config connection = config).
Proof.
  unfold NewEventStoreConnection.
  destruct config as [address port login password delay maxr maxo disc]; cbn.
  repeat split.
  - intros Herr. subst disc.
    destruct address as [|a address]; cbn in Herr; [now left|].
    destruct (Z.leb_spec port 0); [now right | discriminate].
  - intros [Haddr | Hport]; subst disc.
    + now subst address.
    + destruct address; cbn; [reflexivity|].
      destruct (Z.leb_spec port 0); [reflexivity | lia].
  - subst disc. destruct address; cbn in *; [reflexivity|].
    destruct (Z.leb_spec port 0); [reflexivity | discriminate].
  - subst disc. destruct address; cbn in *; [reflexivity|].
    destruct (Z.leb_spec port 0); [reflexivity | discriminate].
  - intros -> Haddr Hport.
    destruct address; [congruence|]. cbn.
    destruct (Z.leb_spec port 0); [lia|].
    eexists; split; reflexivity.
  - intros d ->. eexists; split; reflexivity.
Qed.

Lemma NewEventStoreConnection_validates_witness :
  exists connection,
    fst (NewEventStoreConnection Fixture.env Fixture.config Fixture.boot)
    = (Some connection, None) /\ Config connection = Fixture.config.
Proof.
  destruct (NewEventStoreConnection_validates Fixture.env Fixture.config
              Fixture.boot) as (_ & Hgood & _).
  apply Hgood; [reflexivity | discriminate | reflexivity].
Defined.

(** *** The send path *)

Section SendPath.

Variable env : Environment.

Lemma sendPackage_run (pkg : TCPPackage) (channel : Chan) (w : World)
    (table : gmap UUID Chan) :
  requests (conn w) = Some table ->
  let correlationID := fst (uuid.FromBytes (pkg_CorrelationID pkg)) in
  sendPackage env pkg channel w
  = Returns (socket_Write env (n_write (calls (proc w))))
      {| conn := set_requests (Some (<[correlationID := channel]> table)) (conn w);
         proc := {| history :=
                      history (proc w)
                      ++ [EvRegister correlationID channel;
                          EvSocketWrite (Socket (conn w)) pkg];
                    calls := bump CWrite (calls (proc w)) |} |}.
Proof.
  intros Hreq. unfold sendPackage, requests_store, write.
  destruct (uuid.FromBytes (pkg_CorrelationID pkg)) as [correlationID ok].
  open_world w. subst reqs. run. unfold record_event. cbn.
  rewrite <- app_assoc.
  now destruct (socket_Write env (n_write k)).
Qed.

Lemma socket_writes_sendPackage (pkg : TCPPackage) (channel : Chan) (w : World)
    (table : gmap UUID Chan) :
  requests (conn w) = Some table ->
  exists r w', sendPackage env pkg channel w = Returns r w' /\
               socket_writes (since w w') = [pkg].
Proof.
  intros Hreq. rewrite (sendPackage_run _ _ _ _ Hreq).
  eexists; eexists. split; [reflexivity|].
  erewrite since_app by reflexivity. reflexivity.
Qed.


(** C10. When the socket write inside [sendPackage] fails, [sendPackage]
    returns that error and the registration stays: the requests table
    still maps the correlation id of the frame to the caller's channel,
    and every other entry is as before. *)
Theorem sendPackage_failed_write_keeps_registration
    (pkg : TCPPackage) (channel : Chan) (w : World)
    (table : gmap UUID Chan) (e : error) :
  requests (conn w) = Some table ->
  socket_Write env (n_write (calls (proc w))) = Some e ->
  let correlationID := fst (uuid.FromBytes (pkg_CorrelationID pkg)) in
  exists w',
    sendPackage env pkg channel w = Returns (Some e) w' /\
    socket_writes (since w w') = [pkg] /\
    requests (conn w') = Some (<[correlationID := channel]> table) /\
    map_get (requests (conn w')) correlationID = Some channel.
Proof.
  intros Hreq Hwrite.
  unfold sendPackage, requests_store, write.
  destruct (uuid.FromBytes (pkg_CorrelationID pkg)) as [correlationID ok].
  open_world w. subst reqs. run. rewrite Hwrite.
  eexists. split; [reflexivity|]. cbn.
  split; [unfold since; cbn; now rewrite <- app_assoc, drop_app_length|].
  split; [reflexivity|apply lookup_insert_eq].
Qed.

End SendPath.

Lemma sendPackage_failed_write_keeps_registration_witness :
  exists w',
    sendPackage Fixture.env
      (fst (Fixture.newPackage 0x82 [] (Fixture.id_of Byte.x33) "" ""))
      4%nat Fixture.live
    = Returns (Some (External "broken pipe")) w' /\
    map_get (requests (conn w')) (Fixture.id_of Byte.x33) = Some 4%nat.
Proof.
  destruct (sendPackage_failed_write_keeps_registration Fixture.env
              (fst (Fixture.newPackage 0x82 [] (Fixture.id_of Byte.x33) "" ""))
              4%nat Fixture.live {[ Fixture.id_of Byte.x11 := 7%nat ]}
              (External "broken pipe") eq_refl eq_refl)
    as (w' & Hrun & _ & _ & Hentry).
  exists w'. split; [exact Hrun | exact Hentry].
Defined.

(** *** Closing *)

Section Closing.

Variable codes : CommandCodes.
Variable newPackage :
  Command -> list byte -> list byte -> string -> string -> TCPPackage * option error.
Variable env : Environment.

Lemma chan_sends_drop_events c entries :
  chan_sends (drop_events codes newPackage env c entries)
  = drop_deliveries codes newPackage env c entries.
Proof.
  induction entries as [|[key sub] rest IH]; [reflexivity|].
  cbn [drop_events flat_map]. rewrite !chan_sends_app.
  fold (drop_events codes newPackage env c rest). rewrite IH. cbn [snd].
  destruct (is_err _); reflexivity.
Qed.

Lemma drop_subscriptions_run entries w :
  drop_subscriptions codes newPackage
    (fst (proto_Marshal_SubscriptionDropped env)) entries w
  = Returns tt
      {| conn := conn w;
         proc := {| history :=
                      history (proc w)
                      ++ drop_events codes newPackage env (Config (conn w)) entries;
                    calls := calls (proc w) |} |}.
Proof.
  revert w. induction entries as [|[key sub] rest IH]; intros w.
  - destruct w as [c [h k]]. cbn. now rewrite app_nil_r.
  - destruct w as [c [h k]].
    cbn [drop_subscriptions drop_events flat_map snd conn proc history calls].
    fold (drop_events codes newPackage env (Config c) rest).
    unfold bind at 1. unfold get_conn at 1. cbn [conn].
    unfold drop_notification at 1 2.
    destruct (newPackage _ _ _ _ _) as [pkg err].
    destruct err as [e|]; run; rewrite IH; cbn;
      now rewrite <- !app_assoc.
Qed.

Lemma closeConnection_returns w :
  snd (proto_Marshal_SubscriptionDropped env) = None ->
  closeConnection codes newPackage env w
  = Returns tt
      {| conn := set_subscriptions (Some ∅) (set_requests (Some ∅) (conn w));
         proc := {| history :=
                      history (proc w)
                      ++ [EvLog errorLevel]
                      ++ drop_events codes newPackage env (Config (conn w))
                           (map_entries (subscriptions (conn w)))
                      ++ [EvResetTables];
                    calls := calls (proc w) |} |}.
Proof.
  intros Hmarshal. unfold closeConnection, reset_tables.
  destruct (proto_Marshal_SubscriptionDropped env) as [data err] eqn:Hm.
  cbn in Hmarshal. subst err.
  destruct w as [c [h k]]. run.
  replace data with (fst (proto_Marshal_SubscriptionDropped env))
    by now rewrite Hm.
  rewrite drop_subscriptions_run. unfold record_event. cbn.
  now rewrite <- !app_assoc.
Qed.

Lemma closeConnection_fatal w (e : error) :
  snd (proto_Marshal_SubscriptionDropped env) = Some e ->
  closeConnection codes newPackage env w
  = Aborts Fatal
      {| conn := conn w;
         proc := {| history := history (proc w) ++ [EvLog errorLevel; EvLog fatal];
                    calls := calls (proc w) |} |}.
Proof.
  intros Hmarshal. unfold closeConnection.
  destruct (proto_Marshal_SubscriptionDropped env) as [data err].
  cbn in Hmarshal. subst err.
  destruct w as [c [h k]]. run. unfold record_event. cbn.
  now rewrite <- app_assoc.
Qed.

End Closing.

Section ClosingTheConnection.

Variable codes : CommandCodes.
Variable newPackage :
  Command -> list byte -> list byte -> string -> string -> TCPPackage * option error.
Variable env : Environment.

Lemma Close_returns w (s : TCPConn) :
  Mutex (conn w) = false ->
  Socket (conn w) = Some s ->
  snd (proto_Marshal_SubscriptionDropped env) = None ->
  let err := socket_Close env (n_close (calls (proc w))) in
  Close codes newPackage env w
  = Returns err
      {| conn := closed (conn w);
         proc := {| history :=
                      history (proc w)
                      ++ [EvLog info; EvSocketClose s]
                      ++ (if is_err err then [EvLog errorLevel] else [])
                      ++ [EvLog errorLevel]
                      ++ drop_events codes newPackage env (Config (conn w))
                           (map_entries (subscriptions (conn w)))
                      ++ [EvResetTables];
                    calls := bump CClose (calls (proc w)) |} |}.
Proof.
  intros Hmu Hsock Hmarshal. open_world w. subst mu sock.
  unfold Close, Mutex_Lock, Mutex_Unlock, Socket_Close. run.
  destruct (socket_Close env (n_close k)) as [e|]; cbn;
    rewrite closeConnection_returns by assumption; cbn;
    unfold closed; cbn; now rewrite <- !app_assoc.
Qed.

Lemma Close_returns_only_if w err w' :
  Close codes newPackage env w = Returns err w' ->
  Mutex (conn w) = false /\ is_Some (Socket (conn w)) /\
  snd (proto_Marshal_SubscriptionDropped env) = None.
Proof.
  open_world w.
  unfold Close, Mutex_Lock, Mutex_Unlock, Socket_Close. run.
  destruct mu; [discriminate|]. cbn.
  destruct sock as [s|]; [|discriminate]. cbn.
  destruct (snd (proto_Marshal_SubscriptionDropped env)) as [e|] eqn:Hm;
    [|intros _; repeat split; eauto].
  destruct (socket_Close env (n_close k)); cbn;
    rewrite (closeConnection_fatal _ _ _ _ e) by assumption; discriminate.
Qed.

(** C4. [Close] returns when the mutex is free, a socket is open and the
    drop reason marshals.  Whenever it returns, the frames sent on channels
    during the call are, up to order, one per entry of the subscriptions
    table as it was at the call: on the subscription's channel, the frame
    the codec builds for the subscription-dropped command from that
    subscription's own correlation id and the login and password of the
    connection (with a codec that puts its arguments into the frame, the
    frame carries them); with distinct channels each subscription's channel
    gets exactly that one frame.  Afterwards both tables are empty. *)
Theorem Close_notifies_every_subscription (w : World) :
  (Mutex (conn w) = false -> is_Some (Socket (conn w)) ->
   snd (proto_Marshal_SubscriptionDropped env) = None ->
   exists err w', Close codes newPackage env w = Returns err w') /\
  (forall err w',
     Close codes newPackage env w = Returns err w' ->
     let config := Config (conn w) in
     let tracked := map_entries (subscriptions (conn w)) in
     let notification sub := fst (drop_notification codes newPackage env config sub) in
     chan_sends (since w w')
       ≡ₚ map (fun entry => (sub_Channel (snd entry), notification (snd entry)))
            tracked /\
     (NoDup (map (fun entry => sub_Channel (snd entry)) tracked) ->
      forall key sub,
        map_get (subscriptions (conn w)) key = Some sub ->
        filter (fun delivery => fst delivery = sub_Channel sub)
          (chan_sends (since w w'))
        = [(sub_Channel sub, notification sub)]) /\
     (codec_carries newPackage ->
      forall key sub,
        map_get (subscriptions (conn w)) key = Some sub ->
        pkg_Command (notification sub) = subscriptionDropped codes /\
        pkg_CorrelationID (notification sub) = uuid.Bytes (sub_CorrelationID sub) /\
        pkg_Login (notification sub) = Login config /\
        pkg_Password (notification sub) = Password config) /\
     requests (conn w') = Some ∅ /\
     subscriptions (conn w') = Some ∅).
Proof.
  split.
  - intros Hmu [s Hsock] Hmarshal.
    eexists; eexists. now apply Close_returns with (s := s).
  - intros err w' Hrun.
    destruct (Close_returns_only_if _ _ _ Hrun) as (Hmu & [s Hsock] & Hmarshal).
    rewrite (Close_returns w s Hmu Hsock Hmarshal) in Hrun.
    injection Hrun as <- <-.
    set (config := Config (conn w)).
    set (tracked := map_entries (subscriptions (conn w))).
    cbv beta zeta.
    match goal with
    | |- context [chan_sends (since w ?W)] =>
        assert (Hsends : chan_sends (since w W)
                         = drop_deliveries codes newPackage env config tracked)
    end.
    { erewrite since_app by reflexivity.
      split_sends. rewrite chan_sends_drop_events.
      destruct (is_err _); cbn; now rewrite app_nil_r. }
    rewrite Hsends. unfold drop_deliveries.
    split; [reflexivity|]. split; [|split; [|split; reflexivity]].
    + intros Hnd key sub Hsub.
      set (g := fun entry : UUID * Subscription =>
                  (sub_Channel (snd entry),
                   fst (drop_notification codes newPackage env config (snd entry)))).
      change (filter (fun delivery => fst delivery = fst (g (key, sub)))
                (map g tracked) = [g (key, sub)]).
      apply filter_unique.
      * now rewrite map_map.
      * apply list_elem_of_fmap. exists (key, sub). split; [reflexivity|].
        subst tracked. unfold map_get, map_entries in *.
        destruct (subscriptions (conn w)) as [table|]; [|discriminate].
        now apply elem_of_map_to_list.
    + intros Hcodec key sub _. unfold drop_notification.
      destruct (Hcodec (subscriptionDropped codes)
                  (fst (proto_Marshal_SubscriptionDropped env))
                  (uuid.Bytes (sub_CorrelationID sub))
                  (Login config) (Password config))
        as (Hc & Hid & _ & Hl & Hp).
      repeat split; assumption.
Qed.

End ClosingTheConnection.

Lemma Close_notifies_every_subscription_witness :
  exists w',
    Close Fixture.codes Fixture.newPackage Fixture.env Fixture.live
    = Returns None w' /\
    chan_sends (since Fixture.live w')
    = [(9%nat,
        {| pkg_Command := 0xC4; pkg_CorrelationID := Fixture.id_of Byte.x22;
           pkg_Data := [Byte.x08; Byte.x00];
           pkg_Login := "admin"; pkg_Password := "changeit" |})] /\
    requests (conn w') = Some ∅ /\ subscriptions (conn w') = Some ∅.
Proof.
  destruct (Close_notifies_every_subscription Fixture.codes Fixture.newPackage
              Fixture.env Fixture.live) as [Hruns Hafter].
  destruct (Hruns eq_refl (ex_intro _ 1%nat eq_refl) eq_refl) as (err & w' & Hrun).
  destruct (Hafter err w' Hrun) as (_ & Hone & _ & Hreq & Hsub).
  assert (Herr : err = None).
  { vm_compute in Hrun. now injection Hrun as <- _. }
  subst err. exists w'. split; [exact Hrun|]. split; [|split; assumption].
  assert (Hw' : since Fixture.live w'
                = since Fixture.live
                    (final (Close Fixture.codes Fixture.newPackage Fixture.env
                              Fixture.live))) by now rewrite Hrun.
  rewrite Hw'. vm_compute. reflexivity.
Defined.

(** *** The reader loop *)

Section Reader.

Variable codes : CommandCodes.
Variable newPackage :
  Command -> list byte -> list byte -> string -> string -> TCPPackage * option error.
Variable parsePackage : list byte -> TCPPackage * option error.
Variable env : Environment.

(** A pass of the reader that finds the connection up, reads without an
    error and decodes a frame dispatches that frame and goes on. *)
Lemma readFromSocket_body_decodes buffer w s data msg :
  Mutex (conn w) = false ->
  connected (conn w) = true ->
  Socket (conn w) = Some s ->
  socket_Read env (n_read (calls (proc w))) = (data, None) ->
  parsePackage (refill buffer data) = (msg, None) ->
  readFromSocket_body codes newPackage parsePackage env buffer w
  = (dispatch codes newPackage env msg ;;; ret (Continue (refill buffer data)))
      (after_read s w).
Proof.
  intros Hmu Hcon Hsock Hread Hparse. open_world w. subst mu con sock.
  unfold readFromSocket_body, Mutex_Lock, Mutex_Unlock, Socket_Read. run.
  rewrite Hread. cbn. rewrite Hparse. reflexivity.
Qed.

Lemma routed_not_probe command :
  cases_distinct codes -> In command (routed_commands codes) ->
  command <> heartbeatRequest codes /\ command <> pong codes.
Proof.
  unfold cases_distinct, switch_cases, routed_commands. intros Hnd Hin.
  cbn [app] in Hnd.
  apply NoDup_cons in Hnd as [Hhb Hnd]. apply NoDup_cons in Hnd as [Hpong Hnd].
  assert (Hsub : forall x,
             In x (completed_commands codes ++ [notAuthenticated codes]) ->
             x ∈ completed_commands codes
                 ++ [notAuthenticated codes; badRequestLiteral]).
  { intros x Hx. apply list_elem_of_In.
    apply in_app_iff in Hx as [Hx | [<- | []]]; apply in_app_iff;
      [now left | right; now left]. }
  split; intros ->.
  - apply Hhb. apply elem_of_cons. right. now apply Hsub.
  - apply Hpong. now apply Hsub.
Qed.

Lemma dispatch_routed msg :
  cases_distinct codes -> In (pkg_Command msg) (routed_commands codes) ->
  dispatch codes newPackage env msg = deliver msg.
Proof.
  intros Hnd Hin. destruct (routed_not_probe _ Hnd Hin) as [Hhb Hpong].
  unfold dispatch.
  destruct (Z.eqb_spec (pkg_Command msg) (heartbeatRequest codes)); [contradiction|].
  destruct (Z.eqb_spec (pkg_Command msg) (pong codes)); [contradiction|].
  destruct (existsb _ _) eqn:Hex; [reflexivity|].
  apply in_app_iff in Hin as [Hin | [<- | []]].
  - exfalso. apply Bool.not_true_iff_false in Hex. apply Hex.
    apply existsb_exists. exists (pkg_Command msg). split; [exact Hin|].
    apply Z.eqb_refl.
  - now rewrite Z.eqb_refl.
Qed.

Lemma deliver_run msg w :
  deliver msg w
  = Returns tt
      {| conn := conn w;
         proc := {| history :=
                      history (proc w)
                      ++ match map_get (requests (conn w))
                                 (fst (uuid.FromBytes (pkg_CorrelationID msg))) with
                         | Some request => [EvChanSend request msg]
                         | None => []
                         end;
                    calls := calls (proc w) |} |}.
Proof.
  unfold deliver.
  destruct (uuid.FromBytes (pkg_CorrelationID msg)) as [correlationID ok].
  destruct w as [c [h k]]. run.
  destruct (map_get (requests c) correlationID); cbn;
    [reflexivity | now rewrite app_nil_r].
Qed.


Lemma dispatch_heartbeatRequest msg w :
  pkg_Command msg = heartbeatRequest codes ->
  let reply := newPackage (heartbeatResponse codes) [] (pkg_CorrelationID msg)
                 ""%string ""%string in
  dispatch codes newPackage env msg w
  = Returns tt
      {| conn := conn w;
         proc := {| history :=
                      history (proc w)
                      ++ (if is_err (snd reply) then [EvLog errorLevel] else [])
                      ++ [EvGo (GoSendPackage (fst reply)
                                  (n_chan (calls (proc w))))];
                    calls := bump CChan (calls (proc w)) |} |}.
Proof.
  intros Hcmd. unfold dispatch. rewrite Hcmd, Z.eqb_refl.
  destruct (newPackage _ _ _ _ _) as [pkg err].
  destruct w as [c [h k]].
  destruct err; run; unfold record_event; cbn;
    [now rewrite <- app_assoc | reflexivity].
Qed.

Lemma dispatch_pong msg w :
  pong codes <> heartbeatRequest codes ->
  pkg_Command msg = pong codes ->
  let fresh := uuid_NewV4 env (n_uuid (calls (proc w))) in
  let probe := newPackage (ping codes) [] (uuid.Bytes fresh)
                 ""%string ""%string in
  dispatch codes newPackage env msg w
  = Returns tt
      {| conn := conn w;
         proc := {| history :=
                      history (proc w)
                      ++ (if is_err (snd probe) then [EvLog errorLevel] else [])
                      ++ [EvGo (GoSendPackage (fst probe)
                                  (n_chan (calls (proc w))))];
                    calls := bump CChan (bump CUuid (calls (proc w))) |} |}.
Proof.
  intros Hne Hcmd. unfold dispatch, NewV4. rewrite Hcmd.
  destruct (Z.eqb_spec (pong codes) (heartbeatRequest codes)); [contradiction|].
  rewrite Z.eqb_refl.
  destruct w as [c [h k]]. run.
  destruct (newPackage _ _ _ _ _) as [pkg err].
  destruct err; run; unfold record_event; cbn;
    [now rewrite <- app_assoc | reflexivity].
Qed.

Lemma started_log_then_go (logged : bool) (task : Task) :
  started ((if logged then [EvLog errorLevel] else []) ++ [EvGo task]) = [task] /\
  socket_writes ((if logged then [EvLog errorLevel] else []) ++ [EvGo task]) = [] /\
  chan_sends ((if logged then [EvLog errorLevel] else []) ++ [EvGo task]) = [].
Proof. destruct logged; repeat split. Qed.

(** C7. When the reader decodes a heartbeat-request frame it starts exactly
    one goroutine, a [sendPackage] of the frame the codec builds for the
    heartbeat-response command from the correlation id of the request, and
    goes on with the loop; it writes nothing to the socket itself.  That
    goroutine writes this frame to the socket exactly once.  With a codec
    that puts its arguments into the frame, the frame is a
    heartbeat-response with the identical correlation id. *)
Theorem reader_answers_heartbeat
    (buffer : list byte) (w : World) (s : TCPConn) (data : list byte)
    (msg : TCPPackage) :
  Mutex (conn w) = false ->
  connected (conn w) = true ->
  Socket (conn w) = Some s ->
  socket_Read env (n_read (calls (proc w))) = (data, None) ->
  parsePackage (refill buffer data) = (msg, None) ->
  pkg_Command msg = heartbeatRequest codes ->
  let reply := fst (newPackage (heartbeatResponse codes) []
                      (pkg_CorrelationID msg) ""%string ""%string) in
  exists w' channel,
    readFromSocket_body codes newPackage parsePackage env buffer w
    = Returns (Continue (refill buffer data)) w' /\
    conn w' = conn w /\
    started (since w w') = [GoSendPackage reply channel] /\
    socket_writes (since w w') = [] /\
    (forall fuel v table,
       requests (conn v) = Some table ->
       exists v',
         run_task codes newPackage parsePackage env fuel
           (GoSendPackage reply channel) v = Returns tt v' /\
         socket_writes (since v v') = [reply]) /\
    (codec_carries newPackage ->
       pkg_Command reply = heartbeatResponse codes /\
       pkg_CorrelationID reply = pkg_CorrelationID msg).
Proof.
  intros Hmu Hcon Hsock Hread Hparse Hcmd reply.
  rewrite (readFromSocket_body_decodes _ _ _ _ _ Hmu Hcon Hsock Hread Hparse).
  unfold bind at 1. rewrite (dispatch_heartbeatRequest _ _ Hcmd).
  eexists; eexists. split; [reflexivity|].
  cbn [conn proc history calls after_read].
  split; [reflexivity|].
  erewrite since_app by (rewrite <- app_assoc; reflexivity).
  cbn [app].
  destruct (started_log_then_go
              (is_err (snd (newPackage (heartbeatResponse codes) []
                              (pkg_CorrelationID msg) ""%string ""%string)))
              (GoSendPackage reply (n_chan (bump CRead (calls (proc w))))))
    as (Hgo & Hwr & _).
  split; [exact Hgo|]. split; [exact Hwr|]. split.
  - intros fuel v table Hreq. cbn [run_task].
    destruct (socket_writes_sendPackage env reply
                (n_chan (bump CRead (calls (proc w)))) v table Hreq)
      as (r & v' & Hrun & Hwrites).
    exists v'. unfold bind, ret. rewrite Hrun. split; [reflexivity|exact Hwrites].
  - intros Hcodec. subst reply.
    destruct (Hcodec (heartbeatResponse codes) [] (pkg_CorrelationID msg)
                ""%string ""%string) as (Hc & Hid & _).
    split; assumption.
Qed.

(** C8. When the reader decodes a pong frame it draws a new UUID from the
    generator and starts exactly one goroutine, a [sendPackage] of the frame
    the codec builds for the ping command from that new UUID; the
    correlation id of the pong is not used.  That goroutine writes the
    frame to the socket exactly once.  With a codec that puts its
    arguments into the frame, the frame is a ping whose correlation id is
    the new UUID, so it differs from the pong's whenever the generator
    returns a UUID other than the pong's. *)
Theorem reader_pings_after_pong
    (buffer : list byte) (w : World) (s : TCPConn) (data : list byte)
    (msg : TCPPackage) :
  pong codes <> heartbeatRequest codes ->
  Mutex (conn w) = false ->
  connected (conn w) = true ->
  Socket (conn w) = Some s ->
  socket_Read env (n_read (calls (proc w))) = (data, None) ->
  parsePackage (refill buffer data) = (msg, None) ->
  pkg_Command msg = pong codes ->
  let fresh := uuid_NewV4 env (n_uuid (calls (proc w))) in
  let probe := fst (newPackage (ping codes) [] (uuid.Bytes fresh)
                      ""%string ""%string) in
  exists w' channel,
    readFromSocket_body codes newPackage parsePackage env buffer w
    = Returns (Continue (refill buffer data)) w' /\
    conn w' = conn w /\
    n_uuid (calls (proc w')) = S (n_uuid (calls (proc w))) /\
    started (since w w') = [GoSendPackage probe channel] /\
    socket_writes (since w w') = [] /\
    (forall fuel v table,
       requests (conn v) = Some table ->
       exists v',
         run_task codes newPackage parsePackage env fuel
           (GoSendPackage probe channel) v = Returns tt v' /\
         socket_writes (since v v') = [probe]) /\
    (codec_carries newPackage ->
       pkg_Command probe = ping codes /\
       pkg_CorrelationID probe = uuid.Bytes fresh /\
       (uuid.Bytes fresh <> pkg_CorrelationID msg ->
        pkg_CorrelationID probe <> pkg_CorrelationID msg)).
Proof.
  intros Hne Hmu Hcon Hsock Hread Hparse Hcmd fresh probe.
  rewrite (readFromSocket_body_decodes _ _ _ _ _ Hmu Hcon Hsock Hread Hparse).
  unfold bind at 1. rewrite (dispatch_pong _ _ Hne Hcmd).
  eexists; eexists. split; [reflexivity|].
  cbn [conn proc history calls after_read].
  split; [reflexivity|].
  split; [now destruct w as [c [h [? ? ? ? ? ? ? ?]]]|].
  erewrite since_app by (rewrite <- app_assoc; reflexivity).
  cbn [app].
  assert (Hfresh : uuid_NewV4 env (n_uuid (bump CRead (calls (proc w)))) = fresh)
    by now destruct w as [c [h [? ? ? ? ? ? ? ?]]].
  rewrite Hfresh. fold probe.
  destruct (started_log_then_go
              (is_err (snd (newPackage (ping codes) [] (uuid.Bytes fresh)
                              ""%string ""%string)))
              (GoSendPackage probe (n_chan (bump CRead (calls (proc w))))))
    as (Hgo & Hwr & _).
  split; [exact Hgo|]. split; [exact Hwr|]. split.
  - intros fuel v table Hreq. cbn [run_task].
    destruct (socket_writes_sendPackage env probe
                (n_chan (bump CRead (calls (proc w)))) v table Hreq)
      as (r & v' & Hrun & Hwrites).
    exists v'. unfold bind, ret. rewrite Hrun. split; [reflexivity|exact Hwrites].
  - intros Hcodec. subst probe.
    destruct (Hcodec (ping codes) [] (uuid.Bytes fresh) ""%string ""%string)
      as (Hc & Hid & _).
    split; [assumption|]. split; [assumption|]. now rewrite Hid.
Qed.

End Reader.

(** *** Connecting with retries *)

Lemma beats_app (h1 h2 : list Event) : beats (h1 ++ h2) = beats h1 ++ beats h2.
Proof. unfold beats. apply flat_map_app. Qed.

Lemma dials_app (h1 h2 : list Event) : dials (h1 ++ h2) = dials h1 ++ dials h2.
Proof. unfold dials. apply flat_map_app. Qed.

Lemma attempts_app (h1 h2 : list Event) :
  attempts (h1 ++ h2) = (attempts h1 + attempts h2)%nat.
Proof.
  unfold attempts. now rewrite beats_app, List.filter_app, length_app.
Qed.

Lemma attempts_no_beat (h : list Event) : beats h = [] -> attempts h = 0%nat.
Proof. unfold attempts. now intros ->. Qed.

Section Reconnecting.

Variable codes : CommandCodes.
Variable newPackage :
  Command -> list byte -> list byte -> string -> string -> TCPPackage * option error.
Variable env : Environment.

(** [connectWithRetries] as the source writes it, on [retryAttempts]. *)
Lemma connectWithRetries_unfold (retryAttempts : Z) :
  connectWithRetries codes newPackage env retryAttempts
  = (r <- discover_endpoint ;;
     match r with
     | Some e => ret (Some e)
     | None =>
         if 0 <? retryAttempts then
           err <- connect env ;;
           match err with
           | Some _ =>
               log_Printf info ;;;
               c <- get_conn ;;
               time_Sleep (delay_Duration (ReconnectionDelay (Config c))) ;;;
               check_nodes ;;;
               connectWithRetries codes newPackage env (retryAttempts - 1)
           | None => ret None
           end
         else
           closeConnection codes newPackage env ;;;
           c <- get_conn ;;
           ret (Some (ErrRetryLimit (MaxReconnects (Config c))))
     end).
Proof.
  unfold connectWithRetries.
  destruct (Z.ltb_spec 0 retryAttempts) as [Hpos | Hneg].
  - replace (Z.to_nat retryAttempts) with (S (Z.to_nat (retryAttempts - 1))) by lia.
    reflexivity.
  - replace (Z.to_nat retryAttempts) with O by lia. reflexivity.
Qed.

Lemma discover_endpoint_spec w :
  exists r w' evs,
    discover_endpoint w = Returns r w' /\
    history (proc w') = history (proc w) ++ evs /\
    settings w' = settings w /\ tables w' = tables w /\
    beats evs = [] /\ chan_sends evs = [] /\ dials evs = [] /\
    r = match EndpointDiscoverer (Config (conn w)) with
        | Some d => snd (d (n_discover (calls (proc w))))
        | None => None
        end.
Proof.
  open_world w. unfold discover_endpoint, Discover, set_endpoint. run.
  destruct (EndpointDiscoverer cfg) as [d|] eqn:Hd; cbn.
  - destruct (d (n_discover k)) as [memberInfo [e|]]; cbn;
      eexists; eexists; exists [EvDiscover];
      (split; [reflexivity|]); cbn; unfold settings, tables; cbn;
      rewrite ?Hd; repeat split.
  - eexists; eexists; exists [].
    split; [reflexivity|]. cbn. unfold settings, tables. cbn.
    rewrite app_nil_r, ?Hd. repeat split.
Qed.

Lemma check_nodes_spec w :
  exists w' evs,
    check_nodes w = Returns tt w' /\
    history (proc w') = history (proc w) ++ evs /\
    settings w' = settings w /\ tables w' = tables w /\
    beats evs = [] /\ chan_sends evs = [] /\ dials evs = [].
Proof.
  open_world w. unfold check_nodes, Discover, set_endpoint. run.
  destruct (EndpointDiscoverer cfg) as [d|] eqn:Hd; cbn.
  - eexists; exists [EvLog info; EvDiscover].
    split; [reflexivity|]. cbn. unfold settings, tables, record_event. cbn.
    rewrite <- app_assoc, ?Hd. repeat split.
  - eexists; exists [].
    split; [reflexivity|]. cbn. unfold settings, tables. cbn.
    rewrite app_nil_r, ?Hd. repeat split.
Qed.

Lemma connect_spec w :
  exists r w' evs,
    connect env w = Returns r w' /\
    history (proc w') = history (proc w) ++ evs /\
    settings w' = settings w /\ tables w' = tables w /\
    beats evs = [Attempt] /\ chan_sends evs = [] /\
    (length (dials evs) <= 1)%nat /\
    (net_ResolveTCPAddr env (n_resolve (calls (proc w))) = None ->
     length (dials evs) = 1%nat) /\
    (is_err (net_ResolveTCPAddr env (n_resolve (calls (proc w)))) = true \/
     is_err (snd (net_DialTCP env (n_dial (calls (proc w))))) = true ->
     is_err r = true).
Proof.
  open_world w. unfold connect. run.
  destruct (net_ResolveTCPAddr env (n_resolve k)) as [e|]; cbn.
  - eexists; eexists; exists [EvLog info; EvResolve (Address cfg) (Port cfg)].
    split; [reflexivity|]. cbn. unfold settings, tables, record_event. cbn.
    rewrite <- app_assoc. repeat split; try lia; try discriminate.
  - destruct (net_DialTCP env (n_dial k)) as [s [e|]]; cbn.
    + eexists; eexists;
        exists [EvLog info; EvResolve (Address cfg) (Port cfg);
                EvDial (Address cfg) (Port cfg)].
      split; [reflexivity|]. cbn. unfold settings, tables, record_event. cbn.
      rewrite <- !app_assoc. repeat split; try lia.
    + eexists; eexists;
        exists [EvLog info; EvResolve (Address cfg) (Port cfg);
                EvDial (Address cfg) (Port cfg); EvLog info; EvGo GoReadFromSocket].
      split; [reflexivity|]. cbn. unfold settings, tables, record_event. cbn.
      rewrite <- !app_assoc. repeat split; try lia.
Qed.

Lemma drop_deliveries_settings w w' entries :
  settings w' = settings w ->
  drop_deliveries codes newPackage env (Config (conn w')) entries
  = drop_deliveries codes newPackage env (Config (conn w)) entries /\
  drop_events codes newPackage env (Config (conn w')) entries
  = drop_events codes newPackage env (Config (conn w)) entries.
Proof.
  unfold settings. intros Hs. injection Hs as Hl Hp _ _ _.
  unfold drop_deliveries, drop_events, drop_notification.
  now rewrite Hl, Hp.
Qed.

Lemma pause_run {A : Type} (k : M A) w :
  (log_Printf info ;;;
   c <- get_conn ;;
   time_Sleep (delay_Duration (ReconnectionDelay (Config c))) ;;;
   k) w
  = k (paused w).
Proof.
  destruct w as [c [h calls]]. run. unfold paused, record_event. cbn.
  now rewrite <- app_assoc.
Qed.

Lemma retries_exhaust (n : nat) :
  snd (proto_Marshal_SubscriptionDropped env) = None ->
  every_attempt_fails env ->
  forall w,
    every_discovery_succeeds w ->
    exists w' evs,
      connectWithRetries_attempts codes newPackage env n w
      = Returns (Some (ErrRetryLimit (MaxReconnects (Config (conn w))))) w' /\
      history (proc w') = history (proc w) ++ evs /\
      beats evs
      = rounds n (delay_Duration (ReconnectionDelay (Config (conn w))))
        ++ [Emptied] /\
      chan_sends evs
      = drop_deliveries codes newPackage env (Config (conn w))
          (map_entries (subscriptions (conn w))) /\
      requests (conn w') = Some ∅ /\
      subscriptions (conn w') = Some ∅ /\
      (length (dials evs) <= n)%nat /\
      ((forall k, net_ResolveTCPAddr env k = None) -> length (dials evs) = n).
Proof.
  intros Hmarshal Hfail. induction n as [|n IH]; intros w Hdisc.
  - cbn [connectWithRetries_attempts]. unfold bind at 1.
    destruct (discover_endpoint_spec w)
      as (r & w1 & e1 & Hrun1 & Hh1 & Hs1 & Ht1 & Hb1 & Hc1 & Hd1 & Hr).
    rewrite Hrun1.
    assert (r = None) as ->.
    { subst r. destruct (EndpointDiscoverer (Config (conn w))) as [d|] eqn:Hd;
        [now apply (Hdisc d)|reflexivity]. }
    unfold bind at 1. rewrite closeConnection_returns by assumption.
    unfold bind, get_conn, ret. cbn [conn proc history calls].
    eexists; eexists. split.
    { f_equal. unfold settings in Hs1. injection Hs1 as _ _ _ Hmax _.
      cbn. now rewrite Hmax. }
    split; [rewrite Hh1, <- app_assoc; reflexivity|].
    unfold tables in Ht1. injection Ht1 as Hreq1 Hsub1.
    destruct (drop_deliveries_settings w w1
                (map_entries (subscriptions (conn w))) Hs1) as [Hdel Hev].
    rewrite Hsub1, Hev.
    rewrite !beats_app, !chan_sends_app, !dials_app, Hb1, Hc1, Hd1.
    rewrite chan_sends_drop_events.
    assert (Hquiet : forall entries,
               beats (drop_events codes newPackage env (Config (conn w)) entries) = [] /\
               dials (drop_events codes newPackage env (Config (conn w)) entries) = []).
    { induction entries as [|entry rest IHe]; [split; reflexivity|].
      cbn [drop_events flat_map]. rewrite beats_app, dials_app.
      fold (drop_events codes newPackage env (Config (conn w)) rest).
      destruct IHe as [-> ->]. destruct (is_err _); split; reflexivity. }
    destruct (Hquiet (map_entries (subscriptions (conn w)))) as [-> ->].
    cbn. rewrite app_nil_r. repeat split; auto.
  - cbn [connectWithRetries_attempts]. unfold bind at 1.
    destruct (discover_endpoint_spec w)
      as (r & w1 & e1 & Hrun1 & Hh1 & Hs1 & Ht1 & Hb1 & Hc1 & Hd1 & Hr).
    rewrite Hrun1.
    assert (r = None) as ->.
    { subst r. destruct (EndpointDiscoverer (Config (conn w))) as [d|] eqn:Hd;
        [now apply (Hdisc d)|reflexivity]. }
    unfold bind at 1.
    destruct (connect_spec w1)
      as (r2 & w2 & e2 & Hrun2 & Hh2 & Hs2 & Ht2 & Hb2 & Hc2 & Hd2le & Hd2 & Hr2).
    rewrite Hrun2.
    destruct r2 as [e|]; [|now specialize (Hr2 (Hfail _ _))].
    rewrite pause_run. unfold bind at 1.
    destruct (check_nodes_spec (paused w2))
      as (w3 & e3 & Hrun3 & Hh3 & Hs3 & Ht3 & Hb3 & Hc3 & Hd3).
    rewrite Hrun3.
    assert (Hs_p : settings (paused w2) = settings w) by
      (transitivity (settings w2); [reflexivity|now rewrite Hs2]).
    assert (Hs3' : settings w3 = settings w) by now rewrite Hs3.
    assert (Ht3' : tables w3 = tables w).
    { rewrite Ht3. transitivity (tables w2); [reflexivity|]. now rewrite Ht2. }
    assert (Hdisc3 : every_discovery_succeeds w3).
    { intros d Hd. apply Hdisc. unfold settings in Hs3'.
      injection Hs3' as _ _ _ _ Hsame. now rewrite <- Hsame. }
    destruct (IH w3 Hdisc3)
      as (w' & evs & Hrun & Hh & Hb & Hc & Hreq & Hsub & Hdle & Hdeq).
    rewrite Hrun.
    unfold settings in Hs3'. injection Hs3' as Hl Hp Hdelay Hmax Hsame.
    unfold tables in Ht3'. injection Ht3' as Hreq3 Hsub3.
    exists w'.
    exists (e1 ++ e2
            ++ [EvLog info;
                EvSleep (delay_Duration (ReconnectionDelay (Config (conn w2))))]
            ++ e3 ++ evs).
    split; [now rewrite Hmax|].
    split.
    { rewrite Hh, Hh3. cbn [paused proc history]. rewrite Hh2, Hh1.
      now rewrite <- !app_assoc. }
    assert (Hdelay2 : ReconnectionDelay (Config (conn w2))
                      = ReconnectionDelay (Config (conn w))).
    { unfold settings in Hs2, Hs1. injection Hs2 as _ _ H2 _ _.
      injection Hs1 as _ _ H1 _ _. congruence. }
    rewrite !beats_app, !chan_sends_app, !dials_app.
    rewrite Hb1, Hc1, Hd1, Hb2, Hc2, Hb3, Hc3, Hd3, Hb, Hc.
    rewrite Hdelay, Hdelay2, Hsub3.
    destruct (drop_deliveries_settings w w3
                (map_entries (subscriptions (conn w)))) as [-> _].
    { unfold settings. now rewrite Hl, Hp, Hdelay, Hmax, Hsame. }
    cbn. rewrite !length_app. cbn.
    repeat split; auto; try lia.
    intros Hres. specialize (Hdeq Hres). specialize (Hd2 (Hres _)). lia.
Qed.

Lemma drop_events_quiet config entries :
  beats (drop_events codes newPackage env config entries) = [] /\
  dials (drop_events codes newPackage env config entries) = [].
Proof.
  induction entries as [|entry rest IHe]; [split; reflexivity|].
  cbn [drop_events flat_map]. rewrite beats_app, dials_app.
  fold (drop_events codes newPackage env config rest).
  destruct IHe as [-> ->]. destruct (is_err _); split; reflexivity.
Qed.

(** How a call of [connectWithRetries] can end, whatever the network does:
    it returns with both tables untouched (a discovery failed or an attempt
    succeeded), or it returns the retry-limit error after emptying both
    tables and telling the subscriptions, or the process exits because the
    drop reason does not marshal.  It never makes more attempts than it was
    given. *)
Lemma retries_outcome (n : nat) :
  forall w,
    exists evs,
      let o := connectWithRetries_attempts codes newPackage env n w in
      history (proc (final o)) = history (proc w) ++ evs /\
      settings (final o) = settings w /\
      (attempts evs <= n)%nat /\
      ((exists r, o = Returns r (final o)) /\
       tables (final o) = tables w /\ chan_sends evs = []
       \/
       snd (proto_Marshal_SubscriptionDropped env) = None /\
       o = Returns (Some (ErrRetryLimit (MaxReconnects (Config (conn w)))))
             (final o) /\
       tables (final o) = (Some ∅, Some ∅) /\
       chan_sends evs
       = drop_deliveries codes newPackage env (Config (conn w))
           (map_entries (subscriptions (conn w)))
       \/
       snd (proto_Marshal_SubscriptionDropped env) <> None /\
       o = Aborts Fatal (final o) /\
       tables (final o) = tables w /\ chan_sends evs = []).
Proof.
  induction n as [|n IH]; intros w.
  - remember (connectWithRetries_attempts codes newPackage env 0 w) as o eqn:Ho.
    cbn [connectWithRetries_attempts] in Ho. unfold bind at 1 in Ho.
    destruct (discover_endpoint_spec w)
      as (r & w1 & e1 & Hrun1 & Hh1 & Hs1 & Ht1 & Hb1 & Hc1 & Hd1 & Hr).
    rewrite Hrun1 in Ho. clear Hr. destruct r as [e|].
    { subst o. exists e1. cbn [final]. rewrite (attempts_no_beat _ Hb1).
      split; [exact Hh1|]. split; [exact Hs1|]. split; [lia|].
      left. split; [eauto|]. split; [exact Ht1|exact Hc1]. }
    unfold bind at 1 in Ho.
    destruct (snd (proto_Marshal_SubscriptionDropped env)) as [e|] eqn:Hmarshal.
    + rewrite (closeConnection_fatal _ _ _ _ e) in Ho by assumption. subst o.
      exists (e1 ++ [EvLog errorLevel; EvLog fatal]). cbn [final conn proc history].
      rewrite attempts_app, (attempts_no_beat _ Hb1), chan_sends_app, Hc1, Hh1.
      rewrite <- app_assoc.
      split; [reflexivity|]. split; [exact Hs1|]. split; [cbn; lia|].
      right. right. split; [discriminate|]. split; [reflexivity|].
      split; [exact Ht1|reflexivity].
    + rewrite closeConnection_returns in Ho by assumption.
      unfold bind, get_conn, ret in Ho. cbn [conn proc history calls] in Ho.
      subst o. cbn [final conn proc history].
      destruct (drop_deliveries_settings w w1
                  (map_entries (subscriptions (conn w))) Hs1) as [Hdel Hev].
      unfold tables in Ht1. injection Ht1 as Hreq1 Hsub1.
      exists (e1 ++ [EvLog errorLevel]
              ++ drop_events codes newPackage env (Config (conn w))
                   (map_entries (subscriptions (conn w)))
              ++ [EvResetTables]).
      rewrite Hsub1, Hev, Hh1, <- app_assoc.
      split; [reflexivity|]. split; [exact Hs1|].
      rewrite !attempts_app, (attempts_no_beat _ Hb1).
      destruct (drop_events_quiet (Config (conn w))
                  (map_entries (subscriptions (conn w)))) as [Hq _].
      rewrite (attempts_no_beat _ Hq). cbn [attempts beats flat_map List.filter
        is_attempt length Nat.add app]. split; [lia|].
      right. left. split; [reflexivity|].
      split.
      { f_equal. f_equal. unfold settings in Hs1.
        injection Hs1 as _ _ _ Hmax _. cbn. now rewrite Hmax. }
      split; [reflexivity|].
      split_sends. rewrite Hc1, chan_sends_drop_events. cbn.
      now rewrite app_nil_r.
  - remember (connectWithRetries_attempts codes newPackage env (S n) w) as o eqn:Ho.
    cbn [connectWithRetries_attempts] in Ho. unfold bind at 1 in Ho.
    destruct (discover_endpoint_spec w)
      as (r & w1 & e1 & Hrun1 & Hh1 & Hs1 & Ht1 & Hb1 & Hc1 & Hd1 & Hr).
    rewrite Hrun1 in Ho. clear Hr. destruct r as [e|].
    { subst o. exists e1. cbn [final]. rewrite (attempts_no_beat _ Hb1).
      split; [exact Hh1|]. split; [exact Hs1|]. split; [lia|].
      left. split; [eauto|]. split; [exact Ht1|exact Hc1]. }
    unfold bind at 1 in Ho.
    destruct (connect_spec w1)
      as (r2 & w2 & e2 & Hrun2 & Hh2 & Hs2 & Ht2 & Hb2 & Hc2 & _).
    rewrite Hrun2 in Ho.
    assert (Ha2 : attempts e2 = 1%nat) by (unfold attempts; now rewrite Hb2).
    destruct r2 as [e|].
    2:{ unfold ret in Ho. subst o. exists (e1 ++ e2). cbn [final].
        rewrite attempts_app, (attempts_no_beat _ Hb1), Ha2, chan_sends_app, Hc1, Hc2.
        rewrite Hh2, Hh1, <- app_assoc.
        split; [reflexivity|]. split; [now rewrite Hs2|]. split; [cbn; lia|].
        left. split; [eauto|]. split; [now rewrite Ht2|reflexivity]. }
    rewrite pause_run in Ho. unfold bind at 1 in Ho.
    destruct (check_nodes_spec (paused w2))
      as (w3 & e3 & Hrun3 & Hh3 & Hs3 & Ht3 & Hb3 & Hc3 & Hd3).
    rewrite Hrun3 in Ho.
    assert (Hs3' : settings w3 = settings w).
    { rewrite Hs3. transitivity (settings w2); [reflexivity|now rewrite Hs2]. }
    assert (Ht3' : tables w3 = tables w).
    { rewrite Ht3. transitivity (tables w2); [reflexivity|]. now rewrite Ht2. }
    destruct (IH w3) as (evs & Hh & Hs & Ha & Hcases).
    cbv zeta in *. rewrite <- Ho in *. clear Ho.
    set (pause := [EvLog info;
                   EvSleep (delay_Duration (ReconnectionDelay (Config (conn w2))))]).
    exists (e1 ++ e2 ++ pause ++ e3 ++ evs).
    split.
    { rewrite Hh, Hh3. cbn [paused proc history]. rewrite Hh2, Hh1.
      now rewrite <- !app_assoc. }
    split; [now rewrite Hs|].
    rewrite !attempts_app, (attempts_no_beat _ Hb1), Ha2, (attempts_no_beat _ Hb3).
    split; [cbn; lia|].
    rewrite !chan_sends_app, Hc1, Hc2, Hc3. cbn [app chan_sends flat_map pause].
    destruct Hcases
      as [(Hret & Ht & Hc) | [(Hm & Hret & Ht & Hc) | (Hm & Hret & Ht & Hc)]].
    + left. split; [exact Hret|]. split; [now rewrite Ht|exact Hc].
    + right. left. split; [exact Hm|].
      unfold settings in Hs3'. injection Hs3' as Hl Hp Hdelay Hmax Hsame.
      unfold tables in Ht3'. injection Ht3' as Hreq3 Hsub3.
      split; [now rewrite <- Hmax|]. split; [exact Ht|].
      rewrite Hc, Hsub3.
      apply (drop_deliveries_settings w w3).
      unfold settings. now rewrite Hl, Hp, Hdelay, Hmax, Hsame.
    + right. right. split; [exact Hm|]. split; [exact Hret|].
      split; [now rewrite Ht|exact Hc].
Qed.

End Reconnecting.

Lemma attempts_rounds (n : nat) (d : Z) (rest : list Beat) :
  length (List.filter is_attempt (rounds n d ++ rest))
  = (n + length (List.filter is_attempt rest))%nat.
Proof.
  induction n as [|n IH]; [reflexivity|]. cbn. now rewrite IH.
Qed.

Lemma delay_Duration_exact (delay : Z) :
  0 <= delay * time_Millisecond < 2 ^ 63 ->
  delay_Duration delay = delay * time_Millisecond.
Proof.
  intros Hrange. unfold delay_Duration, wrap_int64.
  rewrite Z.mod_small; lia.
Qed.

(** C2 (as amended). With [N >= 1] attempts left, every attempt failing,
    every endpoint discovery succeeding when a discoverer is configured, and
    the drop reason marshalling,
    [connectWithRetries] makes exactly [N] attempts, sleeps the reconnection
    delay after each of them, then empties the tables, after sending every
    tracked subscription its drop notification, and returns the retry-limit
    error.  A dial is made in each attempt whose address resolves.  [Connect]
    does the same with [N] the configured maximum, after emptying the tables
    first. *)
Theorem connectWithRetries_gives_up_after_N_attempts
    (codes : CommandCodes)
    (newPackage : Command -> list byte -> list byte -> string -> string ->
                  TCPPackage * option error)
    (env : Environment) (N : Z) (w : World) :
  1 <= N ->
  snd (proto_Marshal_SubscriptionDropped env) = None ->
  every_attempt_fails env ->
  every_discovery_succeeds w ->
  let config := Config (conn w) in
  let pause := delay_Duration (ReconnectionDelay config) in
  (exists w',
     connectWithRetries codes newPackage env N w
     = Returns (Some (ErrRetryLimit (MaxReconnects config))) w' /\
     beats (since w w') = rounds (Z.to_nat N) pause ++ [Emptied] /\
     Z.of_nat (attempts (since w w')) = N /\
     Z.of_nat (length (dials (since w w'))) <= N /\
     ((forall k, net_ResolveTCPAddr env k = None) ->
      Z.of_nat (length (dials (since w w'))) = N) /\
     chan_sends (since w w')
       ≡ₚ drop_deliveries codes newPackage env config
            (map_entries (subscriptions (conn w))) /\
     requests (conn w') = Some ∅ /\
     subscriptions (conn w') = Some ∅) /\
  (0 <= ReconnectionDelay config * time_Millisecond < 2 ^ 63 ->
   pause = ReconnectionDelay config * time_Millisecond) /\
  (MaxReconnects config = N ->
   exists v',
     Connect codes newPackage env w = Returns (Some (ErrRetryLimit N)) v' /\
     beats (since w v') = Emptied :: rounds (Z.to_nat N) pause ++ [Emptied] /\
     Z.of_nat (attempts (since w v')) = N /\
     requests (conn v') = Some ∅ /\
     subscriptions (conn v') = Some ∅).
Proof.
  intros HN Hmarshal Hfail Hdisc config pause.
  split; [|split].
  - destruct (retries_exhaust codes newPackage env (Z.to_nat N) Hmarshal Hfail w Hdisc)
      as (w' & evs & Hrun & Hh & Hb & Hc & Hreq & Hsub & Hdle & Hdeq).
    exists w'. unfold connectWithRetries. rewrite (since_app _ _ _ Hh).
    split; [exact Hrun|]. split; [exact Hb|].
    split; [unfold attempts; rewrite Hb, attempts_rounds; cbn; lia|].
    split; [lia|]. split; [intros Hres; specialize (Hdeq Hres); lia|].
    split; [now rewrite Hc|]. split; assumption.
  - apply delay_Duration_exact.
  - intros Hmax. unfold Connect, reset_tables.
    set (w0 := {| conn := set_subscriptions (Some ∅) (set_requests (Some ∅) (conn w));
                  proc := {| history := history (proc w) ++ [EvResetTables];
                             calls := calls (proc w) |} |}).
    assert (Hstart : forall k : M (option error),
               (update_conn (set_requests (Some ∅)) ;;;
                update_conn (set_subscriptions (Some ∅)) ;;;
                emit EvResetTables ;;; k) w = k w0).
    { intros k. destruct w as [c [h calls]]. reflexivity. }
    assert (Hdisc0 : every_discovery_succeeds w0) by exact Hdisc.
    destruct (retries_exhaust codes newPackage env (Z.to_nat N) Hmarshal Hfail w0 Hdisc0)
      as (v' & evs & Hrun & Hh & Hb & Hc & Hreq & Hsub & Hdle & Hdeq).
    exists v'.
    assert (Hh' : history (proc v') = history (proc w) ++ EvResetTables :: evs).
    { rewrite Hh. cbn. now rewrite <- app_assoc. }
    rewrite (since_app _ _ _ Hh').
    split.
    { change ((update_conn (set_requests (Some ∅)) ;;;
               update_conn (set_subscriptions (Some ∅)) ;;;
               emit EvResetTables ;;;
               c <- get_conn ;;
               connectWithRetries codes newPackage env (MaxReconnects (Config c))) w
              = Returns (Some (ErrRetryLimit N)) v').
      rewrite Hstart. unfold bind, get_conn, connectWithRetries.
      change (MaxReconnects (Config (conn w0))) with (MaxReconnects config).
      rewrite Hmax, Hrun. f_equal. f_equal. f_equal. exact Hmax. }
    change (EvResetTables :: evs) with ([EvResetTables] ++ evs).
    split; [now rewrite beats_app, Hb|].
    split; [unfold attempts; rewrite beats_app, Hb; cbn [beats flat_map app
              List.filter is_attempt]; rewrite attempts_rounds; cbn; lia|].
    split; assumption.
Qed.

Lemma connectWithRetries_gives_up_after_N_attempts_witness :
  exists w',
    connectWithRetries Fixture.codes Fixture.newPackage Fixture.env 3 Fixture.live
    = Returns (Some (ErrRetryLimit 3)) w' /\
    beats (since Fixture.live w')
    = [Attempt; Wait 10000000000; Attempt; Wait 10000000000;
       Attempt; Wait 10000000000; Emptied] /\
    Z.of_nat (length (dials (since Fixture.live w'))) = 3.
Proof.
  destruct (connectWithRetries_gives_up_after_N_attempts
              Fixture.codes Fixture.newPackage Fixture.env 3 Fixture.live
              ltac:(lia) eq_refl (fun _ _ => or_intror eq_refl)
              (fun d Hd => ltac:(discriminate Hd)))
    as ((w' & Hrun & Hbeats & _ & _ & Hdials & _) & _).
  exists w'. split; [exact Hrun|]. split; [exact Hbeats|].
  apply Hdials. reflexivity.
Defined.

(** C2 as stated fails when a discoverer is configured and cannot find a
    node: every dial is refused, three attempts are allowed, and [Connect]
    returns the discoverer's error without a single attempt, sleep or drop
    notification. *)
Lemma Connect_gives_up_counterexample :
  let o := Connect Fixture.codes Fixture.newPackage Fixture.env Fixture.lost in
  every_attempt_fails Fixture.env /\
  MaxReconnects (Config (conn Fixture.lost)) = 3 /\
  o = Returns (Some (External "no node available")) (final o) /\
  o <> Returns (Some (ErrRetryLimit 3)) (final o) /\
  attempts (since Fixture.lost (final o)) = 0%nat /\
  dials (since Fixture.lost (final o)) = [] /\
  beats (since Fixture.lost (final o)) = [Emptied] /\
  chan_sends (since Fixture.lost (final o)) = [].
Proof.
  cbv zeta.
  split; [intros kr kd; right; reflexivity|].
  split; [reflexivity|].
  assert (Hrun : Connect Fixture.codes Fixture.newPackage Fixture.env Fixture.lost
                 = Returns (Some (External "no node available"))
                     (final (Connect Fixture.codes Fixture.newPackage Fixture.env
                               Fixture.lost))) by (vm_compute; reflexivity).
  split; [exact Hrun|].
  split; [rewrite Hrun at 1; discriminate|].
  by_running.
Qed.

(** *** End of stream *)

Section EndOfStream.

Variable codes : CommandCodes.
Variable newPackage :
  Command -> list byte -> list byte -> string -> string -> TCPPackage * option error.
Variable parsePackage : list byte -> TCPPackage * option error.
Variable env : Environment.

Lemma readFromSocket_body_eof buffer w s data e :
  Mutex (conn w) = false ->
  connected (conn w) = true ->
  Socket (conn w) = Some s ->
  socket_Read env (n_read (calls (proc w))) = (data, Some e) ->
  is_EOF e = true ->
  readFromSocket_body codes newPackage parsePackage env buffer w
  = reconnect_cycle codes newPackage env (after_read s w).
Proof.
  intros Hmu Hcon Hsock Hread Heof. open_world w. subst mu con sock.
  unfold readFromSocket_body, reconnect_cycle, Mutex_Lock, Mutex_Unlock,
    Socket_Read.
  run. rewrite Hread. cbn. rewrite Heof. cbn.
  unfold after_read. cbn.
  destruct (Close codes newPackage env _) as [r w1|why w1]; [|reflexivity].
  destruct (connectWithRetries codes newPackage env _ w1) as [r2 w2|why w2];
    [|reflexivity].
  destruct (is_err r2); reflexivity.
Qed.

Lemma reconnect_cycle_run w s :
  Mutex (conn w) = false ->
  Socket (conn w) = Some s ->
  snd (proto_Marshal_SubscriptionDropped env) = None ->
  exists w' evs,
    reconnect_cycle codes newPackage env w = Returns Break w' /\
    history (proc w') = history (proc w) ++ evs /\
    In (EvSocketClose s) evs /\
    (attempts evs <= Z.to_nat (MaxReconnects (Config (conn w))))%nat /\
    chan_sends evs
    = drop_deliveries codes newPackage env (Config (conn w))
        (map_entries (subscriptions (conn w))) /\
    requests (conn w') = Some ∅ /\
    subscriptions (conn w') = Some ∅.
Proof.
  intros Hmu Hsock Hmarshal. unfold reconnect_cycle. unfold bind at 1.
  rewrite (Close_returns codes newPackage env w s Hmu Hsock Hmarshal).
  set (w1 := {| conn := closed (conn w); proc := _ |}).
  unfold bind at 1. unfold get_conn at 1. cbn [conn].
  unfold bind at 1. unfold connectWithRetries.
  change (MaxReconnects (Config (closed (conn w))))
    with (MaxReconnects (Config (conn w))).
  destruct (retries_outcome codes newPackage env
              (Z.to_nat (MaxReconnects (Config (conn w)))) w1)
    as (evs & Hh & Hs & Ha & Hcases).
  cbv zeta in *.
  set (o := connectWithRetries_attempts codes newPackage env _ w1) in *.
  set (close_events :=
         [EvLog info; EvSocketClose s]
         ++ (if is_err (socket_Close env (n_close (calls (proc w))))
             then [EvLog errorLevel] else [])
         ++ [EvLog errorLevel]
         ++ drop_events codes newPackage env (Config (conn w))
              (map_entries (subscriptions (conn w)))
         ++ [EvResetTables]).
  assert (Hclose_sends :
            chan_sends close_events
            = drop_deliveries codes newPackage env (Config (conn w))
                (map_entries (subscriptions (conn w)))).
  { subst close_events. split_sends. rewrite chan_sends_drop_events.
    destruct (is_err _); cbn; now rewrite app_nil_r. }
  assert (Hclose_beats : attempts close_events = 0%nat).
  { subst close_events. rewrite !attempts_app.
    destruct (drop_events_quiet codes newPackage env (Config (conn w))
                (map_entries (subscriptions (conn w)))) as [Hq _].
    rewrite (attempts_no_beat _ Hq). now destruct (is_err _). }
  assert (Hin : In (EvSocketClose s) close_events) by (right; now left).
  assert (Hfinish : forall w2 last,
             history (proc w2) = history (proc w1) ++ evs ->
             tables w2 = (Some ∅, Some ∅) ->
             chan_sends evs = [] ->
             exists w' all,
               (log_Printf last ;;; ret Break) w2 = Returns Break w' /\
               history (proc w') = history (proc w) ++ all /\
               In (EvSocketClose s) all /\
               (attempts all <= Z.to_nat (MaxReconnects (Config (conn w))))%nat /\
               chan_sends all
               = drop_deliveries codes newPackage env (Config (conn w))
                   (map_entries (subscriptions (conn w))) /\
               requests (conn w') = Some ∅ /\ subscriptions (conn w') = Some ∅).
  { intros w2 last Hh2 Ht2 Hc2. unfold tables in Ht2.
    injection Ht2 as Hreq2 Hsub2.
    destruct w2 as [c2 [h2 k2]]. cbn in Hh2, Hreq2, Hsub2.
    eexists; exists (close_events ++ evs ++ [EvLog last]).
    split; [reflexivity|]. cbn [conn proc history record_event].
    split.
    { rewrite Hh2; subst w1 close_events; cbn [proc history].
      norm_app. reflexivity. }
    split; [apply in_or_app; now left|].
    rewrite !attempts_app, Hclose_beats, !chan_sends_app, Hclose_sends, Hc2.
    cbn. rewrite app_nil_r. repeat split; auto. lia. }
  destruct Hcases as [([r Hret] & Ht & Hc) | [(_ & Hret & Ht & Hc) | (Hm & _)]].
  - rewrite Hret. destruct (is_err r); apply Hfinish; auto.
  - rewrite Hret. cbn [is_err]. apply Hfinish; auto.
  - contradiction.
Qed.

(** C5 (as amended). When a read returns end-of-stream on a connection
    marked connected (and the drop reason marshals), the reader closes the
    connection, runs
    [connectWithRetries] with the configured maximum, which bounds the
    attempts, and leaves the loop.  The frames sent on channels during the
    pass are the drop notifications of the tracked subscriptions; the
    requests table is emptied, and a pending request whose channel is not
    also the channel of a subscription is sent nothing. *)
Theorem reader_reconnects_on_end_of_stream
    (buffer : list byte) (w : World) (s : TCPConn) (data : list byte)
    (e : error) :
  Mutex (conn w) = false ->
  connected (conn w) = true ->
  Socket (conn w) = Some s ->
  socket_Read env (n_read (calls (proc w))) = (data, Some e) ->
  is_EOF e = true ->
  snd (proto_Marshal_SubscriptionDropped env) = None ->
  let config := Config (conn w) in
  let tracked := map_entries (subscriptions (conn w)) in
  readFromSocket_body codes newPackage parsePackage env buffer w
  = reconnect_cycle codes newPackage env (after_read s w) /\
  exists w',
    readFromSocket_body codes newPackage parsePackage env buffer w
    = Returns Break w' /\
    In (EvSocketClose s) (since w w') /\
    (attempts (since w w') <= Z.to_nat (MaxReconnects config))%nat /\
    chan_sends (since w w')
      ≡ₚ drop_deliveries codes newPackage env config tracked /\
    requests (conn w') = Some ∅ /\
    subscriptions (conn w') = Some ∅ /\
    (forall key request,
       map_get (requests (conn w)) key = Some request ->
       (forall entry, In entry tracked -> sub_Channel (snd entry) <> request) ->
       forall frame, ~ In (request, frame) (chan_sends (since w w'))).
Proof.
  intros Hmu Hcon Hsock Hread Heof Hmarshal config tracked.
  pose proof (readFromSocket_body_eof buffer w s data e Hmu Hcon Hsock Hread Heof)
    as Hbody.
  split; [exact Hbody|]. rewrite Hbody.
  destruct (reconnect_cycle_run (after_read s w) s Hmu Hsock Hmarshal)
    as (w' & evs & Hrun & Hh & Hin & Ha & Hc & Hreq & Hsub).
  exists w'. split; [exact Hrun|].
  assert (Hh' : history (proc w') = history (proc w) ++ EvSocketRead s :: evs).
  { rewrite Hh. cbn. now rewrite <- app_assoc. }
  rewrite (since_app _ _ _ Hh').
  change (EvSocketRead s :: evs) with ([EvSocketRead s] ++ evs).
  rewrite attempts_app, chan_sends_app, Hc. cbn [app chan_sends flat_map attempts
    beats List.filter length Nat.add].
  split; [now right|]. split; [exact Ha|]. split; [reflexivity|].
  split; [exact Hreq|]. split; [exact Hsub|].
  intros key request _ Hfree frame Hsent.
  unfold drop_deliveries in Hsent. apply in_map_iff in Hsent as (entry & Heq & Hentry).
  injection Heq as Hch _. now apply (Hfree entry).
Qed.

End EndOfStream.

Lemma reader_reconnects_on_end_of_stream_witness :
  exists w',
    readFromSocket_body Fixture.codes Fixture.newPackage Fixture.parsePackage
      Fixture.env [] Fixture.live = Returns Break w' /\
    (attempts (since Fixture.live w') <= 3)%nat /\
    requests (conn w') = Some ∅.
Proof.
  destruct (reader_reconnects_on_end_of_stream Fixture.codes Fixture.newPackage
              Fixture.parsePackage Fixture.env [] Fixture.live 1%nat []
              (External "EOF") eq_refl eq_refl eq_refl eq_refl eq_refl eq_refl)
    as (_ & w' & Hrun & _ & Hattempts & _ & Hreq & _).
  exists w'. split; [exact Hrun|]. split; [exact Hattempts|exact Hreq].
Defined.

(** C5 as stated fails: the request pending on channel 7 when the stream ends
    is dropped from the table and nothing at all is sent on its channel. *)
Lemma reader_reconnects_counterexample :
  let o := readFromSocket_body Fixture.codes Fixture.newPackage
             Fixture.parsePackage Fixture.env [] Fixture.live in
  connected (conn Fixture.live) = true /\
  socket_Read Fixture.env (n_read (calls (proc Fixture.live)))
  = ([], Some (External "EOF")) /\
  map_get (requests (conn Fixture.live)) (Fixture.id_of Byte.x11) = Some 7%nat /\
  o = Returns Break (final o) /\
  (forall frame, ~ In (7%nat, frame) (chan_sends (since Fixture.live (final o)))) /\
  map_get (requests (conn (final o))) (Fixture.id_of Byte.x11) = None.
Proof.
  cbv zeta.
  split; [reflexivity|]. split; [reflexivity|]. split; [reflexivity|].
  split; [vm_compute; reflexivity|].
  split; [|vm_compute; reflexivity].
  intros frame Hin.
  assert (Hall :
    List.Forall (fun delivery => fst delivery = 9%nat)
      (chan_sends (since Fixture.live
         (final (readFromSocket_body Fixture.codes Fixture.newPackage
                   Fixture.parsePackage Fixture.env [] Fixture.live)))))
    by (vm_compute; repeat constructor).
  apply (proj1 (List.Forall_forall _ _) Hall) in Hin. discriminate Hin.
Qed.

(** *** The life of the requests table *)

Lemma final_then_ret {A B : Type} (c : M A) (b : B) (w : World) :
  final ((c ;;; ret b) w) = final (c w).
Proof. unfold bind, ret. now destruct (c w). Qed.

Section RequestsTable.

Variable codes : CommandCodes.
Variable newPackage :
  Command -> list byte -> list byte -> string -> string -> TCPPackage * option error.
Variable parsePackage : list byte -> TCPPackage * option error.
Variable env : Environment.

Lemma dispatch_keeps_conn msg w :
  conn (final (dispatch codes newPackage env msg w)) = conn w.
Proof.
  unfold dispatch, NewV4.
  destruct (pkg_Command msg =? heartbeatRequest codes).
  { destruct (newPackage _ _ _ _ _) as [pkg [e|]]; destruct w as [c [h k]];
      reflexivity. }
  destruct (pkg_Command msg =? pong codes).
  { destruct w as [c [h k]]. run.
    destruct (newPackage _ _ _ _ _) as [pkg [e|]]; reflexivity. }
  destruct (existsb _ _); [now rewrite deliver_run|].
  destruct (pkg_Command msg =? notAuthenticated codes); [now rewrite deliver_run|].
  destruct (pkg_Command msg =? badRequestLiteral); destruct w as [c [h k]];
    reflexivity.
Qed.

Lemma readFromSocket_body_keeps_requests buffer w :
  (forall data e,
     socket_Read env (n_read (calls (proc w))) = (data, Some e) ->
     is_EOF e = false) ->
  requests (conn (final (readFromSocket_body codes newPackage parsePackage env
                           buffer w)))
  = requests (conn w).
Proof.
  intros Hread. open_world w.
  unfold readFromSocket_body, Mutex_Lock, Mutex_Unlock, Socket_Read. run.
  destruct mu; [reflexivity|]. cbn.
  destruct con; [|reflexivity]. cbn.
  destruct sock as [s|]; [|reflexivity]. cbn.
  destruct (socket_Read env (n_read k)) as [data [e|]] eqn:Hr; cbn.
  - rewrite (Hread data e eq_refl). reflexivity.
  - destruct (parsePackage (refill buffer data)) as [msg [e|]]; cbn;
      [reflexivity|].
    match goal with
    | |- context [dispatch codes newPackage env msg ?W] =>
        pose proof (dispatch_keeps_conn msg W) as Hd;
        destruct (dispatch codes newPackage env msg W) as [u w1|why w1]
    end; cbn in *; now rewrite Hd.
Qed.

Lemma connectWithRetries_requests (N : Z) w r w' :
  connectWithRetries codes newPackage env N w = Returns r w' ->
  requests (conn w') = requests (conn w) \/
  r = Some (ErrRetryLimit (MaxReconnects (Config (conn w)))) /\
  requests (conn w') = Some ∅.
Proof.
  unfold connectWithRetries. intros Hrun.
  destruct (retries_outcome codes newPackage env (Z.to_nat N) w)
    as (evs & _ & _ & _ & Hcases).
  cbv zeta in Hcases. rewrite Hrun in Hcases. cbn [final] in Hcases.
  destruct Hcases as [(_ & Ht & _) | [(_ & Hret & Ht & _) | (_ & Hret & _)]].
  - left. unfold tables in Ht. now injection Ht.
  - right. injection Hret as ->. unfold tables in Ht. now injection Ht.
  - discriminate Hret.
Qed.

Lemma Connect_requests w r w' :
  Connect codes newPackage env w = Returns r w' ->
  requests (conn w') = Some ∅.
Proof.
  unfold Connect, reset_tables. destruct w as [c [h k]]. run.
  intros Hrun. apply connectWithRetries_requests in Hrun as [Hsame | [_ Hempty]];
    [exact Hsame | exact Hempty].
Qed.

(** C9. Delivering a frame on the channel registered for its correlation
    id leaves the connection, and with it the requests table, as it was.
    No pass of the reader changes the table unless the read ends in EOF
    and the reader goes through [Close]; [sendPackage] adds the entry of
    its frame and keeps every other one; [connectWithRetries] leaves the
    table alone unless it gives up with the retry-limit error, and then
    the table is empty, as it is after [Connect] and after [Close]. *)
Theorem requests_table_is_never_pruned :
  (forall buffer w s data msg,
     cases_distinct codes ->
     Mutex (conn w) = false -> connected (conn w) = true ->
     Socket (conn w) = Some s ->
     socket_Read env (n_read (calls (proc w))) = (data, None) ->
     parsePackage (refill buffer data) = (msg, None) ->
     In (pkg_Command msg) (routed_commands codes) ->
     exists w',
       readFromSocket_body codes newPackage parsePackage env buffer w
       = Returns (Continue (refill buffer data)) w' /\
       requests (conn w') = requests (conn w) /\
       map_get (requests (conn w')) (fst (uuid.FromBytes (pkg_CorrelationID msg)))
       = map_get (requests (conn w)) (fst (uuid.FromBytes (pkg_CorrelationID msg)))) /\
  (forall buffer w,
     (forall data e,
        socket_Read env (n_read (calls (proc w))) = (data, Some e) ->
        is_EOF e = false) ->
     requests (conn (final (readFromSocket_body codes newPackage parsePackage
                              env buffer w)))
     = requests (conn w)) /\
  (forall pkg channel w table,
     requests (conn w) = Some table ->
     exists r w',
       sendPackage env pkg channel w = Returns r w' /\
       requests (conn w')
       = Some (<[fst (uuid.FromBytes (pkg_CorrelationID pkg)) := channel]> table) /\
       dom table ⊆ dom (<[fst (uuid.FromBytes (pkg_CorrelationID pkg)) := channel]>
                          table)) /\
  (forall N w r w',
     connectWithRetries codes newPackage env N w = Returns r w' ->
     requests (conn w') = requests (conn w) \/
     r = Some (ErrRetryLimit (MaxReconnects (Config (conn w)))) /\
     requests (conn w') = Some ∅) /\
  (forall w r w',
     Connect codes newPackage env w = Returns r w' ->
     requests (conn w') = Some ∅) /\
  (forall w r w',
     Close codes newPackage env w = Returns r w' ->
     requests (conn w') = Some ∅).
Proof.
  split; [|split; [|split; [|split; [|split]]]].
  - intros buffer w s data msg Hnd Hmu Hcon Hsock Hread Hparse Hcmd.
    rewrite (readFromSocket_body_decodes codes newPackage parsePackage env
               _ _ _ _ _ Hmu Hcon Hsock Hread Hparse).
    unfold bind at 1. rewrite (dispatch_routed codes newPackage env _ Hnd Hcmd).
    rewrite deliver_run. eexists. split; [reflexivity|]. split; reflexivity.
  - apply readFromSocket_body_keeps_requests.
  - intros pkg channel w table Hreq.
    rewrite (sendPackage_run env _ _ _ _ Hreq).
    eexists; eexists. split; [reflexivity|]. split; [reflexivity|].
    rewrite dom_insert. set_solver.
  - apply connectWithRetries_requests.
  - apply Connect_requests.
  - intros w r w' Hrun.
    destruct (Close_returns_only_if _ _ _ _ _ _ Hrun) as (Hmu & [s Hsock] & Hmarshal).
    rewrite (Close_returns codes newPackage env w s Hmu Hsock Hmarshal) in Hrun.
    now injection Hrun as _ <-.
Qed.

End RequestsTable.

(** ** The theorems at work on the concrete environment *)


Lemma Fixture_codec_carries : codec_carries Fixture.newPackage.
Proof. intros command data correlationID login password. cbn. auto. Qed.


Lemma reader_answers_heartbeat_witness :
  let reply := {| pkg_Command := 0x02; pkg_CorrelationID := Fixture.id_of Byte.x11;
                  pkg_Data := []; pkg_Login := ""; pkg_Password := "" |} in
  exists w' channel,
    readFromSocket_body Fixture.codes Fixture.newPackage Fixture.parsePackage
      (Fixture.env_serving (Byte.x01 :: Fixture.id_of Byte.x11))
      (repeat Byte.x00 20) Fixture.live
    = Returns (Continue (Byte.x01 :: Fixture.id_of Byte.x11 ++ repeat Byte.x00 3)) w' /\
    started (since Fixture.live w') = [GoSendPackage reply channel] /\
    socket_writes (since Fixture.live w') = [].
Proof.
  intros reply.
  destruct (reader_answers_heartbeat Fixture.codes Fixture.newPackage
              Fixture.parsePackage
              (Fixture.env_serving (Byte.x01 :: Fixture.id_of Byte.x11))
              (repeat Byte.x00 20) Fixture.live 1%nat
              (Byte.x01 :: Fixture.id_of Byte.x11)
              {| pkg_Command := 0x01; pkg_CorrelationID := Fixture.id_of Byte.x11;
                 pkg_Data := []; pkg_Login := ""; pkg_Password := "" |}
              eq_refl eq_refl eq_refl eq_refl eq_refl eq_refl)
    as (w' & channel & Hrun & _ & Hstarted & Hwrites & _).
  exists w', channel. split; [exact Hrun|]. split; [exact Hstarted | exact Hwrites].
Defined.

Lemma reader_pings_after_pong_witness :
  let probe := {| pkg_Command := 0x03; pkg_CorrelationID := Fixture.id_of Byte.xc8;
                  pkg_Data := []; pkg_Login := ""; pkg_Password := "" |} in
  exists w' channel,
    readFromSocket_body Fixture.codes Fixture.newPackage Fixture.parsePackage
      (Fixture.env_serving (Byte.x04 :: Fixture.id_of Byte.x11))
      (repeat Byte.x00 20) Fixture.live
    = Returns (Continue (Byte.x04 :: Fixture.id_of Byte.x11 ++ repeat Byte.x00 3)) w' /\
    started (since Fixture.live w') = [GoSendPackage probe channel] /\
    pkg_CorrelationID probe <> Fixture.id_of Byte.x11.
Proof.
  intros probe.
  destruct (reader_pings_after_pong Fixture.codes Fixture.newPackage
              Fixture.parsePackage
              (Fixture.env_serving (Byte.x04 :: Fixture.id_of Byte.x11))
              (repeat Byte.x00 20) Fixture.live 1%nat
              (Byte.x04 :: Fixture.id_of Byte.x11)
              {| pkg_Command := 0x04; pkg_CorrelationID := Fixture.id_of Byte.x11;
                 pkg_Data := []; pkg_Login := ""; pkg_Password := "" |}
              ltac:(discriminate) eq_refl eq_refl eq_refl eq_refl eq_refl eq_refl)
    as (w' & channel & Hrun & _ & _ & Hstarted & _ & _ & Hcodec).
  exists w', channel. split; [exact Hrun|]. split; [exact Hstarted|].
  destruct (Hcodec Fixture_codec_carries) as (_ & _ & Hfresh).
  apply Hfresh. discriminate.
Defined.

Lemma requests_table_is_never_pruned_witness :
  exists r w',
    sendPackage Fixture.env
      (fst (Fixture.newPackage 0x82 [] (Fixture.id_of Byte.x33) "" ""))
      4%nat Fixture.live
    = Returns r w' /\
    requests (conn w')
    = Some (<[Fixture.id_of Byte.x33 := 4%nat]> {[ Fixture.id_of Byte.x11 := 7%nat ]}).
Proof.
  destruct (requests_table_is_never_pruned Fixture.codes Fixture.newPackage
              Fixture.parsePackage Fixture.env) as (_ & _ & Hsend & _).
  destruct (Hsend (fst (Fixture.newPackage 0x82 [] (Fixture.id_of Byte.x33) "" ""))
              4%nat Fixture.live {[ Fixture.id_of Byte.x11 := 7%nat ]} eq_refl)
    as (r & w' & Hrun & Hreq & _).
  exists r, w'. split; [exact Hrun | exact Hreq].
Defined.

(** ** Scenarios *)


(** Three refused dials with a maximum of three: the whole history of
    [Connect] on a new connection. *)
Example Connect_three_refused_dials :
  let o := Connect Fixture.codes Fixture.newPackage Fixture.env Fixture.fresh in
  o = Returns (Some (ErrRetryLimit 3)) (final o) /\
  history (proc (final o))
  = [EvResetTables;
     EvLog info; EvResolve "localhost" 1113; EvDial "localhost" 1113;
     EvLog info; EvSleep 10000000000;
     EvLog info; EvResolve "localhost" 1113; EvDial "localhost" 1113;
     EvLog info; EvSleep 10000000000;
     EvLog info; EvResolve "localhost" 1113; EvDial "localhost" 1113;
     EvLog info; EvSleep 10000000000;
     EvLog errorLevel; EvResetTables].
Proof. by_running. Qed.

(** The dial fails twice and succeeds on the third attempt, with a maximum of
    three: [Connect] returns without an error after exactly two sleeps and
    has started the reader. *)
Example Connect_third_dial_succeeds :
  let o := Connect Fixture.codes Fixture.newPackage Fixture.env_flaky Fixture.fresh in
  o = Returns None (final o) /\
  beats (history (proc (final o)))
  = [Emptied; Attempt; Wait 10000000000; Attempt; Wait 10000000000; Attempt] /\
  started (history (proc (final o))) = [GoReadFromSocket] /\
  connected (conn (final o)) = true /\
  Socket (conn (final o)) = Some 3%nat.
Proof. by_running. Qed.

(** End of stream on a live connection while the first two dials are refused:
    the reader closes, reconnects on the third attempt, starts a new reader
    and leaves its loop; the request that was pending is gone. *)
Example reader_reconnects_on_third_dial :
  let o := readFromSocket Fixture.codes Fixture.newPackage Fixture.parsePackage
             Fixture.env_flaky 1 Fixture.live in
  o = Returns tt (final o) /\
  beats (history (proc (final o)))
  = [Emptied; Attempt; Wait 10000000000; Attempt; Wait 10000000000; Attempt] /\
  started (history (proc (final o))) = [GoReadFromSocket] /\
  map fst (chan_sends (history (proc (final o)))) = [9%nat] /\
  connected (conn (final o)) = true /\
  requests (conn (final o)) = Some ∅.
Proof. by_running. Qed.

(** Two passes of the loop over a socket that keeps delivering the same
    write-completed frame: the frame reaches channel 7 twice, and the entry
    is still in the table. *)
Example reader_delivers_twice :
  let o := readFromSocket_loop Fixture.codes Fixture.newPackage Fixture.parsePackage
             (Fixture.env_serving (Byte.x83 :: Fixture.id_of Byte.x11)) 2
             (repeat Byte.x00 20) Fixture.live in
  o = Aborts OutOfFuel (final o) /\
  map fst (chan_sends (history (proc (final o)))) = [7%nat; 7%nat] /\
  map_get (requests (conn (final o))) (Fixture.id_of Byte.x11) = Some 7%nat.
Proof. by_running. Qed.

(** A reader that finds the connection closed leaves its loop holding the
    mutex, and a later [Close] waits for it for ever. *)
Example reader_leaves_with_the_mutex :
  let stopped :=
    {| conn := set_connected false (conn Fixture.live); proc := Fixture.boot |} in
  let o := readFromSocket_body Fixture.codes Fixture.newPackage Fixture.parsePackage
             Fixture.env [] stopped in
  o = Returns Break (final o) /\
  Mutex (conn (final o)) = true /\
  Close Fixture.codes Fixture.newPackage Fixture.env (final o)
  = Aborts Deadlock (final o).
Proof. by_running. Qed.

(** ** What the operations may write *)

Section Respect.

Variable r : EventStoreConnection -> EventStoreConnection -> Prop.
Hypothesis closed_under_writes : write_closed r.

Lemma respects_ret {A : Type} (a : A) : respects r (ret a).
Proof. intros w. apply (wc_refl r closed_under_writes). Qed.

Lemma respects_abort {A : Type} (why : Abort) : respects r (@abort A why).
Proof. intros w. apply (wc_refl r closed_under_writes). Qed.

Lemma respects_bind {A B : Type} (c : M A) (k : A -> M B) :
  respects r c -> (forall a, respects r (k a)) -> respects r (bind c k).
Proof.
  intros Hc Hk w. specialize (Hc w). unfold bind.
  destruct (c w) as [a w1|why w1]; cbn [final] in *; [|exact Hc].
  apply (wc_trans r closed_under_writes _ (conn w1)); [exact Hc|apply Hk].
Qed.

Lemma respects_get_conn : respects r get_conn.
Proof. intros w. apply (wc_refl r closed_under_writes). Qed.

Lemma respects_emit (e : Event) : respects r (emit e).
Proof. intros w. apply (wc_refl r closed_under_writes). Qed.

Lemma respects_call (o : Collaborator) : respects r (call o).
Proof. intros [c [h k]]. apply (wc_refl r closed_under_writes). Qed.

Lemma respects_update_conn (f : EventStoreConnection -> EventStoreConnection) :
  (forall c, r c (f c)) -> respects r (update_conn f).
Proof. intros Hf w. apply Hf. Qed.

Ltac respect :=
  unfold log_Printf, log_Fatal, chan_send, go, make_chan, time_Sleep;
  repeat first
    [ match goal with H : respects _ ?c |- respects _ ?c => exact H end
    | solve [auto 2]
    | apply respects_ret | apply respects_abort | apply respects_get_conn
    | apply respects_emit | apply respects_call
    | apply respects_update_conn; intros ?;
      first [ apply (wc_Mutex r closed_under_writes)
            | apply (wc_connected r closed_under_writes)
            | apply (wc_Socket r closed_under_writes)
            | apply (wc_fresh_requests r closed_under_writes)
            | apply (wc_fresh_subscriptions r closed_under_writes) ]
    | match goal with
      | |- respects _ (if ?b then _ else _) => destruct b
      | |- respects _ (match ?x with _ => _ end) => destruct x
      end
    | apply respects_bind; [|intros ?] ].

Section Functions.

Variable codes : CommandCodes.
Variable newPackage :
  Command -> list byte -> list byte -> string -> string -> TCPPackage * option error.
Variable parsePackage : list byte -> TCPPackage * option error.
Variable env : Environment.

Lemma respects_Mutex_Lock : respects r Mutex_Lock.
Proof. unfold Mutex_Lock. respect. Qed.

Lemma respects_Mutex_Unlock : respects r Mutex_Unlock.
Proof. unfold Mutex_Unlock. respect. Qed.

Lemma respects_requests_store correlationID channel :
  respects r (requests_store correlationID channel).
Proof.
  intros w. open_world w. unfold requests_store. run.
  destruct reqs as [table|]; cbn.
  - now apply (wc_store r closed_under_writes).
  - apply (wc_refl r closed_under_writes).
Qed.

Lemma respects_sendPackage pkg channel : respects r (sendPackage env pkg channel).
Proof.
  unfold sendPackage, write.
  destruct (uuid.FromBytes (pkg_CorrelationID pkg)) as [correlationID ok].
  apply respects_bind; [apply respects_requests_store|intros ?]. respect.
Qed.

Lemma respects_drop_subscriptions data entries :
  respects r (drop_subscriptions codes newPackage data entries).
Proof.
  induction entries as [|[key sub] rest IH]; cbn [drop_subscriptions]; respect.
Qed.

Lemma respects_closeConnection : respects r (closeConnection codes newPackage env).
Proof.
  unfold closeConnection, reset_tables.
  pose proof respects_drop_subscriptions as Hdrop. respect.
Qed.

Lemma respects_connect : respects r (connect env).
Proof. unfold connect. respect. Qed.

Lemma respects_discover_endpoint : respects r discover_endpoint.
Proof.
  intros w. open_world w. unfold discover_endpoint, Discover, set_endpoint. run.
  destruct (EndpointDiscoverer cfg) as [d|] eqn:Hd; cbn;
    [|apply (wc_refl r closed_under_writes)].
  destruct (d (n_discover k)) as [memberInfo [e|]]; cbn;
    [apply (wc_refl r closed_under_writes)|].
  apply (wc_endpoint r closed_under_writes). cbn. now rewrite Hd.
Qed.

Lemma respects_check_nodes : respects r check_nodes.
Proof.
  intros w. open_world w. unfold check_nodes, Discover, set_endpoint. run.
  destruct (EndpointDiscoverer cfg) as [d|] eqn:Hd; cbn;
    [|apply (wc_refl r closed_under_writes)].
  apply (wc_endpoint r closed_under_writes). cbn. now rewrite Hd.
Qed.

Lemma respects_connectWithRetries_attempts n :
  respects r (connectWithRetries_attempts codes newPackage env n).
Proof.
  pose proof respects_discover_endpoint as Hdisc.
  pose proof respects_check_nodes as Hcheck.
  pose proof respects_connect as Hconnect.
  pose proof respects_closeConnection as Hclose.
  induction n as [|n IH]; cbn [connectWithRetries_attempts]; respect.
Qed.

Lemma respects_Close : respects r (Close codes newPackage env).
Proof.
  pose proof respects_Mutex_Lock as Hlock.
  pose proof respects_Mutex_Unlock as Hunlock.
  pose proof respects_closeConnection as Hclose.
  unfold Close, Socket_Close. respect.
Qed.

Lemma respects_Connect : respects r (Connect codes newPackage env).
Proof.
  unfold Connect, reset_tables, connectWithRetries.
  pose proof respects_connectWithRetries_attempts as Hretry. respect.
Qed.

Lemma respects_dispatch msg : respects r (dispatch codes newPackage env msg).
Proof. unfold dispatch, deliver, NewV4. respect. Qed.

Lemma respects_readFromSocket_body buffer :
  respects r (readFromSocket_body codes newPackage parsePackage env buffer).
Proof.
  pose proof respects_Mutex_Lock as Hlock.
  pose proof respects_Mutex_Unlock as Hunlock.
  pose proof respects_Close as Hclose.
  pose proof respects_dispatch as Hdispatch.
  pose proof respects_connectWithRetries_attempts as Hretry.
  unfold readFromSocket_body, Socket_Read, connectWithRetries. respect.
Qed.

Lemma respects_readFromSocket_loop fuel buffer :
  respects r (readFromSocket_loop codes newPackage parsePackage env fuel buffer).
Proof.
  revert buffer. induction fuel as [|fuel IH]; intros buffer;
    cbn [readFromSocket_loop]; [apply respects_abort|].
  apply respects_bind; [apply respects_readFromSocket_body|].
  intros [|buffer']; [apply respects_ret|apply IH].
Qed.

(** Every operation of connection.go respects every relation that its
    assignments respect. *)
Lemma operations_respect (op : Operation) (w : World) :
  r (conn w) (conn (after codes newPackage parsePackage env op w)).
Proof.
  destruct op; cbn [after].
  - apply respects_Connect.
  - apply respects_Close.
  - apply respects_connectWithRetries_attempts.
  - apply respects_connect.
  - apply respects_closeConnection.
  - apply respects_sendPackage.
  - apply respects_readFromSocket_loop.
Qed.

End Functions.

End Respect.

Lemma fixed_write_closed : write_closed (fun c c' => fixed c' = fixed c).
Proof.
  split; try reflexivity.
  - intros a b c Hab Hbc. now rewrite Hbc.
  - intros address port [cfg sock con reqs subs cid mu] Hd. unfold fixed. cbn in *.
    destruct (EndpointDiscoverer cfg); [reflexivity|contradiction].
Qed.


(** X1. No operation of connection.go changes the identity of the connection
    or the login, password, reconnection delay, reconnect maximum, retry
    maximum or discoverer of its configuration; without a discoverer the
    address and the port stay too.  This holds however the operation ends. *)
Theorem operations_keep_the_configuration
    (codes : CommandCodes)
    (newPackage : Command -> list byte -> list byte -> string -> string ->
                  TCPPackage * option error)
    (parsePackage : list byte -> TCPPackage * option error)
    (env : Environment) (op : Operation) (w : World) :
  let c := conn w in
  let c' := conn (after codes newPackage parsePackage env op w) in
  ConnectionID c' = ConnectionID c /\
  Login (Config c') = Login (Config c) /\
  Password (Config c') = Password (Config c) /\
  ReconnectionDelay (Config c') = ReconnectionDelay (Config c) /\
  MaxReconnects (Config c') = MaxReconnects (Config c) /\
  MaxOperationRetries (Config c') = MaxOperationRetries (Config c) /\
  EndpointDiscoverer (Config c') = EndpointDiscoverer (Config c) /\
  (EndpointDiscoverer (Config c) = None ->
   Address (Config c') = Address (Config c) /\ Port (Config c') = Port (Config c)).
Proof.
  cbv zeta.
  pose proof (operations_respect _ fixed_write_closed codes newPackage parsePackage
                env op w) as Hfixed.
  cbv beta in Hfixed. unfold fixed in Hfixed. cbv zeta in Hfixed.
  injection Hfixed as Hid Hlogin Hpassword Hdelay Hmax Hretries Hdisc Hendpoint.
  repeat (split; [assumption|]).
  intros Hnone. rewrite Hdisc, Hnone in Hendpoint. now injection Hendpoint.
Qed.

Lemma operations_keep_the_configuration_witness :
  Address (Config (conn (after Fixture.codes Fixture.newPackage Fixture.parsePackage
                           Fixture.env (OpReadFromSocket 1) Fixture.live)))
  = "localhost"%string /\
  Port (Config (conn (after Fixture.codes Fixture.newPackage Fixture.parsePackage
                        Fixture.env (OpReadFromSocket 1) Fixture.live)))
  = 1113.
Proof.
  destruct (operations_keep_the_configuration Fixture.codes Fixture.newPackage
              Fixture.parsePackage Fixture.env (OpReadFromSocket 1) Fixture.live)
    as (_ & _ & _ & _ & _ & _ & _ & Hendpoint).
  apply Hendpoint. reflexivity.
Defined.



(** X3. A connection as [NewEventStoreConnection] returns it is not usable
    yet: it has no socket, is not marked connected, its tables are nil and
    its mutex is free; its id is the UUID the generator handed out, and one
    line was logged.  A [sendPackage] on it panics on the store into the nil
    table, before anything is written to the socket. *)
Theorem new_connection_is_not_connected
    (env : Environment) (config : Configuration) (p p' : Process)
    (connection : EventStoreConnection) :
  NewEventStoreConnection env config p = ((Some connection, None), p') ->
  Config connection = config /\
  Socket connection = None /\
  connected connection = false /\
  requests connection = None /\
  subscriptions connection = None /\
  Mutex connection = false /\
  ConnectionID connection = uuid_NewV4 env (n_uuid (calls p)) /\
  n_uuid (calls p') = S (n_uuid (calls p)) /\
  history p' = history p ++ [EvLog info] /\
  forall pkg channel,
    sendPackage env pkg channel {| conn := connection; proc := p' |}
    = Aborts Panic {| conn := connection; proc := p' |}.
Proof.
  unfold NewEventStoreConnection. intros Hnew.
  assert (Hbuilt :
    ((Some {| Config := config; Socket := None; connected := false;
              requests := None; subscriptions := None;
              ConnectionID := uuid_NewV4 env (n_uuid (calls p)); Mutex := false |},
      @None error),
     record_event (EvLog info) (snd (next_call CUuid p)))
    = ((Some connection, None), p')).
  { destruct (EndpointDiscoverer config).
    - exact Hnew.
    - destruct (String.length (Address config) =? 0)%nat; [discriminate|].
      destruct (Port config <=? 0); [discriminate|exact Hnew]. }
  injection Hbuilt as <- <-. destruct p as [h [? ? ? ? ? ? ? ?]]. cbn.
  repeat (split; [reflexivity|]).
  intros pkg channel. unfold sendPackage, requests_store.
  destruct (uuid.FromBytes (pkg_CorrelationID pkg)). reflexivity.
Qed.

Lemma new_connection_is_not_connected_witness :
  exists connection p',
    NewEventStoreConnection Fixture.env Fixture.config Fixture.boot
    = ((Some connection, None), p') /\
    requests connection = None /\
    sendPackage Fixture.env
      (fst (Fixture.newPackage 0x82 [] (Fixture.id_of Byte.x33) "" "")) 4%nat
      {| conn := connection; proc := p' |}
    = Aborts Panic {| conn := connection; proc := p' |}.
Proof.
  eexists; eexists. split; [reflexivity|].
  destruct (new_connection_is_not_connected Fixture.env Fixture.config Fixture.boot
              _ _ eq_refl) as (_ & _ & _ & Hreq & _ & _ & _ & _ & _ & Hsend).
  split; [exact Hreq | apply Hsend].
Defined.

(** ** What the operations may emit *)

Lemma emits_ret {A : Type} (P : Event -> Prop) (a : A) : emits_only P (ret a).
Proof. intros w. exists []. cbn. now rewrite app_nil_r. Qed.

Lemma emits_abort {A : Type} (P : Event -> Prop) (why : Abort) :
  emits_only P (@abort A why).
Proof. intros w. exists []. cbn. now rewrite app_nil_r. Qed.

Lemma emits_get_conn (P : Event -> Prop) : emits_only P get_conn.
Proof. intros w. exists []. cbn. now rewrite app_nil_r. Qed.

Lemma emits_update_conn (P : Event -> Prop)
    (f : EventStoreConnection -> EventStoreConnection) :
  emits_only P (update_conn f).
Proof. intros w. exists []. cbn. now rewrite app_nil_r. Qed.

Lemma emits_call (P : Event -> Prop) (o : Collaborator) : emits_only P (call o).
Proof. intros [c [h k]]. exists []. cbn. now rewrite app_nil_r. Qed.

Lemma emits_emit (P : Event -> Prop) (e : Event) : P e -> emits_only P (emit e).
Proof. intros He w. exists [e]. cbn. split; [reflexivity|]. now constructor. Qed.

Lemma emits_bind {A B : Type} (P : Event -> Prop) (c : M A) (k : A -> M B) :
  emits_only P c -> (forall a, emits_only P (k a)) -> emits_only P (bind c k).
Proof.
  intros Hc Hk w. destruct (Hc w) as (evs & Hh & HP). unfold bind.
  destruct (c w) as [a w1|why w1]; cbn [final] in *; [|now exists evs].
  destruct (Hk a w1) as (evs' & Hh' & HP').
  exists (evs ++ evs'). rewrite Hh', Hh, <- app_assoc.
  split; [reflexivity|]. now apply Forall_app.
Qed.

Ltac emitting :=
  unfold log_Printf, log_Fatal, chan_send, go, make_chan, time_Sleep;
  repeat first
    [ match goal with H : emits_only _ ?c |- emits_only _ ?c => exact H end
    | solve [auto 2]
    | apply emits_ret | apply emits_abort | apply emits_get_conn
    | apply emits_update_conn | apply emits_call
    | apply emits_emit; exact I
    | match goal with
      | |- emits_only _ (if ?b then _ else _) => destruct b
      | |- emits_only _ (match ?x with _ => _ end) => destruct x
      end
    | apply emits_bind; [|intros ?] ].

Section OffSocket.

Variable codes : CommandCodes.
Variable newPackage :
  Command -> list byte -> list byte -> string -> string -> TCPPackage * option error.
Variable env : Environment.

Lemma connect_off_socket : emits_only off_socket (connect env).
Proof. unfold connect. emitting. Qed.

Lemma discover_endpoint_off_socket : emits_only off_socket discover_endpoint.
Proof. unfold discover_endpoint, Discover, set_endpoint. emitting. Qed.

Lemma check_nodes_off_socket : emits_only off_socket check_nodes.
Proof. unfold check_nodes, Discover, set_endpoint. emitting. Qed.

Lemma drop_subscriptions_off_socket data entries :
  emits_only off_socket (drop_subscriptions codes newPackage data entries).
Proof.
  induction entries as [|[key sub] rest IH]; cbn [drop_subscriptions]; emitting.
Qed.

Lemma closeConnection_off_socket :
  emits_only off_socket (closeConnection codes newPackage env).
Proof.
  pose proof drop_subscriptions_off_socket as Hdrop.
  unfold closeConnection, reset_tables. emitting.
Qed.

Lemma connectWithRetries_attempts_off_socket n :
  emits_only off_socket (connectWithRetries_attempts codes newPackage env n).
Proof.
  pose proof connect_off_socket as Hconnect.
  pose proof discover_endpoint_off_socket as Hdisc.
  pose proof check_nodes_off_socket as Hcheck.
  pose proof closeConnection_off_socket as Hclose.
  induction n as [|n IH]; cbn [connectWithRetries_attempts]; emitting.
Qed.

Lemma Connect_off_socket : emits_only off_socket (Connect codes newPackage env).
Proof.
  pose proof connectWithRetries_attempts_off_socket as Hretry.
  unfold Connect, reset_tables, connectWithRetries. emitting.
Qed.

End OffSocket.

(** X4. [Connect] starts by making two empty tables and never touches the
    socket it finds: whatever the network does and however [Connect] ends,
    nothing is sent on any channel, the socket is neither closed, read nor
    written, and both tables end up empty.  So a [Connect] on a connection
    that is in use forgets its subscriptions and requests without a drop
    notification and leaves the old socket open. *)
Theorem Connect_forgets_silently
    (codes : CommandCodes)
    (newPackage : Command -> list byte -> list byte -> string -> string ->
                  TCPPackage * option error)
    (env : Environment) (w : World) :
  let w' := final (Connect codes newPackage env w) in
  chan_sends (since w w') = [] /\
  socket_closes (since w w') = [] /\
  Forall off_socket (since w w') /\
  requests (conn w') = Some ∅ /\
  subscriptions (conn w') = Some ∅.
Proof.
  cbv zeta.
  destruct (Connect_off_socket codes newPackage env w) as (all & Hall & Hoff).
  rewrite (since_app _ _ _ Hall).
  assert (Hcloses : socket_closes all = []).
  { clear Hall. induction Hoff as [|e rest He _ IH]; [reflexivity|].
    unfold socket_closes in *. cbn [flat_map]. rewrite IH.
    now destruct e. }
  set (w0 := {| conn := set_subscriptions (Some ∅) (set_requests (Some ∅) (conn w));
                proc := {| history := history (proc w) ++ [EvResetTables];
                           calls := calls (proc w) |} |}).
  assert (Hrun : Connect codes newPackage env w
                 = connectWithRetries_attempts codes newPackage env
                     (Z.to_nat (MaxReconnects (Config (conn w)))) w0).
  { destruct w as [c [h k]]. reflexivity. }
  destruct (retries_outcome codes newPackage env
              (Z.to_nat (MaxReconnects (Config (conn w)))) w0)
    as (evs & Hh & _ & _ & Hcases).
  cbv zeta in Hh, Hcases. rewrite <- Hrun in Hh, Hcases.
  assert (Hevs : all = EvResetTables :: evs).
  { rewrite Hall in Hh. cbn [w0 proc history] in Hh.
    rewrite <- app_assoc in Hh. now apply app_inv_head in Hh. }
  assert (Hsends : chan_sends evs = [] /\
                   tables (final (Connect codes newPackage env w)) = (Some ∅, Some ∅)).
  { destruct Hcases as [(_ & Ht & Hc) | [(_ & _ & Ht & Hc) | (_ & _ & Ht & Hc)]];
      (split; [|exact Ht]); exact Hc. }
  destruct Hsends as [Hsends Htables].
  unfold tables in Htables. injection Htables as Hreq Hsub.
  subst all. rewrite chan_sends_cons, Hsends.
  repeat split; auto.
Qed.

(** ** One attempt at a time *)

Lemma discovery_events_quiet (c : EventStoreConnection) (announced : bool) :
  let evs := discovery_events c announced in
  beats evs = [] /\ chan_sends evs = [] /\ dials evs = [] /\
  resolutions evs = [] /\ started evs = [] /\ socket_closes evs = [] /\
  discoveries evs = match EndpointDiscoverer (Config c) with
                    | Some _ => 1%nat
                    | None => 0%nat
                    end.
Proof.
  unfold discovery_events.
  destruct (EndpointDiscoverer (Config c)); destruct announced; repeat split.
Qed.

Lemma started_app (h1 h2 : list Event) :
  started (h1 ++ h2) = started h1 ++ started h2.
Proof. unfold started. apply flat_map_app. Qed.

Lemma resolutions_app (h1 h2 : list Event) :
  resolutions (h1 ++ h2) = resolutions h1 ++ resolutions h2.
Proof. unfold resolutions. apply flat_map_app. Qed.

Lemma discoveries_app (h1 h2 : list Event) :
  discoveries (h1 ++ h2) = (discoveries h1 + discoveries h2)%nat.
Proof. unfold discoveries. now rewrite flat_map_app, length_app. Qed.

Section Attempts.

Variable codes : CommandCodes.
Variable newPackage :
  Command -> list byte -> list byte -> string -> string -> TCPPackage * option error.
Variable env : Environment.

Lemma discover_endpoint_step w :
  exists r w',
    discover_endpoint w = Returns r w' /\
    history (proc w') = history (proc w) ++ discovery_events (conn w) false /\
    link (conn w') = link (conn w) /\
    settings w' = settings w /\
    net_calls w' = net_calls w /\
    r = match EndpointDiscoverer (Config (conn w)) with
        | Some d => snd (d (n_discover (calls (proc w))))
        | None => None
        end /\
    (r <> None -> conn w' = conn w) /\
    (EndpointDiscoverer (Config (conn w)) = None -> conn w' = conn w) /\
    (forall d, EndpointDiscoverer (Config (conn w)) = Some d ->
               r = None ->
               Address (Config (conn w'))
               = ExternalTCPIP (fst (d (n_discover (calls (proc w))))) /\
               Port (Config (conn w'))
               = ExternalTCPPort (fst (d (n_discover (calls (proc w)))))).
Proof.
  open_world w. unfold discover_endpoint, Discover, set_endpoint, discovery_events.
  run. destruct (EndpointDiscoverer cfg) as [d|] eqn:Hd; cbn.
  - destruct (d (n_discover k)) as [memberInfo [e|]] eqn:Hfound; cbn;
      eexists; eexists; (split; [reflexivity|]); cbn;
      unfold settings, net_calls, link; cbn; rewrite ?Hd;
      repeat split; try congruence;
      match goal with
      | H : Some _ = Some _ |- _ => injection H as <-; now rewrite Hfound
      end.
  - eexists; eexists. split; [reflexivity|]. cbn.
    unfold settings, net_calls, link. cbn. rewrite app_nil_r, ?Hd.
    repeat split; congruence.
Qed.

Lemma check_nodes_step w :
  exists w',
    check_nodes w = Returns tt w' /\
    history (proc w') = history (proc w) ++ discovery_events (conn w) true /\
    link (conn w') = link (conn w) /\
    settings w' = settings w /\
    net_calls w' = net_calls w /\
    (EndpointDiscoverer (Config (conn w)) = None -> conn w' = conn w).
Proof.
  open_world w. unfold check_nodes, Discover, set_endpoint, discovery_events.
  run. destruct (EndpointDiscoverer cfg) as [d|] eqn:Hd; cbn.
  - eexists. split; [reflexivity|]. cbn.
    unfold settings, net_calls, link, record_event. cbn.
    rewrite <- app_assoc, ?Hd. repeat split; congruence.
  - eexists. split; [reflexivity|]. cbn.
    unfold settings, net_calls, link. cbn. rewrite app_nil_r, ?Hd.
    repeat split; congruence.
Qed.

Lemma connect_step w :
  let address := Address (Config (conn w)) in
  let port := Port (Config (conn w)) in
  exists r w' evs,
    connect env w = Returns r w' /\
    history (proc w') = history (proc w) ++ evs /\
    Config (conn w') = Config (conn w) /\
    n_resolve (calls (proc w')) = S (n_resolve (calls (proc w))) /\
    match net_ResolveTCPAddr env (n_resolve (calls (proc w))) with
    | Some _ =>
        r = Some (ErrResolve address port) /\
        evs = [EvLog info; EvResolve address port] /\
        conn w' = conn w /\
        n_dial (calls (proc w')) = n_dial (calls (proc w))
    | None =>
        n_dial (calls (proc w')) = S (n_dial (calls (proc w))) /\
        match net_DialTCP env (n_dial (calls (proc w))) with
        | (_, Some e) =>
            r = Some (ErrDial address port e) /\
            evs = [EvLog info; EvResolve address port; EvDial address port] /\
            conn w' = conn w
        | (s, None) =>
            r = None /\
            evs = [EvLog info; EvResolve address port; EvDial address port;
                   EvLog info; EvGo GoReadFromSocket] /\
            conn w' = set_connected true (set_Socket (Some s) (conn w))
        end
    end.
Proof.
  open_world w. unfold connect. run.
  destruct (net_ResolveTCPAddr env (n_resolve k)) as [e|]; cbn.
  - eexists; eexists; eexists. split; [reflexivity|]. cbn.
    unfold record_event. cbn. rewrite <- app_assoc.
    destruct k; repeat split.
  - destruct (net_DialTCP env (n_dial k)) as [s [e|]]; cbn;
      eexists; eexists; eexists; (split; [reflexivity|]); cbn;
      unfold record_event; cbn; rewrite <- !app_assoc;
      destruct k; repeat split.
Qed.

Lemma drop_events_silent config entries :
  let evs := drop_events codes newPackage env config entries in
  resolutions evs = [] /\ started evs = [] /\ discoveries evs = 0%nat /\
  socket_closes evs = [] /\ socket_reads evs = [].
Proof.
  induction entries as [|entry rest IH]; [repeat split|].
  cbv zeta in *. cbn [drop_events flat_map].
  fold (drop_events codes newPackage env config rest).
  destruct IH as (Hr & Hs & Hd & Hc & Hrd).
  unfold resolutions, started, discoveries, socket_closes, socket_reads in *.
  rewrite !flat_map_app, !length_app, Hr, Hs, Hd, Hc, Hrd.
  destruct (is_err _); repeat split.
Qed.

(** X5. When a discoverer is configured and its next answer is an error,
    [connectWithRetries] returns that error at once, whatever the number of
    attempts left: the connection object is untouched, the discoverer was
    asked once, and nothing was resolved, dialled, slept, sent or emptied. *)
Theorem discovery_error_ends_connectWithRetries
    (N : Z) (w : World) (d : EndpointDiscovererT) (e : error) :
  EndpointDiscoverer (Config (conn w)) = Some d ->
  snd (d (n_discover (calls (proc w)))) = Some e ->
  exists w',
    connectWithRetries codes newPackage env N w = Returns (Some e) w' /\
    conn w' = conn w /\
    since w w' = [EvDiscover].
Proof.
  intros Hd Herr. unfold connectWithRetries.
  destruct (discover_endpoint_step w)
    as (r & w1 & Hrun1 & Hh1 & _ & _ & _ & Hr & Hsame & _).
  rewrite Hd, Herr in Hr. subst r.
  exists w1.
  assert (Hrun : connectWithRetries_attempts codes newPackage env (Z.to_nat N) w
                 = Returns (Some e) w1).
  { destruct (Z.to_nat N); cbn [connectWithRetries_attempts]; unfold bind;
      now rewrite Hrun1. }
  split; [exact Hrun|]. split; [apply Hsame; discriminate|].
  apply since_app. rewrite Hh1. unfold discovery_events. now rewrite Hd.
Qed.

(** X6. With no attempt left ([retryAttempts <= 0]) [connectWithRetries] does
    not try at all: after the discovery, if there is a discoverer, it goes
    straight to [closeConnection] and returns the retry-limit error with the
    configured maximum; nothing is resolved or dialled, there is no sleep,
    the socket and the connected flag are as before.  A configuration whose
    maximum is zero or negative therefore never connects. *)
Theorem no_attempts_left (N : Z) (w : World) :
  N <= 0 ->
  snd (proto_Marshal_SubscriptionDropped env) = None ->
  (forall d, EndpointDiscoverer (Config (conn w)) = Some d ->
             snd (d (n_discover (calls (proc w)))) = None) ->
  exists w',
    connectWithRetries codes newPackage env N w
    = Returns (Some (ErrRetryLimit (MaxReconnects (Config (conn w))))) w' /\
    beats (since w w') = [Emptied] /\
    resolutions (since w w') = [] /\
    dials (since w w') = [] /\
    chan_sends (since w w')
      ≡ₚ drop_deliveries codes newPackage env (Config (conn w))
           (map_entries (subscriptions (conn w))) /\
    Socket (conn w') = Socket (conn w) /\
    connected (conn w') = connected (conn w) /\
    requests (conn w') = Some ∅ /\
    subscriptions (conn w') = Some ∅.
Proof.
  intros HN Hmarshal Hdisc. unfold connectWithRetries.
  replace (Z.to_nat N) with O by lia.
  cbn [connectWithRetries_attempts]. unfold bind at 1.
  destruct (discover_endpoint_step w)
    as (r & w1 & Hrun1 & Hh1 & Hl1 & Hs1 & _ & Hr & _).
  rewrite Hrun1.
  assert (r = None) as ->.
  { subst r. destruct (EndpointDiscoverer (Config (conn w))) as [d|] eqn:Hd;
      [now apply Hdisc|reflexivity]. }
  unfold bind at 1. rewrite closeConnection_returns by assumption.
  unfold bind, get_conn, ret. cbn [conn proc history calls].
  eexists. split.
  { f_equal. f_equal. unfold settings in Hs1. injection Hs1 as _ _ _ Hmax _.
    cbn. now rewrite Hmax. }
  unfold link in Hl1. injection Hl1 as Hsock Hcon _ _ Hsub _.
  destruct (drop_deliveries_settings codes newPackage env w w1
              (map_entries (subscriptions (conn w))) Hs1) as [_ Hev].
  erewrite since_app
    by (cbn [proc history]; rewrite Hh1, Hsub, Hev, <- app_assoc; reflexivity).
  destruct (discovery_events_quiet (conn w) false)
    as (Hb & Hc & Hdl & Hres & _).
  destruct (drop_events_quiet codes newPackage env (Config (conn w))
              (map_entries (subscriptions (conn w)))) as [Hqb Hqd].
  destruct (drop_events_silent (Config (conn w))
              (map_entries (subscriptions (conn w)))) as (Hqr & _).
  rewrite !beats_app, !resolutions_app, !dials_app, Hb, Hres, Hdl, Hqb, Hqd, Hqr.
  split_sends. rewrite Hc, chan_sends_drop_events. cbn.
  rewrite app_nil_r. repeat split; auto.
Qed.

(** X7. Whatever the network and the discoverer answer and however the call
    ends, [connectWithRetries] makes at most [retryAttempts] attempts (none
    when that is not positive), and [Connect] at most the configured
    maximum. *)
Theorem attempts_are_bounded (N : Z) (w : World) :
  (attempts (since w (final (connectWithRetries codes newPackage env N w)))
   <= Z.to_nat N)%nat /\
  (attempts (since w (final (Connect codes newPackage env w)))
   <= Z.to_nat (MaxReconnects (Config (conn w))))%nat.
Proof.
  split.
  - unfold connectWithRetries.
    destruct (retries_outcome codes newPackage env (Z.to_nat N) w)
      as (evs & Hh & _ & Ha & _).
    cbv zeta in Hh. now rewrite (since_app _ _ _ Hh).
  - set (w0 := {| conn := set_subscriptions (Some ∅) (set_requests (Some ∅) (conn w));
                  proc := {| history := history (proc w) ++ [EvResetTables];
                             calls := calls (proc w) |} |}).
    assert (Hrun : Connect codes newPackage env w
                   = connectWithRetries_attempts codes newPackage env
                       (Z.to_nat (MaxReconnects (Config (conn w)))) w0).
    { destruct w as [c [h k]]. reflexivity. }
    destruct (retries_outcome codes newPackage env
                (Z.to_nat (MaxReconnects (Config (conn w)))) w0)
      as (evs & Hh & _ & Ha & _).
    cbv zeta in Hh. rewrite <- Hrun in Hh.
    erewrite since_app
      by (rewrite Hh; cbn [w0 proc history]; rewrite <- app_assoc; reflexivity).
    rewrite attempts_app. exact Ha.
Qed.

Lemma connect_outcome w :
  exists r w' evs,
    connect env w = Returns r w' /\
    history (proc w') = history (proc w) ++ evs /\
    Config (conn w') = Config (conn w) /\
    (r = None /\
     net_ResolveTCPAddr env (n_resolve (calls (proc w))) = None /\
     (exists s, net_DialTCP env (n_dial (calls (proc w))) = (s, None) /\
                conn w' = set_connected true (set_Socket (Some s) (conn w))) /\
     started evs = [GoReadFromSocket]
     \/
     r <> None /\ conn w' = conn w /\ started evs = []) /\
    socket_closes evs = [] /\
    discoveries evs = 0%nat /\
    resolutions evs = [(Address (Config (conn w)), Port (Config (conn w)))] /\
    beats evs = [Attempt] /\
    chan_sends evs = [].
Proof.
  destruct (connect_step w) as (r & w' & evs & Hrun & Hh & Hcfg & _ & Hcase).
  exists r, w', evs. split; [exact Hrun|]. split; [exact Hh|]. split; [exact Hcfg|].
  destruct (net_ResolveTCPAddr env (n_resolve (calls (proc w)))) as [e|].
  - destruct Hcase as (-> & -> & Hconn & _).
    split; [right|]; repeat split; auto; discriminate.
  - destruct Hcase as (_ & Hcase).
    destruct (net_DialTCP env (n_dial (calls (proc w)))) as [s [e|]].
    + destruct Hcase as (-> & -> & Hconn).
      split; [right|]; repeat split; auto; discriminate.
    + destruct Hcase as (-> & -> & Hconn).
      split; [left|]; repeat split; eauto.
Qed.

(** How a call of [connectWithRetries] leaves the socket, the connected flag
    and the scheduler, however the network answers. *)
Lemma retries_result (n : nat) :
  forall w,
    exists evs,
      let o := connectWithRetries_attempts codes newPackage env n w in
      history (proc (final o)) = history (proc w) ++ evs /\
      socket_closes evs = [] /\
      match o with
      | Returns None w' =>
          connected (conn w') = true /\
          (exists s, Socket (conn w') = Some s) /\
          started evs = [GoReadFromSocket]
      | Returns (Some _) w' | Aborts _ w' =>
          Socket (conn w') = Socket (conn w) /\
          connected (conn w') = connected (conn w) /\
          started evs = []
      end.
Proof.
  induction n as [|n IH]; intros w.
  - remember (connectWithRetries_attempts codes newPackage env 0 w) as o eqn:Ho.
    cbn [connectWithRetries_attempts] in Ho. unfold bind at 1 in Ho.
    destruct (discover_endpoint_step w) as (r1 & w1 & Hrun1 & Hh1 & Hl1 & _).
    rewrite Hrun1 in Ho.
    unfold link in Hl1. injection Hl1 as Hsock1 Hcon1 _ _ _ _.
    destruct (discovery_events_quiet (conn w) false)
      as (_ & _ & _ & _ & Hst1 & Hcl1 & _).
    destruct r1 as [e|].
    { unfold ret in Ho. subst o. exists (discovery_events (conn w) false).
      cbn. repeat split; assumption. }
    unfold bind at 1 in Ho.
    destruct (drop_events_silent (Config (conn w1))
                (map_entries (subscriptions (conn w1)))) as (_ & Hsd & _ & Hcd & _).
    destruct (snd (proto_Marshal_SubscriptionDropped env)) as [e|] eqn:Hmarshal.
    + rewrite (closeConnection_fatal _ _ _ _ e) in Ho by assumption. subst o.
      exists (discovery_events (conn w) false ++ [EvLog errorLevel; EvLog fatal]).
      cbn [final conn proc history]. rewrite Hh1, <- app_assoc.
      unfold socket_closes, started in *. rewrite !flat_map_app, Hst1, Hcl1.
      repeat split; assumption.
    + rewrite closeConnection_returns in Ho by assumption.
      unfold bind, get_conn, ret in Ho. cbn [conn proc history calls] in Ho.
      subst o. cbn [final conn proc history].
      eexists. split; [rewrite Hh1, <- app_assoc; reflexivity|].
      unfold socket_closes, started in *.
      rewrite !flat_map_app, Hst1, Hcl1, Hsd, Hcd.
      repeat split; assumption.
  - remember (connectWithRetries_attempts codes newPackage env (S n) w) as o eqn:Ho.
    cbn [connectWithRetries_attempts] in Ho. unfold bind at 1 in Ho.
    destruct (discover_endpoint_step w) as (r1 & w1 & Hrun1 & Hh1 & Hl1 & _).
    rewrite Hrun1 in Ho.
    unfold link in Hl1. injection Hl1 as Hsock1 Hcon1 _ _ _ _.
    destruct (discovery_events_quiet (conn w) false)
      as (_ & _ & _ & _ & Hst1 & Hcl1 & _).
    destruct r1 as [e|].
    { unfold ret in Ho. subst o. exists (discovery_events (conn w) false).
      cbn. repeat split; assumption. }
    unfold bind at 1 in Ho.
    destruct (connect_outcome w1)
      as (r2 & w2 & e2 & Hrun2 & Hh2 & _ & Hcase & Hcl2 & _).
    rewrite Hrun2 in Ho.
    destruct Hcase as [(-> & _ & (s & _ & Hconn2) & Hst2) | (Hr2 & Hconn2 & Hst2)].
    + unfold ret in Ho. subst o. exists (discovery_events (conn w) false ++ e2).
      cbn [final]. rewrite Hh2, Hh1, <- app_assoc.
      unfold socket_closes, started in *. rewrite !flat_map_app, Hst1, Hcl1, Hcl2, Hst2.
      rewrite Hconn2. cbn. repeat split; eauto.
    + destruct r2 as [e|]; [|contradiction].
      rewrite pause_run in Ho. unfold bind at 1 in Ho.
      destruct (check_nodes_step (paused w2)) as (w3 & Hrun3 & Hh3 & Hl3 & _).
      rewrite Hrun3 in Ho.
      unfold link in Hl3. injection Hl3 as Hsock3 Hcon3 _ _ _ _.
      destruct (discovery_events_quiet (conn (paused w2)) true)
        as (_ & _ & _ & _ & Hst3 & Hcl3 & _).
      destruct (IH w3) as (evs & Hh & Hcl & Hres).
      cbv zeta in *. rewrite <- Ho in *. clear Ho.
      exists (discovery_events (conn w) false ++ e2
              ++ [EvLog info;
                  EvSleep (delay_Duration (ReconnectionDelay (Config (conn w2))))]
              ++ discovery_events (conn (paused w2)) true ++ evs).
      split.
      { rewrite Hh, Hh3. cbn [paused proc history]. rewrite Hh2, Hh1.
        now rewrite <- !app_assoc. }
      assert (Hsock : Socket (conn w3) = Socket (conn w)).
      { rewrite Hsock3. cbn [paused conn]. now rewrite Hconn2. }
      assert (Hcon : connected (conn w3) = connected (conn w)).
      { rewrite Hcon3. cbn [paused conn]. now rewrite Hconn2. }
      unfold socket_closes, started in *.
      rewrite !flat_map_app, Hst1, Hcl1, Hcl2, Hst2, Hst3, Hcl3, Hcl.
      split; [reflexivity|]. cbn [flat_map app].
      destruct o as [[e'|] w'|why w']; cbn [final] in *.
      * destruct Hres as (Hs & Hc & Hst). rewrite Hs, Hc, Hst. auto.
      * exact Hres.
      * destruct Hres as (Hs & Hc & Hst). rewrite Hs, Hc, Hst. auto.
Qed.

(** X8. What a call of [connectWithRetries] that returns has done to the
    connection is told by its result.  Without an error the connection is
    marked connected, has a socket, and exactly one reader has been started;
    with an error the socket and the connected flag are what they were
    before the call and no reader has been started.  The call never closes a
    socket. *)
Theorem connectWithRetries_result_tells
    (N : Z) (w : World) (r : option error) (w' : World) :
  connectWithRetries codes newPackage env N w = Returns r w' ->
  socket_closes (since w w') = [] /\
  match r with
  | None =>
      connected (conn w') = true /\
      (exists s, Socket (conn w') = Some s) /\
      started (since w w') = [GoReadFromSocket]
  | Some _ =>
      Socket (conn w') = Socket (conn w) /\
      connected (conn w') = connected (conn w) /\
      started (since w w') = []
  end.
Proof.
  unfold connectWithRetries. intros Hrun.
  destruct (retries_result (Z.to_nat N) w) as (evs & Hh & Hcl & Hres).
  cbv zeta in *. rewrite Hrun in *. cbn [final] in *.
  rewrite (since_app _ _ _ Hh). split; [exact Hcl|].
  destruct r; exact Hres.
Qed.

Lemma retries_succeed_at (j : nat) :
  (forall k, net_ResolveTCPAddr env k = None) ->
  forall n w s,
    (j < n)%nat ->
    every_discovery_succeeds w ->
    (forall i, (i < j)%nat ->
       is_err (snd (net_DialTCP env (n_dial (calls (proc w)) + i))) = true) ->
    net_DialTCP env (n_dial (calls (proc w)) + j) = (s, None) ->
    exists w' evs,
      connectWithRetries_attempts codes newPackage env n w = Returns None w' /\
      history (proc w') = history (proc w) ++ evs /\
      beats evs
      = rounds j (delay_Duration (ReconnectionDelay (Config (conn w))))
        ++ [Attempt] /\
      length (dials evs) = S j /\
      chan_sends evs = [] /\
      started evs = [GoReadFromSocket] /\
      Socket (conn w') = Some s /\
      connected (conn w') = true /\
      tables w' = tables w /\
      Mutex (conn w') = Mutex (conn w).
Proof.
  intros Hres. induction j as [|j IH]; intros n w s Hlt Hdisc Hfail Hok;
    (destruct n as [|n]; [lia|]);
    cbn [connectWithRetries_attempts]; unfold bind at 1;
    destruct (discover_endpoint_step w)
      as (r1 & w1 & Hrun1 & Hh1 & Hl1 & Hs1 & Hn1 & Hr & _);
    rewrite Hrun1;
    (assert (r1 = None) as ->
       by (subst r1; destruct (EndpointDiscoverer (Config (conn w))) as [d|] eqn:Hd;
           [now apply (Hdisc d)|reflexivity]));
    unfold bind at 1;
    destruct (connect_step w1)
      as (r2 & w2 & e2 & Hrun2 & Hh2 & Hcfg2 & _ & Hcase);
    rewrite Hrun2; rewrite Hres in Hcase; destruct Hcase as (Hnd2 & Hcase);
    unfold net_calls in Hn1; injection Hn1 as _ Hnd1; rewrite Hnd1 in Hcase, Hnd2;
    unfold link in Hl1; injection Hl1 as Hsock1 Hcon1 Hmu1 Hreq1 Hsub1 _;
    destruct (discovery_events_quiet (conn w) false)
      as (Hb1 & Hc1 & Hd1 & _ & Hst1 & _).
  - rewrite Nat.add_0_r in Hok. rewrite Hok in Hcase.
    destruct Hcase as (-> & -> & Hconn2).
    exists w2. eexists. split; [reflexivity|].
    split; [rewrite Hh2, Hh1, <- app_assoc; reflexivity|].
    rewrite beats_app, dials_app, chan_sends_app, started_app, Hb1, Hc1, Hd1, Hst1.
    unfold tables. rewrite Hconn2. cbn. rewrite Hreq1, Hsub1, Hmu1. repeat split.
  - pose proof (Hfail O ltac:(lia)) as Hfirst. rewrite Nat.add_0_r in Hfirst.
    destruct (net_DialTCP env (n_dial (calls (proc w)))) as [s' [e|]];
      [|discriminate].
    destruct Hcase as (-> & -> & Hconn2).
    rewrite pause_run. unfold bind at 1.
    destruct (check_nodes_step (paused w2))
      as (w3 & Hrun3 & Hh3 & Hl3 & Hs3 & Hn3 & _).
    rewrite Hrun3.
    assert (Hs3' : settings w3 = settings w).
    { rewrite Hs3. transitivity (settings w2); [reflexivity|].
      unfold settings. now rewrite Hcfg2. }
    unfold net_calls in Hn3. injection Hn3 as _ Hnd3.
    cbn [paused proc calls] in Hnd3. rewrite Hnd2 in Hnd3.
    unfold link in Hl3. injection Hl3 as _ _ Hmu3 Hreq3 Hsub3 _.
    cbn [paused conn] in Hreq3, Hsub3, Hmu3. rewrite Hconn2 in Hreq3, Hsub3, Hmu3.
    destruct (IH n w3 s)
      as (w' & evs & Hrun & Hh & Hb & Hd & Hc & Hst & Hs & Hcn & Ht & Hm).
    { lia. }
    { intros d Hd. apply Hdisc. unfold settings in Hs3'.
      injection Hs3' as _ _ _ _ Hsame. now rewrite <- Hsame. }
    { intros i Hi. rewrite Hnd3. replace (S (n_dial (calls (proc w))) + i)%nat
        with (n_dial (calls (proc w)) + S i)%nat by lia. apply Hfail. lia. }
    { rewrite Hnd3. replace (S (n_dial (calls (proc w))) + j)%nat
        with (n_dial (calls (proc w)) + S j)%nat by lia. exact Hok. }
    rewrite Hrun.
    destruct (discovery_events_quiet (conn (paused w2)) true)
      as (Hb3 & Hc3 & Hd3 & _ & Hst3 & _).
    exists w'.
    exists (discovery_events (conn w) false
            ++ [EvLog info;
                EvResolve (Address (Config (conn w1))) (Port (Config (conn w1)));
                EvDial (Address (Config (conn w1))) (Port (Config (conn w1)))]
            ++ [EvLog info;
                EvSleep (delay_Duration (ReconnectionDelay (Config (conn w2))))]
            ++ discovery_events (conn (paused w2)) true ++ evs).
    split; [reflexivity|].
    split.
    { rewrite Hh, Hh3. cbn [paused proc history]. rewrite Hh2, Hh1.
      now rewrite <- !app_assoc. }
    assert (Hdelay : ReconnectionDelay (Config (conn w2))
                     = ReconnectionDelay (Config (conn w))).
    { rewrite Hcfg2. unfold settings in Hs1. now injection Hs1. }
    assert (Hdelay3 : ReconnectionDelay (Config (conn w3))
                      = ReconnectionDelay (Config (conn w))).
    { unfold settings in Hs3'. now injection Hs3'. }
    rewrite !beats_app, !dials_app, !chan_sends_app, !started_app.
    rewrite Hb1, Hc1, Hd1, Hst1, Hb3, Hc3, Hd3, Hst3, Hb, Hc, Hst, Hdelay, Hdelay3.
    rewrite !length_app, Hd. cbn.
    unfold tables in *. rewrite Ht, Hm, Hmu3, Hmu1, Hreq3, Hsub3, Hreq1, Hsub1.
    repeat split; auto.
Qed.

(** X9. When the addresses resolve, the first [j] dials are refused and the
    next one connects, with [j] less than the attempts allowed (and every
    discovery succeeding when there is a discoverer), [connectWithRetries]
    returns without an error after exactly [j + 1] dials and [j] sleeps of the
    reconnection delay: the connection holds the socket that was dialled, is
    marked connected, one reader has been started, nothing has been sent on
    a channel and both tables are what they were. *)
Theorem connectWithRetries_succeeds_after_failures
    (N : Z) (j : nat) (w : World) (s : TCPConn) :
  Z.of_nat j < N ->
  (forall k, net_ResolveTCPAddr env k = None) ->
  every_discovery_succeeds w ->
  (forall i, (i < j)%nat ->
     is_err (snd (net_DialTCP env (n_dial (calls (proc w)) + i))) = true) ->
  net_DialTCP env (n_dial (calls (proc w)) + j) = (s, None) ->
  exists w',
    connectWithRetries codes newPackage env N w = Returns None w' /\
    beats (since w w')
    = rounds j (delay_Duration (ReconnectionDelay (Config (conn w))))
      ++ [Attempt] /\
    length (dials (since w w')) = S j /\
    chan_sends (since w w') = [] /\
    started (since w w') = [GoReadFromSocket] /\
    Socket (conn w') = Some s /\
    connected (conn w') = true /\
    requests (conn w') = requests (conn w) /\
    subscriptions (conn w') = subscriptions (conn w).
Proof.
  intros Hlt Hres Hdisc Hfail Hok. unfold connectWithRetries.
  destruct (retries_succeed_at j Hres (Z.to_nat N) w s ltac:(lia) Hdisc Hfail Hok)
    as (w' & evs & Hrun & Hh & Hb & Hd & Hc & Hst & Hs & Hcn & Ht & _).
  exists w'. rewrite (since_app _ _ _ Hh).
  unfold tables in Ht. injection Ht as Hreq Hsub.
  repeat split; assumption.
Qed.

End Attempts.

Lemma discovery_error_ends_connectWithRetries_witness :
  exists w',
    connectWithRetries Fixture.codes Fixture.newPackage Fixture.env 3 Fixture.lost
    = Returns (Some (External "no node available")) w' /\
    conn w' = conn Fixture.lost /\
    since Fixture.lost w' = [EvDiscover].
Proof.
  apply (discovery_error_ends_connectWithRetries Fixture.codes Fixture.newPackage
           Fixture.env 3 Fixture.lost Fixture.no_node); reflexivity.
Defined.

Lemma no_attempts_left_witness :
  exists w',
    connectWithRetries Fixture.codes Fixture.newPackage Fixture.env 0 Fixture.live
    = Returns (Some (ErrRetryLimit 3)) w' /\
    dials (since Fixture.live w') = [] /\
    connected (conn w') = true.
Proof.
  destruct (no_attempts_left Fixture.codes Fixture.newPackage Fixture.env 0
              Fixture.live)
    as (w' & Hrun & _ & _ & Hdials & _ & _ & Hconnected & _).
  - lia.
  - reflexivity.
  - discriminate.
  - exists w'. split; [exact Hrun|]. split; [exact Hdials | exact Hconnected].
Defined.

Lemma connectWithRetries_result_tells_witness :
  let o := connectWithRetries Fixture.codes Fixture.newPackage Fixture.env_flaky 3
             Fixture.fresh in
  o = Returns None (final o) /\
  connected (conn (final o)) = true /\
  started (since Fixture.fresh (final o)) = [GoReadFromSocket].
Proof.
  cbv zeta.
  assert (Hrun : connectWithRetries Fixture.codes Fixture.newPackage
                   Fixture.env_flaky 3 Fixture.fresh
                 = Returns None
                     (final (connectWithRetries Fixture.codes Fixture.newPackage
                               Fixture.env_flaky 3 Fixture.fresh)))
    by (vm_compute; reflexivity).
  split; [exact Hrun|].
  destruct (connectWithRetries_result_tells Fixture.codes Fixture.newPackage
              Fixture.env_flaky 3 Fixture.fresh None _ Hrun)
    as (_ & Hconnected & _ & Hstarted).
  split; [exact Hconnected | exact Hstarted].
Defined.

Lemma connectWithRetries_succeeds_after_failures_witness :
  exists w',
    connectWithRetries Fixture.codes Fixture.newPackage Fixture.env_flaky 3
      Fixture.fresh = Returns None w' /\
    length (dials (since Fixture.fresh w')) = 3%nat /\
    Socket (conn w') = Some 3%nat.
Proof.
  destruct (connectWithRetries_succeeds_after_failures Fixture.codes
              Fixture.newPackage Fixture.env_flaky 3 2 Fixture.fresh 3%nat)
    as (w' & Hrun & _ & Hdials & _ & _ & Hsocket & _).
  - lia.
  - reflexivity.
  - intros d Hd. discriminate Hd.
  - intros [|[|i]] Hi; [reflexivity | reflexivity | lia].
  - reflexivity.
  - exists w'. split; [exact Hrun|]. split; [exact Hdials | exact Hsocket].
Defined.

(** ** The discoverer *)

Section Discovery.

Variable codes : CommandCodes.
Variable newPackage :
  Command -> list byte -> list byte -> string -> string -> TCPPackage * option error.
Variable env : Environment.

Lemma connect_resolves_first w :
  exists r w' tail,
    connect env w = Returns r w' /\
    history (proc w')
    = history (proc w)
      ++ EvLog info
         :: EvResolve (Address (Config (conn w))) (Port (Config (conn w))) :: tail.
Proof.
  destruct (connect_step env w) as (r & w' & evs & Hrun & Hh & _ & _ & Hcase).
  exists r, w'.
  destruct (net_ResolveTCPAddr env _) as [e|].
  - destruct Hcase as (_ & -> & _). now exists [].
  - destruct Hcase as (_ & Hcase).
    destruct (net_DialTCP env _) as [s [e|]]; destruct Hcase as (_ & -> & _);
      eexists; (split; [exact Hrun | exact Hh]).
Qed.

Lemma history_grows {A : Type} (c : M A) (w : World) :
  emits_only off_socket c ->
  exists evs, history (proc (final (c w))) = history (proc w) ++ evs.
Proof. intros H. destruct (H w) as (evs & Hh & _). now exists evs. Qed.

(** X10. With a discoverer configured, [connectWithRetries] does not use the
    address and port of the configuration: when the discoverer answers with
    a node and an attempt is left, the first address resolved is that
    node's, however the call ends.  When that resolution and the dial
    succeed, the call consists of the discovery and this one attempt; it
    returns without an error, the configuration now holds the node's
    address and port, and the connection holds the dialled socket and is
    marked connected. *)
Theorem discovered_endpoint_is_dialled
    (N : Z) (w : World) (d : EndpointDiscovererT) (member : MemberInfo) :
  0 < N ->
  EndpointDiscoverer (Config (conn w)) = Some d ->
  d (n_discover (calls (proc w))) = (member, None) ->
  let ip := ExternalTCPIP member in
  let port := ExternalTCPPort member in
  let w' := final (connectWithRetries codes newPackage env N w) in
  (exists rest, resolutions (since w w') = (ip, port) :: rest) /\
  (forall s,
     net_ResolveTCPAddr env (n_resolve (calls (proc w))) = None ->
     net_DialTCP env (n_dial (calls (proc w))) = (s, None) ->
     connectWithRetries codes newPackage env N w = Returns None w' /\
     since w w'
     = [EvDiscover; EvLog info; EvResolve ip port; EvDial ip port;
        EvLog info; EvGo GoReadFromSocket] /\
     Address (Config (conn w')) = ip /\
     Port (Config (conn w')) = port /\
     Socket (conn w') = Some s /\
     connected (conn w') = true).
Proof.
  intros Hpos Hd Hanswer ip port. unfold connectWithRetries.
  destruct (Z.to_nat N) as [|n] eqn:HN; [lia|]. clear HN Hpos.
  remember (connectWithRetries_attempts codes newPackage env (S n) w) as o eqn:Ho.
  cbn [connectWithRetries_attempts] in Ho.
  destruct (discover_endpoint_step w)
    as (r1 & w1 & Hrun1 & Hh1 & _ & _ & Hn1 & Hr & _ & _ & Hfound).
  rewrite Hd, Hanswer in Hr. cbn in Hr. subst r1.
  destruct (Hfound d Hd eq_refl) as [Haddr Hport].
  rewrite Hanswer in Haddr, Hport. cbn in Haddr, Hport.
  unfold discovery_events in Hh1. rewrite Hd in Hh1. cbn in Hh1.
  unfold bind at 1 in Ho. rewrite Hrun1 in Ho. unfold bind at 1 in Ho.
  split.
  - destruct (connect_resolves_first w1) as (r2 & w2 & tail & Hrun2 & Hh2).
    rewrite Hrun2 in Ho. rewrite Haddr, Hport in Hh2.
    assert (Hrest : exists evs, history (proc (final o)) = history (proc w2) ++ evs).
    { subst o. destruct r2.
      - apply history_grows.
        pose proof check_nodes_off_socket as Hcheck.
        pose proof (connectWithRetries_attempts_off_socket codes newPackage env n)
          as Hretry.
        emitting.
      - exists []. cbn. now rewrite app_nil_r. }
    destruct Hrest as (evs & Hh).
    exists (resolutions tail ++ resolutions evs).
    rewrite (since_app w _ ([EvDiscover]
                            ++ (EvLog info :: EvResolve ip port :: tail) ++ evs)).
    + now rewrite !resolutions_app.
    + rewrite Hh, Hh2, Hh1. now rewrite <- !app_assoc.
  - intros s Hres Hdial.
    destruct (connect_step env w1)
      as (r2 & w2 & e2 & Hrun2 & Hh2 & Hcfg2 & _ & Hcase).
    unfold net_calls in Hn1. injection Hn1 as Hnr Hnd.
    rewrite Hnr, Hres, Hnd, Hdial, Haddr, Hport in Hcase.
    destruct Hcase as (_ & -> & -> & Hconn).
    rewrite Hrun2 in Ho. unfold ret in Ho. subst o. cbn [final].
    split; [reflexivity|].
    split; [apply since_app; rewrite Hh2, Hh1; now rewrite <- app_assoc|].
    rewrite Hcfg2, Hconn, Haddr, Hport. repeat split.
Qed.

End Discovery.

Lemma discovered_endpoint_is_dialled_witness :
  Address (Config (conn (final (connectWithRetries Fixture.codes Fixture.newPackage
                                  (Fixture.env_serving []) 3 Scene.clustered))))
  = "10.0.0.7"%string.
Proof.
  pose proof (discovered_endpoint_is_dialled Fixture.codes Fixture.newPackage
                (Fixture.env_serving []) 3 Scene.clustered Scene.single_node
                {| ExternalTCPIP := "10.0.0.7"; ExternalTCPPort := 2113 |}
                ltac:(lia) eq_refl eq_refl) as Hfound.
  cbv zeta in Hfound. destruct Hfound as [_ Hdial].
  destruct (Hdial 1%nat eq_refl eq_refl) as (_ & _ & Haddr & _).
  exact Haddr.
Defined.

Section Rediscovery.

Variable codes : CommandCodes.
Variable newPackage :
  Command -> list byte -> list byte -> string -> string -> TCPPackage * option error.
Variable env : Environment.

Lemma discover_endpoint_found w d :
  EndpointDiscoverer (Config (conn w)) = Some d ->
  snd (d (n_discover (calls (proc w)))) = None ->
  let memberInfo := fst (d (n_discover (calls (proc w)))) in
  discover_endpoint w
  = Returns None
      {| conn := set_Config (set_Port (ExternalTCPPort memberInfo)
                               (set_Address (ExternalTCPIP memberInfo)
                                  (Config (conn w)))) (conn w);
         proc := {| history := history (proc w) ++ [EvDiscover];
                    calls := bump CDiscover (calls (proc w)) |} |}.
Proof.
  intros Hd Hfound. open_world w.
  unfold discover_endpoint, Discover, set_endpoint. run. rewrite Hd. cbn.
  destruct (d (n_discover k)) as [memberInfo err]. cbn in *. subst err.
  reflexivity.
Qed.

Lemma check_nodes_found w d :
  EndpointDiscoverer (Config (conn w)) = Some d ->
  let memberInfo := fst (d (n_discover (calls (proc w)))) in
  check_nodes w
  = Returns tt
      {| conn := set_Config (set_Port (ExternalTCPPort memberInfo)
                               (set_Address (ExternalTCPIP memberInfo)
                                  (Config (conn w)))) (conn w);
         proc := {| history := history (proc w) ++ [EvLog info; EvDiscover];
                    calls := bump CDiscover (calls (proc w)) |} |}.
Proof.
  intros Hd. open_world w.
  unfold check_nodes, Discover, set_endpoint. run. rewrite Hd. cbn.
  unfold record_event. cbn. now rewrite <- app_assoc.
Qed.

Lemma connect_fails w :
  every_attempt_fails env ->
  exists e w' evs,
    connect env w = Returns (Some e) w' /\
    conn w' = conn w /\
    history (proc w') = history (proc w) ++ evs /\
    discoveries evs = 0%nat /\
    n_discover (calls (proc w')) = n_discover (calls (proc w)).
Proof.
  intros Hfail. open_world w. unfold connect. run.
  destruct (Hfail (n_resolve k) (n_dial k)) as [Hres | Hdial].
  - destruct (net_ResolveTCPAddr env (n_resolve k)) as [e|]; [|discriminate].
    cbn. eexists; eexists; eexists. split; [reflexivity|]. cbn.
    unfold record_event. cbn. rewrite <- app_assoc.
    destruct k; repeat split.
  - destruct (net_ResolveTCPAddr env (n_resolve k)) as [e|]; cbn.
    + eexists; eexists; eexists. split; [reflexivity|]. cbn.
      unfold record_event. cbn. rewrite <- app_assoc.
      destruct k; repeat split.
    + destruct (net_DialTCP env (n_dial k)) as [s [e|]]; [|discriminate].
      cbn. eexists; eexists; eexists. split; [reflexivity|]. cbn.
      unfold record_event. cbn. rewrite <- !app_assoc.
      destruct k; repeat split.
Qed.

Lemma retries_ask_twice (n : nat) :
  snd (proto_Marshal_SubscriptionDropped env) = None ->
  every_attempt_fails env ->
  forall w d,
    EndpointDiscoverer (Config (conn w)) = Some d ->
    (forall k, snd (d k) = None) ->
    let last := fst (d (n_discover (calls (proc w)) + 2 * n)%nat) in
    exists w' evs,
      connectWithRetries_attempts codes newPackage env n w
      = Returns (Some (ErrRetryLimit (MaxReconnects (Config (conn w))))) w' /\
      history (proc w') = history (proc w) ++ evs /\
      discoveries evs = (2 * n + 1)%nat /\
      n_discover (calls (proc w'))
      = (n_discover (calls (proc w)) + 2 * n + 1)%nat /\
      Address (Config (conn w')) = ExternalTCPIP last /\
      Port (Config (conn w')) = ExternalTCPPort last.
Proof.
  intros Hmarshal Hfail.
  induction n as [|n IH]; intros w d Hd Hfound;
    cbn [connectWithRetries_attempts]; unfold bind at 1;
    rewrite (discover_endpoint_found w d Hd (Hfound _)); cbv zeta;
    set (w1 := {| conn := _; proc := _ |}); unfold bind at 1.
  - rewrite (closeConnection_returns codes newPackage env w1 Hmarshal).
    unfold bind, get_conn, ret. cbn [conn].
    eexists.
    exists ([EvDiscover] ++ [EvLog errorLevel]
            ++ drop_events codes newPackage env (Config (conn w1))
                 (map_entries (subscriptions (conn w1)))
            ++ [EvResetTables]).
    split; [reflexivity|]. cbn [conn proc history calls].
    split; [subst w1; cbn [proc history]; rewrite <- app_assoc; reflexivity|].
    destruct (drop_events_silent codes newPackage env (Config (conn w1))
                (map_entries (subscriptions (conn w1)))) as (_ & _ & Hq & _).
    rewrite !discoveries_app, Hq. rewrite Nat.mul_0_r, Nat.add_0_r.
    subst w1. destruct w as [c [h [? ? ? ? ? ? ? ?]]]. cbn.
    rewrite !Nat.add_0_r. repeat split; lia.
  - destruct (connect_fails w1 Hfail)
      as (e & w2 & evs2 & Hrun2 & Hconn2 & Hh2 & Hq2 & Hn2).
    rewrite Hrun2, pause_run. unfold bind at 1.
    assert (Hd2 : EndpointDiscoverer (Config (conn (paused w2))) = Some d).
    { cbn [paused conn]. rewrite Hconn2. subst w1. exact Hd. }
    rewrite (check_nodes_found (paused w2) d Hd2). cbv zeta.
    set (w3 := {| conn := _; proc := _ |}).
    destruct (IH w3 d) as (w' & evs & Hrun & Hh & Hq & Hn & Haddr & Hport).
    { subst w3. cbn. rewrite Hconn2. subst w1. exact Hd. }
    { exact Hfound. }
    assert (Hn3 : n_discover (calls (proc w3))
                  = (n_discover (calls (proc w)) + 2)%nat).
    { subst w3. cbn [proc calls paused]. 
      transitivity (S (n_discover (calls (proc w2)))).
      { now destruct (calls (proc w2)). }
      rewrite Hn2. subst w1. destruct w as [c [h [? ? ? ? ? ? ? ?]]]. cbn. lia. }
    assert (Hmax : MaxReconnects (Config (conn w3))
                   = MaxReconnects (Config (conn w))).
    { subst w3. cbn. rewrite Hconn2. subst w1. reflexivity. }
    rewrite Hrun, Hmax.
    exists w'.
    exists ([EvDiscover] ++ evs2
            ++ [EvLog info;
                EvSleep (delay_Duration (ReconnectionDelay (Config (conn w2))))]
            ++ [EvLog info; EvDiscover] ++ evs).
    split; [reflexivity|].
    split.
    { rewrite Hh. subst w3. cbn [proc history paused]. rewrite Hh2. subst w1.
      cbn [proc history]. now rewrite <- !app_assoc. }
    rewrite !discoveries_app, Hq2, Hq, Hn, Hn3.
    rewrite Hn3 in Haddr, Hport.
    replace (n_discover (calls (proc w)) + 2 * S n)%nat
      with (n_discover (calls (proc w)) + 2 + 2 * n)%nat by lia.
    cbn [discoveries]. repeat split; try assumption; cbn; lia.
Qed.

(** X11. With a discoverer that always answers, every attempt failing and the
    drop reason marshalling, [connectWithRetries] with [N >= 0] attempts asks
    the discoverer [2 * N + 1] times for its [N] attempts: once before each
    attempt, once more after each failure, and once before it gives up.  It
    returns the retry-limit error, and the configuration is left holding
    the address and port of the last answer. *)
Theorem discoverer_is_asked_twice_per_failure
    (N : Z) (w : World) (d : EndpointDiscovererT) :
  0 <= N ->
  snd (proto_Marshal_SubscriptionDropped env) = None ->
  every_attempt_fails env ->
  EndpointDiscoverer (Config (conn w)) = Some d ->
  (forall k, snd (d k) = None) ->
  let last := fst (d (n_discover (calls (proc w)) + 2 * Z.to_nat N)%nat) in
  exists w',
    connectWithRetries codes newPackage env N w
    = Returns (Some (ErrRetryLimit (MaxReconnects (Config (conn w))))) w' /\
    discoveries (since w w') = (2 * Z.to_nat N + 1)%nat /\
    attempts (since w w') = Z.to_nat N /\
    Address (Config (conn w')) = ExternalTCPIP last /\
    Port (Config (conn w')) = ExternalTCPPort last.
Proof.
  intros HN Hmarshal Hfail Hd Hfound last. unfold connectWithRetries.
  destruct (retries_ask_twice (Z.to_nat N) Hmarshal Hfail w d Hd Hfound)
    as (w' & evs & Hrun & Hh & Hq & _ & Haddr & Hport).
  destruct (retries_exhaust codes newPackage env (Z.to_nat N) Hmarshal Hfail w)
    as (w'' & evs' & Hrun' & Hh' & Hb & _).
  { intros d' Hd'. rewrite Hd in Hd'. injection Hd' as <-. exact Hfound. }
  rewrite Hrun in Hrun'. injection Hrun' as <-.
  rewrite Hh in Hh'. apply app_inv_head in Hh'. subst evs'.
  exists w'. rewrite (since_app _ _ _ Hh).
  split; [exact Hrun|]. split; [exact Hq|].
  split; [|split; assumption].
  unfold attempts. rewrite Hb, attempts_rounds. cbn. lia.
Qed.

End Rediscovery.

Lemma discoverer_is_asked_twice_per_failure_witness :
  exists w',
    connectWithRetries Fixture.codes Fixture.newPackage Fixture.env 3
      Scene.clustered = Returns (Some (ErrRetryLimit 3)) w' /\
    discoveries (since Scene.clustered w') = 7%nat.
Proof.
  pose proof (discoverer_is_asked_twice_per_failure Fixture.codes
                Fixture.newPackage Fixture.env 3 Scene.clustered
                Scene.single_node) as Hasked.
  cbv zeta in Hasked.
  destruct Hasked as (w' & Hrun & Hcount & _).
  - lia.
  - reflexivity.
  - intros kr kd. right. reflexivity.
  - reflexivity.
  - intros k. reflexivity.
  - exists w'. split; [exact Hrun | exact Hcount].
Defined.

(** ** The exits of the reader *)

Section ReaderEdges.

Variable codes : CommandCodes.
Variable newPackage :
  Command -> list byte -> list byte -> string -> string -> TCPPackage * option error.
Variable parsePackage : list byte -> TCPPackage * option error.
Variable env : Environment.

Lemma readFromSocket_body_not_connected buffer w :
  Mutex (conn w) = false -> connected (conn w) = false ->
  readFromSocket_body codes newPackage parsePackage env buffer w
  = Returns Break {| conn := set_Mutex true (conn w); proc := proc w |}.
Proof.
  intros Hmu Hcon. open_world w. subst mu con.
  unfold readFromSocket_body, Mutex_Lock. run. reflexivity.
Qed.

Lemma readFromSocket_body_locked buffer w :
  Mutex (conn w) = true ->
  readFromSocket_body codes newPackage parsePackage env buffer w
  = Aborts Deadlock w.
Proof.
  intros Hmu. open_world w. subst mu.
  unfold readFromSocket_body, Mutex_Lock. run. reflexivity.
Qed.

Lemma Close_locked w :
  Mutex (conn w) = true -> Close codes newPackage env w = Aborts Deadlock w.
Proof.
  intros Hmu. open_world w. subst mu.
  unfold Close, Mutex_Lock. run. reflexivity.
Qed.

(** X12. A reader that finds the connection not marked connected leaves its
    loop in the first pass without reading, and without unlocking the mutex
    it has just locked: [readFromSocket] returns with nothing added to the
    history and the mutex held.  In that state [Close] and any further
    reader block on the mutex for ever. *)
Theorem reader_leaves_the_mutex_locked (fuel : nat) (w : World) :
  Mutex (conn w) = false ->
  connected (conn w) = false ->
  let w' := {| conn := set_Mutex true (conn w); proc := proc w |} in
  readFromSocket codes newPackage parsePackage env (S fuel) w = Returns tt w' /\
  Close codes newPackage env w' = Aborts Deadlock w' /\
  (forall fuel',
     readFromSocket codes newPackage parsePackage env (S fuel') w'
     = Aborts Deadlock w').
Proof.
  intros Hmu Hcon w'. unfold readFromSocket. cbn [readFromSocket_loop].
  unfold bind. rewrite readFromSocket_body_not_connected by assumption.
  split; [reflexivity|]. split; [now apply Close_locked|].
  intros fuel'. now rewrite readFromSocket_body_locked.
Qed.

Lemma dispatch_unknown msg :
  ~ In (pkg_Command msg) (switch_cases codes) ->
  dispatch codes newPackage env msg = ret tt.
Proof.
  unfold switch_cases. cbn [app]. intros Hnot. unfold dispatch.
  destruct (Z.eqb_spec (pkg_Command msg) (heartbeatRequest codes)) as [Heq|_].
  { exfalso. apply Hnot. rewrite Heq. now left. }
  destruct (Z.eqb_spec (pkg_Command msg) (pong codes)) as [Heq|_].
  { exfalso. apply Hnot. rewrite Heq. right. now left. }
  destruct (existsb _ _) eqn:Hex.
  { exfalso. apply Hnot. apply existsb_exists in Hex as (x & Hx & Heq).
    apply Z.eqb_eq in Heq. subst x. right. right. apply in_app_iff. now left. }
  destruct (Z.eqb_spec (pkg_Command msg) (notAuthenticated codes)) as [Heq|_].
  { exfalso. apply Hnot. rewrite Heq. right. right. apply in_app_iff. right.
    now left. }
  destruct (Z.eqb_spec (pkg_Command msg) badRequestLiteral) as [Heq|_].
  { exfalso. apply Hnot. rewrite Heq. right. right. apply in_app_iff. right.
    right. now left. }
  reflexivity.
Qed.

Lemma dispatch_badRequest msg :
  cases_distinct codes -> pkg_Command msg = badRequestLiteral ->
  dispatch codes newPackage env msg = log_Fatal.
Proof.
  unfold cases_distinct, switch_cases. intros Hnd Hcmd.
  assert (Hlast : forall x, In x ([heartbeatRequest codes; pong codes]
                                  ++ completed_commands codes
                                  ++ [notAuthenticated codes]) ->
                            x <> badRequestLiteral).
  { intros x Hx ->.
    replace ([heartbeatRequest codes; pong codes] ++ completed_commands codes
             ++ [notAuthenticated codes; badRequestLiteral])
      with (([heartbeatRequest codes; pong codes] ++ completed_commands codes
             ++ [notAuthenticated codes]) ++ [badRequestLiteral]) in Hnd
      by (now rewrite <- !app_assoc).
    apply NoDup_app in Hnd as (_ & Hdisj & _).
    apply (Hdisj badRequestLiteral); [now apply list_elem_of_In | now left]. }
  unfold dispatch. rewrite Hcmd.
  destruct (Z.eqb_spec badRequestLiteral (heartbeatRequest codes)) as [Heq|_].
  { exfalso. apply (Hlast (heartbeatRequest codes)); [now left | now symmetry]. }
  destruct (Z.eqb_spec badRequestLiteral (pong codes)) as [Heq|_].
  { exfalso. apply (Hlast (pong codes)); [right; now left | now symmetry]. }
  destruct (existsb _ _) eqn:Hex.
  { exfalso. apply existsb_exists in Hex as (x & Hx & Heq).
    apply Z.eqb_eq in Heq. subst x.
    apply (Hlast badRequestLiteral); [|reflexivity].
    cbn [app]. right. right. apply in_app_iff. now left. }
  destruct (Z.eqb_spec badRequestLiteral (notAuthenticated codes)) as [Heq|_].
  { exfalso. apply (Hlast (notAuthenticated codes)); [|now symmetry].
    cbn [app]. right. right. apply in_app_iff. right. now left. }
  reflexivity.
Qed.

(** X13. A frame whose command is none of the cases of the dispatch switch
    is dropped without a trace: the pass that decodes it returns, the loop
    goes on, the connection is as it was and the read is the only thing
    that happened; nothing is logged, sent or started. *)
Theorem reader_ignores_unknown_commands
    (buffer : list byte) (w : World) (s : TCPConn) (data : list byte)
    (msg : TCPPackage) :
  Mutex (conn w) = false ->
  connected (conn w) = true ->
  Socket (conn w) = Some s ->
  socket_Read env (n_read (calls (proc w))) = (data, None) ->
  parsePackage (refill buffer data) = (msg, None) ->
  ~ In (pkg_Command msg) (switch_cases codes) ->
  exists w',
    readFromSocket_body codes newPackage parsePackage env buffer w
    = Returns (Continue (refill buffer data)) w' /\
    conn w' = conn w /\
    since w w' = [EvSocketRead s].
Proof.
  intros Hmu Hcon Hsock Hread Hparse Hnot.
  rewrite (readFromSocket_body_decodes _ _ _ _ _ _ _ _ _ Hmu Hcon Hsock Hread Hparse).
  rewrite dispatch_unknown by assumption.
  exists (after_read s w). split; [reflexivity|]. split; [reflexivity|].
  now apply since_app.
Qed.

Lemma readFromSocket_body_read_fails buffer w s data e :
  Mutex (conn w) = false ->
  connected (conn w) = true ->
  Socket (conn w) = Some s ->
  socket_Read env (n_read (calls (proc w))) = (data, Some e) ->
  is_EOF e = false ->
  readFromSocket_body codes newPackage parsePackage env buffer w
  = Aborts Fatal
      {| conn := conn w;
         proc := record_event (EvLog fatal) (proc (after_read s w)) |}.
Proof.
  intros Hmu Hcon Hsock Hread Heof. open_world w. subst mu con sock.
  unfold readFromSocket_body, Mutex_Lock, Mutex_Unlock, Socket_Read. run.
  rewrite Hread. cbn. rewrite Heof. reflexivity.
Qed.

Lemma readFromSocket_body_decode_fails buffer w s data msg e :
  Mutex (conn w) = false ->
  connected (conn w) = true ->
  Socket (conn w) = Some s ->
  socket_Read env (n_read (calls (proc w))) = (data, None) ->
  parsePackage (refill buffer data) = (msg, Some e) ->
  readFromSocket_body codes newPackage parsePackage env buffer w
  = Aborts Fatal
      {| conn := conn w;
         proc := record_event (EvLog fatal) (proc (after_read s w)) |}.
Proof.
  intros Hmu Hcon Hsock Hread Hparse. open_world w. subst mu con sock.
  unfold readFromSocket_body, Mutex_Lock, Mutex_Unlock, Socket_Read. run.
  rewrite Hread. cbn. rewrite Hparse. reflexivity.
Qed.

(** X14. In a pass that finds the connection marked connected, three things
    make the reader end the process with [log.Fatal]: a read error other
    than end-of-stream, a buffer that does not decode, and (the cases of the
    switch being distinct) a frame with command [0x0F].  In each case the
    pass consists of the read and the fatal log line: the connection
    object is untouched, so the socket is not closed and no subscription is
    told. *)
Theorem reader_fatal_exits
    (buffer : list byte) (w : World) (s : TCPConn) (data : list byte) :
  Mutex (conn w) = false ->
  connected (conn w) = true ->
  Socket (conn w) = Some s ->
  let read := socket_Read env (n_read (calls (proc w))) in
  let decoded := parsePackage (refill buffer data) in
  (exists e, read = (data, Some e) /\ is_EOF e = false) \/
  read = (data, None) /\
  (is_err (snd decoded) = true \/
   cases_distinct codes /\ pkg_Command (fst decoded) = badRequestLiteral) ->
  exists w',
    readFromSocket_body codes newPackage parsePackage env buffer w
    = Aborts Fatal w' /\
    conn w' = conn w /\
    since w w' = [EvSocketRead s; EvLog fatal].
Proof.
  intros Hmu Hcon Hsock read decoded Hcase.
  exists {| conn := conn w;
            proc := record_event (EvLog fatal) (proc (after_read s w)) |}.
  assert (Hsince : since w {| conn := conn w;
                              proc := record_event (EvLog fatal)
                                        (proc (after_read s w)) |}
                   = [EvSocketRead s; EvLog fatal]).
  { apply since_app. cbn. now rewrite <- app_assoc. }
  split; [|split; [reflexivity | exact Hsince]].
  destruct Hcase as [(e & Hread & Heof) | (Hread & Hcase)].
  - now apply (readFromSocket_body_read_fails buffer w s data e).
  - subst decoded. destruct (parsePackage (refill buffer data)) as [msg err] eqn:Hparse.
    cbn in Hcase. destruct err as [e|].
    + now apply (readFromSocket_body_decode_fails buffer w s data msg e).
    + destruct Hcase as [Hcase | (Hnd & Hcmd)]; [discriminate|].
      rewrite (readFromSocket_body_decodes _ _ _ _ _ _ _ _ _ Hmu Hcon Hsock
                 Hread Hparse).
      rewrite dispatch_badRequest by assumption.
      unfold log_Fatal. destruct w as [c [h k]]. run. reflexivity.
Qed.

End ReaderEdges.

Lemma reader_leaves_the_mutex_locked_witness :
  Close Fixture.codes Fixture.newPackage Fixture.env
    {| conn := set_Mutex true (conn Scene.stopped); proc := proc Scene.stopped |}
  = Aborts Deadlock
      {| conn := set_Mutex true (conn Scene.stopped); proc := proc Scene.stopped |}.
Proof.
  pose proof (reader_leaves_the_mutex_locked Fixture.codes Fixture.newPackage
                Fixture.parsePackage Fixture.env 0 Scene.stopped eq_refl eq_refl)
    as Hleft.
  cbv zeta in Hleft. destruct Hleft as (_ & Hclose & _). exact Hclose.
Defined.

Lemma reader_ignores_unknown_commands_witness :
  exists w',
    readFromSocket_body Fixture.codes Fixture.newPackage Fixture.parsePackage
      (Fixture.env_serving (Byte.x99 :: Fixture.id_of Byte.x11))
      (repeat Byte.x00 20) Fixture.live
    = Returns (Continue (Byte.x99 :: Fixture.id_of Byte.x11
                         ++ repeat Byte.x00 3)) w' /\
    conn w' = conn Fixture.live.
Proof.
  destruct (reader_ignores_unknown_commands Fixture.codes Fixture.newPackage
              Fixture.parsePackage
              (Fixture.env_serving (Byte.x99 :: Fixture.id_of Byte.x11))
              (repeat Byte.x00 20) Fixture.live 1%nat
              (Byte.x99 :: Fixture.id_of Byte.x11)
              {| pkg_Command := 0x99; pkg_CorrelationID := Fixture.id_of Byte.x11;
                 pkg_Data := []; pkg_Login := ""; pkg_Password := "" |}
              eq_refl eq_refl eq_refl eq_refl eq_refl)
    as (w' & Hrun & Hconn & _).
  - intros Hin. cbn in Hin.
    repeat (destruct Hin as [Hin|Hin]; [discriminate Hin|]). exact Hin.
  - exists w'. split; [exact Hrun | exact Hconn].
Defined.

Lemma reader_fatal_exits_witness :
  exists w',
    readFromSocket_body Fixture.codes Fixture.newPackage Fixture.parsePackage
      (Fixture.env_serving []) [] Fixture.live = Aborts Fatal w' /\
    conn w' = conn Fixture.live.
Proof.
  pose proof (reader_fatal_exits Fixture.codes Fixture.newPackage
                Fixture.parsePackage (Fixture.env_serving []) [] Fixture.live
                1%nat [] eq_refl eq_refl eq_refl) as Hexit.
  cbv zeta in Hexit. destruct Hexit as (w' & Hrun & Hconn & _).
  - right. split; [reflexivity|]. left. reflexivity.
  - exists w'. split; [exact Hrun | exact Hconn].
Defined.

(** ** The loop of the reader *)

Lemma socket_reads_app (h1 h2 : list Event) :
  socket_reads (h1 ++ h2) = socket_reads h1 ++ socket_reads h2.
Proof. unfold socket_reads. now rewrite flat_map_app. Qed.

Lemma refill_length (buffer data : list byte) :
  length (refill buffer data) = length buffer.
Proof.
  unfold refill. rewrite length_app, length_drop, length_take. lia.
Qed.

Lemma refill_short (buffer data : list byte) :
  (length data <= length buffer)%nat ->
  refill buffer data = data ++ drop (length data) buffer.
Proof. intros Hle. unfold refill. now rewrite take_ge by exact Hle. Qed.

Section ReaderLoop.

Variable codes : CommandCodes.
Variable newPackage :
  Command -> list byte -> list byte -> string -> string -> TCPPackage * option error.
Variable parsePackage : list byte -> TCPPackage * option error.
Variable env : Environment.

Lemma reconnect_cycle_breaks w next w' :
  reconnect_cycle codes newPackage env w <> Returns (Continue next) w'.
Proof.
  unfold reconnect_cycle, bind, get_conn.
  destruct (Close codes newPackage env w) as [r w1|why w1]; [|discriminate].
  destruct (connectWithRetries codes newPackage env _ w1) as [r2 w2|why w2];
    [|discriminate].
  destruct (is_err r2); destruct w2 as [c [h k]]; discriminate.
Qed.

(** X15. The reader enters another pass only after a pass that found the
    mutex free and the connection marked connected, read from the socket
    without an error and decoded the buffer without an error.  What is
    decoded, and handed to the next pass, is the whole buffer, not the bytes
    received: it keeps its length, and when fewer bytes arrive than it
    holds, it is those bytes followed by what the buffer held behind them.
    Such a pass leaves the connection object as it was. *)
Theorem reader_goes_on_only_after_a_clean_read
    (buffer : list byte) (w : World) (next : list byte) (w' : World) :
  readFromSocket_body codes newPackage parsePackage env buffer w
  = Returns (Continue next) w' ->
  exists s data,
    Mutex (conn w) = false /\
    connected (conn w) = true /\
    Socket (conn w) = Some s /\
    socket_Read env (n_read (calls (proc w))) = (data, None) /\
    next = refill buffer data /\
    snd (parsePackage next) = None /\
    length next = length buffer /\
    ((length data <= length buffer)%nat ->
     next = data ++ drop (length data) buffer) /\
    conn w' = conn w.
Proof.
  intros Hrun.
  destruct (Mutex (conn w)) eqn:Hmu.
  { open_world w. subst mu.
    unfold readFromSocket_body, Mutex_Lock in Hrun. run. discriminate. }
  destruct (connected (conn w)) eqn:Hcon; cycle 1.
  { open_world w. subst mu con.
    unfold readFromSocket_body, Mutex_Lock in Hrun. run. discriminate. }
  destruct (Socket (conn w)) as [s|] eqn:Hsock; cycle 1.
  { open_world w. subst mu con sock.
    unfold readFromSocket_body, Mutex_Lock, Mutex_Unlock, Socket_Read in Hrun.
    run. discriminate. }
  destruct (socket_Read env (n_read (calls (proc w)))) as [data [e|]] eqn:Hread.
  { exfalso. destruct (is_EOF e) eqn:Heof.
    - rewrite (readFromSocket_body_eof codes newPackage parsePackage env
                 buffer w s data e Hmu Hcon Hsock Hread Heof) in Hrun.
      now apply reconnect_cycle_breaks in Hrun.
    - open_world w. subst mu con sock.
      unfold readFromSocket_body, Mutex_Lock, Mutex_Unlock, Socket_Read in Hrun.
      run. rewrite Hread in Hrun. cbn in Hrun. rewrite Heof in Hrun.
      discriminate. }
  destruct (parsePackage (refill buffer data)) as [msg [e|]] eqn:Hparse.
  { exfalso. open_world w. subst mu con sock.
    unfold readFromSocket_body, Mutex_Lock, Mutex_Unlock, Socket_Read in Hrun.
    run. rewrite Hread in Hrun. cbn in Hrun. rewrite Hparse in Hrun.
    discriminate. }
  rewrite (readFromSocket_body_decodes codes newPackage parsePackage env
             buffer w s data msg Hmu Hcon Hsock Hread Hparse) in Hrun.
  unfold bind in Hrun.
  pose proof (dispatch_keeps_conn codes newPackage env msg (after_read s w)) as Hd.
  destruct (dispatch codes newPackage env msg (after_read s w)) as [u w1|why w1];
    [|discriminate].
  unfold ret in Hrun. injection Hrun as <- <-.
  exists s, data. rewrite Hparse, refill_length.
  repeat split; auto using refill_short.
Qed.




End ReaderLoop.

Lemma reader_goes_on_only_after_a_clean_read_witness :
  exists next w',
    readFromSocket_body Fixture.codes Fixture.newPackage Fixture.parsePackage
      (Fixture.env_serving (Byte.x83 :: Fixture.id_of Byte.x11))
      (repeat Byte.x00 20) Fixture.live = Returns (Continue next) w' /\
    length next = 20%nat /\
    conn w' = conn Fixture.live.
Proof.
  assert (Hrun :
    readFromSocket_body Fixture.codes Fixture.newPackage Fixture.parsePackage
      (Fixture.env_serving (Byte.x83 :: Fixture.id_of Byte.x11))
      (repeat Byte.x00 20) Fixture.live
    = Returns (Continue (Byte.x83 :: Fixture.id_of Byte.x11 ++ repeat Byte.x00 3))
        (final (readFromSocket_body Fixture.codes Fixture.newPackage
                  Fixture.parsePackage
                  (Fixture.env_serving (Byte.x83 :: Fixture.id_of Byte.x11))
                  (repeat Byte.x00 20) Fixture.live)))
    by (vm_compute; reflexivity).
  destruct (reader_goes_on_only_after_a_clean_read Fixture.codes
              Fixture.newPackage Fixture.parsePackage _ _ _ _ _ Hrun)
    as (s & data & _ & _ & _ & _ & _ & _ & Hlen & _ & Hconn).
  eexists; eexists. split; [exact Hrun|]. split; [exact Hlen | exact Hconn].
Defined.


(** ** Closing, once more *)

Lemma socket_closes_app (h1 h2 : list Event) :
  socket_closes (h1 ++ h2) = socket_closes h1 ++ socket_closes h2.
Proof. unfold socket_closes. now rewrite flat_map_app. Qed.

Section Teardown.

Variable codes : CommandCodes.
Variable newPackage :
  Command -> list byte -> list byte -> string -> string -> TCPPackage * option error.
Variable env : Environment.

(** X21. On a connection with a socket and a free mutex (the drop reason
    marshalling), [Close] returns exactly what [Socket.Close] returned, an
    error included, and in either case finishes: the socket field is nil,
    the flag is cleared, the tables are empty and the mutex is free.  The
    socket is closed once, before anything else but the first log line. *)
Theorem Close_finishes_whatever_the_socket_says (w : World) (s : TCPConn) :
  Mutex (conn w) = false ->
  Socket (conn w) = Some s ->
  snd (proto_Marshal_SubscriptionDropped env) = None ->
  exists w' rest,
    Close codes newPackage env w
    = Returns (socket_Close env (n_close (calls (proc w)))) w' /\
    conn w' = closed (conn w) /\
    since w w' = EvLog info :: EvSocketClose s :: rest /\
    socket_closes rest = [] /\
    n_close (calls (proc w')) = S (n_close (calls (proc w))).
Proof.
  intros Hmu Hsock Hmarshal.
  rewrite (Close_returns codes newPackage env w s Hmu Hsock Hmarshal).
  eexists.
  exists ((if is_err (socket_Close env (n_close (calls (proc w))))
           then [EvLog errorLevel] else [])
          ++ [EvLog errorLevel]
          ++ drop_events codes newPackage env (Config (conn w))
               (map_entries (subscriptions (conn w)))
          ++ [EvResetTables]).
  split; [reflexivity|]. split; [reflexivity|].
  split; [apply since_app; reflexivity|].
  destruct (drop_events_silent codes newPackage env (Config (conn w))
              (map_entries (subscriptions (conn w)))) as (_ & _ & _ & Hc & _).
  rewrite !socket_closes_app, Hc.
  split; [now destruct (is_err _)|].
  destruct w as [c [h [? ? ? ? ? ? ? ?]]]. reflexivity.
Qed.

Lemma Close_fatal w (s : TCPConn) (e : error) :
  Mutex (conn w) = false ->
  Socket (conn w) = Some s ->
  snd (proto_Marshal_SubscriptionDropped env) = Some e ->
  Close codes newPackage env w
  = Aborts Fatal
      {| conn := set_Socket None (set_connected false (conn w));
         proc := {| history :=
                      history (proc w)
                      ++ [EvLog info; EvSocketClose s]
                      ++ (if is_err (socket_Close env (n_close (calls (proc w))))
                          then [EvLog errorLevel] else [])
                      ++ [EvLog errorLevel; EvLog fatal];
                    calls := bump CClose (calls (proc w)) |} |}.
Proof.
  intros Hmu Hsock Hmarshal. open_world w. subst mu sock.
  unfold Close, Mutex_Lock, Mutex_Unlock, Socket_Close. run.
  destruct (socket_Close env (n_close k)) as [e'|]; cbn;
    rewrite (closeConnection_fatal codes newPackage env _ e Hmarshal); cbn;
    now rewrite <- !app_assoc.
Qed.

(** X22. When the drop reason does not marshal, [closeConnection] ends the
    process with [log.Fatal] before it has told any subscription or emptied
    a table.  [Close] has by then closed the socket and cleared the socket
    field and the flag; it sends nothing on any channel and leaves both
    tables as they were. *)
Theorem marshal_failure_is_fatal (w : World) (e : error) :
  snd (proto_Marshal_SubscriptionDropped env) = Some e ->
  (exists w',
     closeConnection codes newPackage env w = Aborts Fatal w' /\
     conn w' = conn w /\
     since w w' = [EvLog errorLevel; EvLog fatal]) /\
  (forall s,
     Mutex (conn w) = false -> Socket (conn w) = Some s ->
     exists w',
       Close codes newPackage env w = Aborts Fatal w' /\
       socket_closes (since w w') = [s] /\
       chan_sends (since w w') = [] /\
       Socket (conn w') = None /\
       connected (conn w') = false /\
       requests (conn w') = requests (conn w) /\
       subscriptions (conn w') = subscriptions (conn w)).
Proof.
  intros Hmarshal. split.
  - rewrite (closeConnection_fatal codes newPackage env w e Hmarshal).
    eexists. split; [reflexivity|]. split; [reflexivity|].
    now apply since_app.
  - intros s Hmu Hsock. rewrite (Close_fatal w s e Hmu Hsock Hmarshal).
    eexists. split; [reflexivity|].
    erewrite since_app by reflexivity.
    destruct (is_err _); repeat split.
Qed.

End Teardown.

Lemma Close_finishes_whatever_the_socket_says_witness :
  exists w',
    Close Fixture.codes Fixture.newPackage Fixture.env Fixture.live
    = Returns None w' /\
    conn w' = closed (conn Fixture.live).
Proof.
  destruct (Close_finishes_whatever_the_socket_says Fixture.codes
              Fixture.newPackage Fixture.env Fixture.live 1%nat
              eq_refl eq_refl eq_refl)
    as (w' & rest & Hrun & Hconn & _).
  exists w'. split; [exact Hrun | exact Hconn].
Defined.

Lemma marshal_failure_is_fatal_witness :
  exists w',
    Close Fixture.codes Fixture.newPackage Scene.env_marshal_fails Fixture.live
    = Aborts Fatal w' /\
    chan_sends (since Fixture.live w') = [] /\
    subscriptions (conn w') = subscriptions (conn Fixture.live).
Proof.
  destruct (marshal_failure_is_fatal Fixture.codes Fixture.newPackage
              Scene.env_marshal_fails Fixture.live (External "marshal") eq_refl)
    as (_ & Hclose).
  destruct (Hclose 1%nat eq_refl eq_refl)
    as (w' & Hrun & _ & Hsends & _ & _ & _ & Hsubs).
  exists w'. split; [exact Hrun|]. split; [exact Hsends | exact Hsubs].
Defined.

Lemma off_socket_quiet (evs : list Event) :
  Forall off_socket evs ->
  socket_reads evs = [] /\ socket_closes evs = [] /\ socket_writes evs = [].
Proof.
  induction 1 as [|e rest He _ (IHr & IHc & IHw)]; [repeat split|].
  unfold socket_reads, socket_closes, socket_writes in *. cbn [flat_map].
  rewrite IHr, IHc, IHw. now destruct e.
Qed.

Section Handover.

Variable codes : CommandCodes.
Variable newPackage :
  Command -> list byte -> list byte -> string -> string -> TCPPackage * option error.
Variable parsePackage : list byte -> TCPPackage * option error.
Variable env : Environment.

Lemma reconnect_cycle_succeeds (j : nat) w (s s' : TCPConn) :
  Mutex (conn w) = false ->
  Socket (conn w) = Some s ->
  snd (proto_Marshal_SubscriptionDropped env) = None ->
  Z.of_nat j < MaxReconnects (Config (conn w)) ->
  (forall k, net_ResolveTCPAddr env k = None) ->
  every_discovery_succeeds w ->
  (forall i, (i < j)%nat ->
     is_err (snd (net_DialTCP env (n_dial (calls (proc w)) + i))) = true) ->
  net_DialTCP env (n_dial (calls (proc w)) + j) = (s', None) ->
  exists w' evs,
    reconnect_cycle codes newPackage env w = Returns Break w' /\
    history (proc w') = history (proc w) ++ evs /\
    socket_reads evs = [] /\
    socket_closes evs = [s] /\
    started evs = [GoReadFromSocket] /\
    length (dials evs) = S j /\
    Socket (conn w') = Some s' /\
    connected (conn w') = true /\
    Mutex (conn w') = false /\
    requests (conn w') = Some ∅ /\
    subscriptions (conn w') = Some ∅.
Proof.
  intros Hmu Hsock Hmarshal Hlt Hres Hdisc Hfail Hok.
  unfold reconnect_cycle. unfold bind at 1.
  rewrite (Close_returns codes newPackage env w s Hmu Hsock Hmarshal).
  set (close_events :=
         [EvLog info; EvSocketClose s]
         ++ (if is_err (socket_Close env (n_close (calls (proc w))))
             then [EvLog errorLevel] else [])
         ++ [EvLog errorLevel]
         ++ drop_events codes newPackage env (Config (conn w))
              (map_entries (subscriptions (conn w)))
         ++ [EvResetTables]).
  set (w1 := {| conn := closed (conn w); proc := _ |}).
  unfold bind at 1. unfold get_conn at 1. cbn [conn].
  unfold bind at 1. unfold connectWithRetries.
  change (MaxReconnects (Config (conn w1)))
    with (MaxReconnects (Config (conn w))).
  assert (Hnd : n_dial (calls (proc w1)) = n_dial (calls (proc w))).
  { subst w1. destruct w as [c [h [? ? ? ? ? ? ? ?]]]. reflexivity. }
  destruct (retries_succeed_at codes newPackage env j Hres
              (Z.to_nat (MaxReconnects (Config (conn w)))) w1 s')
    as (w2 & evs & Hrun & Hh & _ & Hd & _ & Hst & Hs & Hcn & Ht & Hm).
  { lia. }
  { exact Hdisc. }
  { rewrite Hnd. exact Hfail. }
  { rewrite Hnd. exact Hok. }
  rewrite Hrun. cbn [is_err].
  destruct (connectWithRetries_attempts_off_socket codes newPackage env
              (Z.to_nat (MaxReconnects (Config (conn w)))) w1)
    as (evs' & Hh' & Hoff).
  rewrite Hrun in Hh'. cbn [final] in Hh'. rewrite Hh in Hh'.
  apply app_inv_head in Hh'. subst evs'.
  destruct (off_socket_quiet evs Hoff) as (Hqr & Hqc & _).
  destruct (drop_events_silent codes newPackage env (Config (conn w))
              (map_entries (subscriptions (conn w))))
    as (_ & Hds & _ & Hdc & Hdr).
  destruct (drop_events_quiet codes newPackage env (Config (conn w))
              (map_entries (subscriptions (conn w)))) as (_ & Hdd).
  unfold tables in Ht. injection Ht as Hreq Hsub.
  destruct w2 as [c2 [h2 k2]]. cbn in Hh, Hs, Hcn, Hm, Hreq, Hsub.
  eexists. exists (close_events ++ evs ++ [EvLog info]).
  split; [reflexivity|]. cbn [conn proc history record_event].
  split.
  { rewrite Hh. subst w1 close_events. cbn [proc history].
    norm_app. reflexivity. }
  subst close_events.
  rewrite !socket_reads_app, !socket_closes_app, !started_app, !dials_app,
    !length_app, Hqr, Hqc, Hst, Hd, Hds, Hdc, Hdr, Hdd.
  subst w1. cbn [conn closed requests subscriptions Mutex] in Hreq, Hsub, Hm.
  destruct (is_err _); cbn; repeat split; auto.
Qed.

(** X17. End of stream followed by a successful reconnect: when the read
    returns end-of-stream, the addresses resolve, the first [j] dials are
    refused and the next one connects, with [j] less than the configured
    maximum, [readFromSocket] returns.  It has read once, closed the old
    socket once, dialled [j + 1] times and started exactly one new reader;
    the connection holds the new socket, is marked connected, its mutex is
    free, and both tables are empty: no subscription and no pending request
    is carried over to the new socket. *)
Theorem reader_hands_over_after_reconnect
    (fuel j : nat) (w : World) (s s' : TCPConn) (data : list byte) (e : error) :
  Mutex (conn w) = false ->
  connected (conn w) = true ->
  Socket (conn w) = Some s ->
  socket_Read env (n_read (calls (proc w))) = (data, Some e) ->
  is_EOF e = true ->
  snd (proto_Marshal_SubscriptionDropped env) = None ->
  Z.of_nat j < MaxReconnects (Config (conn w)) ->
  (forall k, net_ResolveTCPAddr env k = None) ->
  every_discovery_succeeds w ->
  (forall i, (i < j)%nat ->
     is_err (snd (net_DialTCP env (n_dial (calls (proc w)) + i))) = true) ->
  net_DialTCP env (n_dial (calls (proc w)) + j) = (s', None) ->
  exists w',
    readFromSocket codes newPackage parsePackage env (S fuel) w = Returns tt w' /\
    socket_reads (since w w') = [s] /\
    socket_closes (since w w') = [s] /\
    length (dials (since w w')) = S j /\
    started (since w w') = [GoReadFromSocket] /\
    Socket (conn w') = Some s' /\
    connected (conn w') = true /\
    Mutex (conn w') = false /\
    requests (conn w') = Some ∅ /\
    subscriptions (conn w') = Some ∅.
Proof.
  intros Hmu Hcon Hsock Hread Heof Hmarshal Hlt Hres Hdisc Hfail Hok.
  unfold readFromSocket. cbn [readFromSocket_loop]. unfold bind.
  rewrite (readFromSocket_body_eof codes newPackage parsePackage env _ w s data e
             Hmu Hcon Hsock Hread Heof).
  assert (Hnd : n_dial (calls (proc (after_read s w))) = n_dial (calls (proc w))).
  { destruct w as [c [h [? ? ? ? ? ? ? ?]]]. reflexivity. }
  destruct (reconnect_cycle_succeeds j (after_read s w) s s' Hmu Hsock Hmarshal
              Hlt Hres Hdisc)
    as (w' & evs & Hrun & Hh & Hr & Hc & Hst & Hd & Hrest).
  { rewrite Hnd. exact Hfail. }
  { rewrite Hnd. exact Hok. }
  rewrite Hrun. exists w'. split; [reflexivity|].
  rewrite (since_app w w' ([EvSocketRead s] ++ evs))
    by (rewrite Hh; cbn [after_read proc history]; now rewrite <- app_assoc).
  rewrite socket_reads_app, socket_closes_app, dials_app, started_app,
    Hr, Hc, Hst, length_app, Hd.
  repeat split; apply Hrest.
Qed.

End Handover.

Lemma reader_hands_over_after_reconnect_witness :
  exists w',
    readFromSocket Fixture.codes Fixture.newPackage Fixture.parsePackage
      Fixture.env_flaky 1 Fixture.live = Returns tt w' /\
    Socket (conn w') = Some 3%nat /\
    subscriptions (conn w') = Some ∅.
Proof.
  destruct (reader_hands_over_after_reconnect Fixture.codes Fixture.newPackage
              Fixture.parsePackage Fixture.env_flaky 0 2 Fixture.live 1%nat 3%nat
              [] (External "EOF") eq_refl eq_refl eq_refl eq_refl eq_refl eq_refl)
    as (w' & Hrun & _ & _ & _ & _ & Hsocket & _ & _ & _ & Hsubs).
  - cbn. lia.
  - intros k. reflexivity.
  - intros d Hd. discriminate Hd.
  - intros [|[|i]] Hi; [reflexivity | reflexivity | lia].
  - reflexivity.
  - exists w'. split; [exact Hrun|]. split; [exact Hsocket | exact Hsubs].
Defined.

(** ** Registrations *)

Section Registrations.

Variable codes : CommandCodes.
Variable newPackage :
  Command -> list byte -> list byte -> string -> string -> TCPPackage * option error.
Variable parsePackage : list byte -> TCPPackage * option error.
Variable env : Environment.

Lemma FromBytes_sized (u : list byte) :
  length u = uuid.Size -> fst (uuid.FromBytes u) = u.
Proof. intros Hlen. unfold uuid.FromBytes. now rewrite Hlen, Nat.eqb_refl. Qed.

Lemma FromBytes_malformed (u : list byte) :
  length u <> uuid.Size -> fst (uuid.FromBytes u) = uuid.Nil.
Proof.
  intros Hlen. unfold uuid.FromBytes.
  now destruct (Nat.eqb_spec (length u) uuid.Size).
Qed.

Lemma run_task_registers fuel pkg channel v table :
  requests (conn v) = Some table ->
  exists v',
    run_task codes newPackage parsePackage env fuel (GoSendPackage pkg channel) v
    = Returns tt v' /\
    requests (conn v')
    = Some (<[fst (uuid.FromBytes (pkg_CorrelationID pkg)) := channel]> table).
Proof.
  intros Hreq. cbn [run_task]. unfold bind, ret.
  rewrite (sendPackage_run env pkg channel v table Hreq).
  eexists. split; reflexivity.
Qed.

(** X18. The reply to a heartbeat request and the ping after a pong go out
    through [sendPackage], so each of them registers a channel: the channel
    is the one the reader has just made, and the goroutine stores it in the
    requests table under the correlation id of the heartbeat request, or
    under the new UUID of the ping, replacing whatever was registered
    there (with a codec that puts the id it is given into the frame). *)
Theorem probe_replies_stay_registered
    (buffer : list byte) (w : World) (s : TCPConn) (data : list byte)
    (msg : TCPPackage) (id : UUID) :
  codec_carries newPackage ->
  Mutex (conn w) = false ->
  connected (conn w) = true ->
  Socket (conn w) = Some s ->
  socket_Read env (n_read (calls (proc w))) = (data, None) ->
  parsePackage (refill buffer data) = (msg, None) ->
  pkg_Command msg = heartbeatRequest codes /\
  id = fst (uuid.FromBytes (pkg_CorrelationID msg)) \/
  pkg_Command msg = pong codes /\ pong codes <> heartbeatRequest codes /\
  id = uuid_NewV4 env (n_uuid (calls (proc w))) /\ length id = uuid.Size ->
  let channel := n_chan (calls (proc w)) in
  exists w' reply,
    readFromSocket_body codes newPackage parsePackage env buffer w
    = Returns (Continue (refill buffer data)) w' /\
    started (since w w') = [GoSendPackage reply channel] /\
    n_chan (calls (proc w')) = S channel /\
    forall fuel v table,
      requests (conn v) = Some table ->
      exists v',
        run_task codes newPackage parsePackage env fuel
          (GoSendPackage reply channel) v = Returns tt v' /\
        requests (conn v') = Some (<[id := channel]> table) /\
        map_get (requests (conn v')) id = Some channel.
Proof.
  intros Hcodec Hmu Hcon Hsock Hread Hparse Hcase channel.
  rewrite (readFromSocket_body_decodes codes newPackage parsePackage env
             buffer w s data msg Hmu Hcon Hsock Hread Hparse).
  unfold bind at 1.
  assert (Hchan : n_chan (calls (proc (after_read s w))) = channel).
  { subst channel. destruct w as [c [h [? ? ? ? ? ? ? ?]]]. reflexivity. }
  assert (Huuid : n_uuid (calls (proc (after_read s w)))
                  = n_uuid (calls (proc w))).
  { destruct w as [c [h [? ? ? ? ? ? ? ?]]]. reflexivity. }
  assert (Hregistered : forall reply,
             fst (uuid.FromBytes (pkg_CorrelationID reply)) = id ->
             forall fuel v table,
               requests (conn v) = Some table ->
               exists v',
                 run_task codes newPackage parsePackage env fuel
                   (GoSendPackage reply channel) v = Returns tt v' /\
                 requests (conn v') = Some (<[id := channel]> table) /\
                 map_get (requests (conn v')) id = Some channel).
  { intros reply Hid fuel v table Hreq.
    destruct (run_task_registers fuel reply channel v table Hreq)
      as (v' & Hrun & Hreq').
    rewrite Hid in Hreq'. exists v'. split; [exact Hrun|].
    split; [exact Hreq'|]. rewrite Hreq'. cbn. apply lookup_insert_eq. }
  destruct Hcase as [(Hcmd & ->) | (Hcmd & Hne & -> & Hlen)].
  - rewrite (dispatch_heartbeatRequest codes newPackage env msg _ Hcmd).
    rewrite Hchan.
    eexists; eexists. split; [reflexivity|].
    erewrite since_app
      by (cbn [after_read proc history]; rewrite <- app_assoc; reflexivity).
    split.
    { rewrite !started_app. now destruct (is_err _). }
    split.
    { cbn [proc calls]. destruct w as [c [h [? ? ? ? ? ? ? ?]]]. reflexivity. }
    apply Hregistered.
    destruct (Hcodec (heartbeatResponse codes) [] (pkg_CorrelationID msg)
                ""%string ""%string) as (_ & Hid & _).
    now rewrite Hid.
  - rewrite (dispatch_pong codes newPackage env msg _ Hne Hcmd).
    rewrite Hchan, Huuid.
    eexists; eexists. split; [reflexivity|].
    erewrite since_app
      by (cbn [after_read proc history]; rewrite <- app_assoc; reflexivity).
    split.
    { rewrite !started_app. now destruct (is_err _). }
    split.
    { cbn [proc calls]. destruct w as [c [h [? ? ? ? ? ? ? ?]]]. reflexivity. }
    apply Hregistered.
    destruct (Hcodec (ping codes) []
                (uuid.Bytes (uuid_NewV4 env (n_uuid (calls (proc w)))))
                ""%string ""%string) as (_ & Hid & _).
    rewrite Hid. now apply FromBytes_sized.
Qed.

(** X19. Two [sendPackage] calls whose frames have the same correlation id
    share one entry of the requests table: both frames are written, and the
    table ends up mapping the id to the channel of the second call only.
    The same holds for any two frames whose correlation ids are not 16 bytes
    long: [uuid.FromBytes] fails on both, its error is discarded, and both
    are registered under the zero UUID. *)
Theorem later_registration_replaces_earlier
    (pkg1 pkg2 : TCPPackage) (channel1 channel2 : Chan) (w : World)
    (table : gmap UUID Chan) :
  requests (conn w) = Some table ->
  pkg_CorrelationID pkg1 = pkg_CorrelationID pkg2 \/
  length (pkg_CorrelationID pkg1) <> uuid.Size /\
  length (pkg_CorrelationID pkg2) <> uuid.Size ->
  let id := fst (uuid.FromBytes (pkg_CorrelationID pkg1)) in
  exists r1 w1 r2 w2,
    sendPackage env pkg1 channel1 w = Returns r1 w1 /\
    sendPackage env pkg2 channel2 w1 = Returns r2 w2 /\
    socket_writes (since w w2) = [pkg1; pkg2] /\
    requests (conn w2) = Some (<[id := channel2]> table) /\
    map_get (requests (conn w2)) id = Some channel2 /\
    (length (pkg_CorrelationID pkg1) <> uuid.Size -> id = uuid.Nil).
Proof.
  intros Hreq Hsame id.
  assert (Hid : fst (uuid.FromBytes (pkg_CorrelationID pkg2)) = id).
  { subst id. destruct Hsame as [-> | [H1 H2]]; [reflexivity|].
    now rewrite !FromBytes_malformed. }
  pose proof (sendPackage_run env pkg1 channel1 w table Hreq) as Hrun1.
  cbv zeta in Hrun1. fold id in Hrun1.
  match type of Hrun1 with
  | _ = Returns _ ?W =>
      pose proof (sendPackage_run env pkg2 channel2 W
                    (<[id := channel1]> table) eq_refl) as Hrun2
  end.
  cbv zeta in Hrun2. rewrite Hid in Hrun2.
  cbn [conn proc history calls requests set_requests Socket] in Hrun2.
  eexists; eexists; eexists; eexists.
  split; [exact Hrun1|]. split; [exact Hrun2|].
  cbn [conn proc history requests set_requests].
  split.
  { erewrite since_app by (cbn; rewrite <- app_assoc; reflexivity).
    reflexivity. }
  rewrite insert_insert_eq. split; [reflexivity|].
  split; [cbn; apply lookup_insert_eq|].
  apply FromBytes_malformed.
Qed.

End Registrations.

Lemma probe_replies_stay_registered_witness :
  exists w' reply,
    readFromSocket_body Fixture.codes Fixture.newPackage Fixture.parsePackage
      (Fixture.env_serving (Byte.x01 :: Fixture.id_of Byte.x11))
      (repeat Byte.x00 20) Fixture.live
    = Returns (Continue (Byte.x01 :: Fixture.id_of Byte.x11
                         ++ repeat Byte.x00 3)) w' /\
    started (since Fixture.live w') = [GoSendPackage reply 0%nat] /\
    exists v',
      run_task Fixture.codes Fixture.newPackage Fixture.parsePackage
        (Fixture.env_serving (Byte.x01 :: Fixture.id_of Byte.x11)) 1
        (GoSendPackage reply 0%nat) Fixture.live = Returns tt v' /\
      map_get (requests (conn v')) (Fixture.id_of Byte.x11) = Some 0%nat.
Proof.
  pose proof (probe_replies_stay_registered Fixture.codes Fixture.newPackage
                Fixture.parsePackage
                (Fixture.env_serving (Byte.x01 :: Fixture.id_of Byte.x11))
                (repeat Byte.x00 20) Fixture.live 1%nat
                (Byte.x01 :: Fixture.id_of Byte.x11)
                {| pkg_Command := 0x01;
                   pkg_CorrelationID := Fixture.id_of Byte.x11;
                   pkg_Data := []; pkg_Login := ""; pkg_Password := "" |}
                (Fixture.id_of Byte.x11)
                Fixture_codec_carries eq_refl eq_refl eq_refl eq_refl eq_refl
                (or_introl (conj eq_refl eq_refl))) as Hprobe.
  cbv zeta in Hprobe.
  destruct Hprobe as (w' & reply & Hrun & Hstarted & _ & Htask).
  destruct (Htask 1%nat Fixture.live _ eq_refl) as (v' & Hgo & _ & Hget).
  exists w', reply. split; [exact Hrun|]. split; [exact Hstarted|].
  exists v'. split; [exact Hgo | exact Hget].
Defined.

Lemma later_registration_replaces_earlier_witness :
  exists r1 w1 r2 w2,
    sendPackage Fixture.env
      (fst (Fixture.newPackage 0x82 [] (Fixture.id_of Byte.x33) "" ""))
      4%nat Fixture.live = Returns r1 w1 /\
    sendPackage Fixture.env
      (fst (Fixture.newPackage 0x82 [] (Fixture.id_of Byte.x33) "" ""))
      5%nat w1 = Returns r2 w2 /\
    map_get (requests (conn w2)) (Fixture.id_of Byte.x33) = Some 5%nat.
Proof.
  pose proof (later_registration_replaces_earlier Fixture.env
                (fst (Fixture.newPackage 0x82 [] (Fixture.id_of Byte.x33) "" ""))
                (fst (Fixture.newPackage 0x82 [] (Fixture.id_of Byte.x33) "" ""))
                4%nat 5%nat Fixture.live
                {[ Fixture.id_of Byte.x11 := 7%nat ]} eq_refl
                (or_introl eq_refl)) as Hlater.
  cbv zeta in Hlater.
  destruct Hlater as (r1 & w1 & r2 & w2 & Hrun1 & Hrun2 & _ & _ & Hget & _).
  exists r1, w1, r2, w2. split; [exact Hrun1|]. split; [exact Hrun2 | exact Hget].
Defined.

(** ** The default configuration *)

(** X23. The configuration [NewConfiguration] returns is rejected by
    [NewEventStoreConnection] as it is, for its empty address.  A
    configuration that keeps its reconnection delay and reconnect maximum and
    names a discoverer, or an address and a positive port, is accepted; the
    connection then allows 10 attempts and sleeps 10 seconds between
    them. *)
Theorem NewConfiguration_needs_an_endpoint (env : Environment) (p : Process) :
  NewEventStoreConnection env NewConfiguration p
  = ((None, Some (ErrEmptyAddress ""%string)), p) /\
  (forall config,
     ReconnectionDelay config = ReconnectionDelay NewConfiguration ->
     MaxReconnects config = MaxReconnects NewConfiguration ->
     EndpointDiscoverer config <> None \/
     Address config <> ""%string /\ 0 < Port config ->
     exists connection p',
       NewEventStoreConnection env config p = ((Some connection, None), p') /\
       Config connection = config /\
       MaxReconnects (Config connection) = 10 /\
       delay_Duration (ReconnectionDelay (Config connection))
       = 10 * 1000 * time_Millisecond).
Proof.
  split; [reflexivity|].
  intros config Hdelay Hmax Hendpoint.
  unfold NewEventStoreConnection.
  destruct (EndpointDiscoverer config) as [d|] eqn:Hd.
  - eexists; eexists. split; [reflexivity|]. cbn.
    rewrite Hmax, Hdelay. repeat split.
  - destruct Hendpoint as [Hno | [Haddr Hport]]; [contradiction|].
    destruct (Address config) as [|a rest] eqn:Ha; [contradiction|]. cbn.
    destruct (Z.leb_spec (Port config) 0); [lia|].
    eexists; eexists. split; [reflexivity|]. cbn.
    rewrite Hmax, Hdelay. repeat split.
Qed.

Lemma NewConfiguration_needs_an_endpoint_witness :
  exists connection p',
    NewEventStoreConnection Fixture.env Scene.local_defaults Fixture.boot
    = ((Some connection, None), p') /\
    MaxReconnects (Config connection) = 10.
Proof.
  destruct (NewConfiguration_needs_an_endpoint Fixture.env Fixture.boot)
    as (_ & Haccepted).
  destruct (Haccepted Scene.local_defaults eq_refl eq_refl)
    as (connection & p' & Hrun & _ & Hmax & _).
  - right. split; [discriminate | reflexivity].
  - exists connection, p'. split; [exact Hrun | exact Hmax].
Defined.

(** ** A request and its reply *)

